(** * DiagnoMed-AI client: symptom extraction, request construction and
      session handling of the diagnosis flow

    A shallow embedding of the React pages [SymptomsPage], [UploadScansPage]
    and [DiagnosisFlow], and the properties of them that the specification
    relies on.

    - Values that come from the backend stay dynamically typed ([jsval]);
      numbers are IEEE 754 doubles.
    - [localStorage] is a finite map from keys to strings.
    - A handler is a computation over its component state and an
      environment (storage, the log of requests issued, navigations); it
      may throw, and [try]/[catch]/[finally] are combinators.
    - Every [await fetch(...)] of a handler is settled by an outcome that
      the handler takes as an argument: the request is logged, then the
      outcome decides how the handler goes on.
    - A handler reads the state cells it closed over when it was called;
      its [setX] calls build the next state. *)

From Stdlib Require Import Floats ZArith Ascii String List Bool Lia DecimalString.
From stdpp Require Import gmap strings list.

Open Scope string_scope.
Set Warnings "-register-all,-inexact-float".

(* ===================================================================== *)
(** ** JavaScript strings *)
(* ===================================================================== *)

Module JsString.

(** A string is its sequence of code units; the model keeps the code
    units below 256, one [ascii] each. *)

Definition code (c : ascii) : nat := nat_of_ascii c.

(** Upper-case letters of that range: A-Z, and the accented capitals
    U+00C0..U+00DE without the multiplication sign U+00D7. *)
Definition is_upper (c : ascii) : bool :=
  ((65 <=? code c)%nat && (code c <=? 90)%nat)
  || ((192 <=? code c)%nat && (code c <=? 222)%nat && negb (code c =? 215)%nat).

Definition lower_char (c : ascii) : ascii :=
  if is_upper c then ascii_of_nat (code c + 32) else c.

(** [String.prototype.toLowerCase] *)
Fixpoint toLowerCase (s : string) : string :=
  match s with
  | EmptyString => EmptyString
  | String c s' => String (lower_char c) (toLowerCase s')
  end.

(** [String.prototype.startsWith] *)
Fixpoint startsWith (s p : string) {struct p} : bool :=
  match p, s with
  | EmptyString, _ => true
  | String _ _, EmptyString => false
  | String a p', String b s' => if Ascii.eqb a b then startsWith s' p' else false
  end.

(** [String.prototype.includes]: is [p] a substring of [s]? *)
Fixpoint includes (s p : string) : bool :=
  startsWith s p
  || match s with
     | EmptyString => false
     | String _ s' => includes s' p
     end.

Fixpoint drop (n : nat) (s : string) : string :=
  match n, s with
  | O, _ => s
  | S _, EmptyString => EmptyString
  | S n', String _ s' => drop n' s'
  end.

(** [String.prototype.replace] with a string pattern: only the FIRST
    occurrence of [pat] is replaced. *)
Fixpoint replace (s pat rep : string) : string :=
  if startsWith s pat then rep ++ drop (String.length pat) s
  else match s with
       | EmptyString => EmptyString
       | String c s' => String c (replace s' pat rep)
       end.

(** [String.prototype.split] with a one-character separator. *)
Fixpoint split (sep : ascii) (s : string) : list string :=
  match s with
  | EmptyString => [EmptyString]
  | String c s' =>
      if Ascii.eqb c sep then EmptyString :: split sep s'
      else match split sep s' with
           | h :: t => String c h :: t
           | [] => [String c EmptyString]
           end
  end.

(** White space and line terminators below 256: TAB, LF, VT, FF, CR,
    SPACE and NO-BREAK SPACE. *)
Definition is_space (c : ascii) : bool :=
  ((9 <=? code c)%nat && (code c <=? 13)%nat)
  || (code c =? 32)%nat || (code c =? 160)%nat.

Fixpoint trimStart (s : string) : string :=
  match s with
  | EmptyString => EmptyString
  | String c s' => if is_space c then trimStart s' else s
  end.

Fixpoint trimEnd (s : string) : string :=
  match s with
  | EmptyString => EmptyString
  | String c s' =>
      match trimEnd s' with
      | EmptyString => if is_space c then EmptyString else String c EmptyString
      | t => String c t
      end
  end.

(** [String.prototype.trim] *)
Definition trim (s : string) : string := trimEnd (trimStart s).

(** Truthiness of a string: [Boolean(s)]. *)
Definition nonempty (s : string) : bool :=
  match s with EmptyString => false | String _ _ => true end.

(** The result of [parseInt]: [NaN] or an integer (its mathematical
    value; JavaScript rounds it to a double beyond 2^53). *)
Inductive parsed_int : Type :=
| PNaN
| PInt (z : Z).

Definition digit_val (c : ascii) : option Z :=
  if ((48 <=? code c)%nat && (code c <=? 57)%nat) then Some (Z.of_nat (code c - 48))
  else None.

Definition hex_val (c : ascii) : option Z :=
  if ((48 <=? code c)%nat && (code c <=? 57)%nat) then Some (Z.of_nat (code c - 48))
  else if ((97 <=? code c)%nat && (code c <=? 102)%nat) then Some (Z.of_nat (code c - 87))
  else if ((65 <=? code c)%nat && (code c <=? 70)%nat) then Some (Z.of_nat (code c - 55))
  else None.

(** The longest prefix of digits, read in the given radix; [acc] is
    [None] until a digit has been read. *)
Fixpoint digits (val : ascii -> option Z) (radix : Z) (s : string) (acc : option Z)
  : option Z :=
  match s with
  | EmptyString => acc
  | String c s' =>
      match val c with
      | Some d => digits val radix s' (Some (default 0%Z acc * radix + d)%Z)
      | None => acc
      end
  end.

(** [parseInt(s)] without a radix: leading white space, a sign, an
    optional [0x] prefix, then digits. *)
Definition parseInt (s : string) : parsed_int :=
  let s1 := trimStart s in
  let '(neg, s2) :=
    match s1 with
    | String "-" r => (true, r)
    | String "+" r => (false, r)
    | _ => (false, s1)
    end in
  let r :=
    match s2 with
    | String "0" (String "x" r) | String "0" (String "X" r) => digits hex_val 16 r None
    | _ => digits digit_val 10 s2 None
    end in
  match r with
  | None => PNaN
  | Some v => PInt (if neg then (- v)%Z else v)
  end.

(** [String(n)] for the result of [parseInt]. *)
Definition numToString (n : parsed_int) : string :=
  match n with
  | PNaN => "NaN"
  | PInt z => NilZero.string_of_int (Z.to_int z)
  end.

End JsString.

Import JsString.

(* ===================================================================== *)
(** ** JavaScript values *)
(* ===================================================================== *)

Module JsValue.

(** What [JSON.parse] and [res.json()] produce, plus [undefined].  A
    number is an IEEE 754 double; an object lists its own properties in
    insertion order. *)
Inductive jsval : Type :=
| Undefined
| Null
| Bool (b : bool)
| Num (n : float)
| Str (s : string)
| Arr (items : list jsval)
| Obj (fields : list (string * jsval)).

(** [Boolean(v)]: [undefined], [null], [false], [0], [-0], [NaN] and the
    empty string are falsy. *)
Definition truthy (v : jsval) : bool :=
  match v with
  | Undefined | Null => false
  | Bool b => b
  | Num n => negb (is_zero n || is_nan n)
  | Str s => nonempty s
  | Arr _ | Obj _ => true
  end.

(** [a || b] on already evaluated operands. *)
Definition js_or (a b : jsval) : jsval := if truthy a then a else b.

Definition nullish (v : jsval) : bool :=
  match v with Undefined | Null => true | _ => false end.

(** [v === "s"] for a string literal. *)
Definition is_str (v : jsval) (s : string) : bool :=
  match v with Str t => String.eqb t s | _ => false end.

(** A value taken from [localStorage.getItem]: a string or [null]. *)
Definition of_item (o : option string) : jsval :=
  match o with Some s => Str s | None => Null end.

Definition present {A : Type} (o : option A) : bool :=
match o with Some _ => true | None => false end.

(** [if (item) ... else ...] on such a value: the stored string when it
    is there and not empty. *)
Definition if_item {A : Type} (o : option string) (f : string -> A) (g : A) : A :=
  match o with
  | Some s => if nonempty s then f s else g
  | None => g
  end.

Fixpoint assoc {A : Type} (k : string) (l : list (string * A)) : option A :=
  match l with
  | [] => None
  | (k', v) :: t => if String.eqb k k' then Some v else assoc k t
  end.

Definition index_key (i : nat) : string := numToString (PInt (Z.of_nat i)).

(** The own enumerable properties, as [Object.keys] / [Object.values] and
    object spread see them: the fields of an object, the indices of an
    array or of a string, nothing for the other values. *)
Definition ownEntries (v : jsval) : list (string * jsval) :=
  match v with
  | Obj fields => fields
  | Arr items => imap (fun i x => (index_key i, x)) items
  | Str s => imap (fun i c => (index_key i, Str (String c EmptyString))) (list_ascii_of_string s)
  | _ => []
  end.

Definition Object_keys (v : jsval) : list string := map fst (ownEntries v).
Definition Object_values (v : jsval) : list jsval := map snd (ownEntries v).

(** [obj[k]] on a value that is neither [null] nor [undefined].  The
    handlers read no key that strings or arrays carry as a built-in. *)
Definition getOwn (v : jsval) (k : string) : jsval :=
  default Undefined (assoc k (ownEntries v)).

(** [{ ...prev, [k]: v }] on the property list: an existing key keeps
    its place and takes the new value, a new key goes last. *)
Fixpoint obj_set (k : string) (v : jsval) (l : list (string * jsval))
  : list (string * jsval) :=
  match l with
  | [] => [(k, v)]
  | (k', v') :: t => if String.eqb k k' then (k, v) :: t else (k', v') :: obj_set k v t
  end.

Definition spread_with (prev : jsval) (k : string) (v : jsval) : jsval :=
  Obj (obj_set k v (ownEntries prev)).

End JsValue.

Import JsValue.

(* ===================================================================== *)
(** ** Effects: storage, requests, exceptions *)
(* ===================================================================== *)

Module Effects.

(** A selected file of the upload form (its name stands for it). *)
Definition File : Type := string.

(** The body of [POST /api/diagnosis/start]; a field that
    [JSON.stringify] leaves out ([undefined], or never assigned) is
    [None]. *)
Record StartRequest : Type := {
  symptoms : list string;
  region : string;
  month : option parsed_int;
  family_history : list string;
  genetic_variants : list string;
  cnn_predictions : option jsval;
  case_id : option jsval;
  image_url : option jsval;
  gradcam_url : option jsval
}.

Inductive Request : Type :=
| GetStatus (sid : string)
| PostStart (body : StartRequest)
| PostTestResult (sid : jsval) (test_id : string) (result : string)
| GetResult (sid : jsval) (contraindications : option jsval)
| PostSimilar (symptoms : jsval) (top_k : Z)
| PostSubmit (name symptoms : string) (image : option File).

(** How a [fetch] settles: the promise rejects, or a response arrives
    whose body parses as JSON or does not. *)
Inductive body : Type :=
| BadJson (msg : string)
| Json (data : jsval).

Inductive outcome : Type :=
| NetFail (msg : string)
| Resp (ok : bool) (b : body).

(** What the handlers act on besides their component state. *)
Record Env : Type := {
  store : gmap string string;      (* localStorage *)
  sent : list Request;             (* requests issued, oldest first *)
  routes : list string;            (* navigate(...) calls *)
  alerts : list string             (* alert(...) calls *)
}.

Definition with_store (f : gmap string string -> gmap string string) (e : Env) : Env :=
  {| store := f (store e); sent := sent e; routes := routes e; alerts := alerts e |}.
Definition with_sent (r : Request) (e : Env) : Env :=
  {| store := store e; sent := sent e ++ [r]; routes := routes e; alerts := alerts e |}.
Definition with_route (r : string) (e : Env) : Env :=
  {| store := store e; sent := sent e; routes := routes e ++ [r]; alerts := alerts e |}.
Definition with_alert (a : string) (e : Env) : Env :=
  {| store := store e; sent := sent e; routes := routes e; alerts := alerts e ++ [a] |}.

(** A computation either returns or throws an error with a message. *)
Inductive result (A : Type) : Type :=
| Ok (a : A)
| Throw (msg : string).
Arguments Ok {A} a.
Arguments Throw {A} msg.

(** Handlers over a component state [P]: state and environment are
    threaded, and survive a throw. *)
Definition M (P A : Type) : Type := P * Env -> (P * Env) * result A.

Definition ret {P A} (a : A) : M P A := fun w => (w, Ok a).
Definition throw {P A} (msg : string) : M P A := fun w => (w, Throw msg).
Definition bind {P A B} (m : M P A) (k : A -> M P B) : M P B :=
  fun w => match m w with
           | (w', Ok a) => k a w'
           | (w', Throw msg) => (w', Throw msg)
           end.

(** [try { m } catch (err) { h err.message }] *)
Definition try_catch {P A} (m : M P A) (h : string -> M P A) : M P A :=
  fun w => match m w with
           | (w', Ok a) => (w', Ok a)
           | (w', Throw msg) => h msg w'
           end.

(** [... finally { f }] *)
Definition finally {P A} (m : M P A) (f : M P unit) : M P A :=
  fun w => match m w with
           | (w', r) => match f w' with
                        | (w'', Ok _) => (w'', r)
                        | (w'', Throw msg) => (w'', Throw msg)
                        end
           end.

Definition modify {P} (f : P -> P) : M P unit := fun w => ((f (fst w), snd w), Ok tt).
Definition modify_env {P} (f : Env -> Env) : M P unit := fun w => ((fst w, f (snd w)), Ok tt).
Definition page {P} : M P P := fun w => (w, Ok (fst w)).

Definition getItem {P} (k : string) : M P (option string) :=
  fun w => (w, Ok (store (snd w) !! k)).
Definition localStorage {P} : M P (gmap string string) :=
  fun w => (w, Ok (store (snd w))).
Definition setItem {P} (k v : string) : M P unit := modify_env (with_store (insert k v)).
Definition removeItem {P} (k : string) : M P unit := modify_env (with_store (delete k)).
Definition navigate {P} (r : string) : M P unit := modify_env (with_route r).
Definition alert {P} (a : string) : M P unit := modify_env (with_alert a).

(** [fetch(req)]: the request goes out. *)
Definition send {P} (req : Request) : M P unit := modify_env (with_sent req).

(** [await] of the pending fetch: a rejection is thrown at the [await]. *)
Definition settle {P} (o : outcome) : M P (bool * body) :=
  match o with
  | NetFail msg => throw msg
  | Resp ok b => ret (ok, b)
  end.

(** [await fetch(req)] *)
Definition fetch {P} (req : Request) (o : outcome) : M P (bool * body) :=
  bind (send req) (fun _ => settle o).

(** [await res.json()] *)
Definition res_json {P} (b : body) : M P jsval :=
  match b with
  | BadJson msg => throw msg
  | Json data => ret data
  end.

(** The message of the [TypeError] raised by reading property [k] of
    [null] or [undefined] (as V8 words it). *)
Definition type_error (v : jsval) (k : string) : string :=
  "Cannot read properties of "
    ++ (match v with Null => "null" | _ => "undefined" end)
    ++ " (reading '" ++ k ++ "')".

(** [v.k] *)
Definition getProp {P} (v : jsval) (k : string) : M P jsval :=
  if nullish v then throw (type_error v k) else ret (getOwn v k).

(** [v?.k] *)
Definition optProp (v : jsval) (k : string) : jsval :=
  if nullish v then Undefined else getOwn v k.

Definition when {P} (c : bool) (m : M P unit) : M P unit := if c then m else ret tt.

(** The state and environment a handler leaves behind. *)
Definition run {P A} (m : M P A) (p : P) (e : Env) : P * Env := fst (m (p, e)).
Definition outcome_of {P A} (m : M P A) (p : P) (e : Env) : result A := snd (m (p, e)).

End Effects.

Import Effects.

(** stdpp's monad notations ([x ← m; k] and [m ;; k]) for handlers. *)
#[export] Instance M_ret {P} : MRet (M P) := fun A a => ret a.
#[export] Instance M_bind {P} : MBind (M P) := fun A B k m => bind m k.

(* ===================================================================== *)
(** ** SymptomsPage.jsx *)
(* ===================================================================== *)

Module SymptomsPage.

Record State : Type := {
  symptoms : string;
  region : string;
  month : parsed_int;
  familyHistory : string;
  geneticVariants : string
}.

(** [Array.from({ length: 12 }, (_, i) => <option value={i + 1}>)]: the
    values the month selector offers. *)
Definition monthOptions : list parsed_int :=
  map (fun i => PInt (Z.of_nat i + 1)) (seq 0 12).

(** [onChange={(e) => setMonth(parseInt(e.target.value))}], where
    [e.target.value] is the selected option's value as a string. *)
Definition onMonthChange (value : string) (st : State) : State :=
  {| symptoms := symptoms st; region := region st; month := parseInt value;
     familyHistory := familyHistory st; geneticVariants := geneticVariants st |}.

Definition saveInputs (st : State) : M State unit :=
  setItem "symptoms" (symptoms st);;
  setItem "patientRegion" (region st);;
  setItem "symptomMonth" (numToString (month st));;
  setItem "familyHistory" (familyHistory st);;
  setItem "geneticVariants" (geneticVariants st).

Definition handleSubmit : M State unit :=
  st ← page;
  if negb (nonempty (trim (symptoms st))) then mret tt
  else
    saveInputs st;;
    navigate "/upload-scans".

Definition handleSymptomOnlyAnalysis : M State unit :=
  st ← page;
  if negb (nonempty (trim (symptoms st))) then alert "Please enter your symptoms first"
  else
    saveInputs st;;
    removeItem "cnnPredictions";;
    removeItem "imageUrl";;
    removeItem "gradcamUrl";;
    removeItem "diagnosisCaseId";;
    removeItem "diagnosisSessionId";;
    navigate "/diagnosis-flow".

(** [const quickSymptoms = [...]] *)
Definition quickSymptoms : list string :=
  [ "Headache"; "Fever"; "Cough"; "Fatigue"; "Nausea"; "Sore throat";
    "Shortness of breath" ].

Definition setSymptoms (v : string) (st : State) : State :=
  {| symptoms := v; region := region st; month := month st;
     familyHistory := familyHistory st; geneticVariants := geneticVariants st |}.

(** [Array.prototype.includes] on strings. *)
Definition list_includes (l : list string) (x : string) : bool :=
  existsb (String.eqb x) l.

(** [symptoms.split(",").map((s) => s.trim()).filter(Boolean)] *)
Definition symptomList (text : string) : list string :=
  List.filter nonempty (map trim (split "," text)).

Definition handleToggleSymptom (symptom : string) (st : State) : State :=
  let symptomList := symptomList (symptoms st) in
  if list_includes symptomList symptom then
    let updated :=
      String.concat ", " (List.filter (fun s => negb (String.eqb s symptom)) symptomList) in
    setSymptoms updated st
  else
    setSymptoms
      (match symptomList with
       | [] => symptom
       | _ :: _ => symptoms st ++ ", " ++ symptom
       end) st.

Definition isSymptomSelected (symptom : string) (st : State) : bool :=
  let symptomList := map trim (split "," (symptoms st)) in
  list_includes symptomList symptom.

End SymptomsPage.

(* ===================================================================== *)
(** ** UploadScansPage *)
(* ===================================================================== *)

Module UploadScansPage.

Record State : Type := {
  file : option File;
  status : string;
  loading : bool
}.

Definition setStatus (s : string) : M State unit :=
  modify (fun st => {| file := file st; status := s; loading := loading st |}).
Definition setLoading (b : bool) : M State unit :=
  modify (fun st => {| file := file st; status := status st; loading := b |}).

Definition msg_need_input : string := "❌ Please provide symptoms or select an image file.".
Definition msg_no_symptoms : string :=
  "⚠️ No symptoms saved. Please go back and enter symptoms first.".
Definition msg_server_error : string := "❌ Server error, please try again later.".

Section Handlers.

(** Built-ins of the host: [String(v)] and [JSON.stringify(v)]. *)
Variable ToString : jsval -> string.
Variable JSON_stringify : jsval -> string.

Definition errorStatus (data : jsval) : M State unit :=
  e ← getProp data "error";
  d ← getProp data "detail";
  setStatus ("❌ Error: " ++ ToString (js_or e (js_or d (Str "Something went wrong")))).

(** The navigation that both handlers schedule with [setTimeout] is
    recorded at once. *)
Definition handleUpload (o : outcome) : M State unit :=
  st ← page;
  stored ← getItem "symptoms";
  let symptoms := default "" stored in
  if negb (present (file st)) && negb (nonempty symptoms)
  then setStatus msg_need_input
  else
    finally
      (try_catch
         (setLoading true;;
          setStatus "⏳ Analyzing...";;
          '(ok, b) ← fetch (PostSubmit "Anonymous Patient" symptoms (file st)) o;
          data ← res_json b;
          if (ok : bool) then
            setStatus "✅ Analysis complete!";;
            cid ← getProp data "case_id";
            setItem "lastCaseId" (ToString cid);;
            setItem "lastAnalysis" (JSON_stringify data);;
            preds ← getProp data "predictions";
            when (truthy preds && negb (Nat.eqb (length (Object_keys preds)) 0))
              (setItem "cnnPredictions" (JSON_stringify preds));;
            img ← getProp data "image_url";
            when (truthy img) (setItem "imageUrl" (ToString img));;
            gcam ← getProp data "gradcam_url";
            when (truthy gcam) (setItem "gradcamUrl" (ToString gcam));;
            when (truthy cid) (setItem "diagnosisCaseId" (ToString cid));;
            navigate "/diagnosis-flow"
          else errorStatus data)
         (fun _ => setStatus msg_server_error))
      (setLoading false).

Definition handleSkipScan (o : outcome) : M State unit :=
  stored ← getItem "symptoms";
  if_item stored
    (fun symptoms =>
       finally
         (try_catch
            (setLoading true;;
             setStatus "⏳ Analyzing symptoms only...";;
             '(ok, b) ← fetch (PostSubmit "Anonymous Patient" symptoms None) o;
             data ← res_json b;
             if (ok : bool) then
               setStatus "✅ Analysis complete!";;
               cid ← getProp data "case_id";
               setItem "lastCaseId" (ToString cid);;
               setItem "lastAnalysis" (JSON_stringify data);;
               removeItem "cnnPredictions";;
               removeItem "imageUrl";;
               removeItem "gradcamUrl";;
               removeItem "diagnosisCaseId";;
               removeItem "diagnosisSessionId";;
               navigate "/diagnosis-flow"
             else errorStatus data)
            (fun _ => setStatus msg_server_error))
         (setLoading false))
    (setStatus msg_no_symptoms).

End Handlers.

End UploadScansPage.

(* ===================================================================== *)
(** ** DiagnosisFlow *)
(* ===================================================================== *)

Module DiagnosisFlow.

(** The [useState] cells of the component. *)
Inductive Cell : Type :=
| step | loading | error | sessionId | candidates | recommendedTests
| completedTests | totalCost | treatment | sessionStatus | trustworthiness
| report | contextualFactors | similarCases | contraindications
| cnnPredictions | imageUrl | gradcamUrl | caseId.

#[export] Instance Cell_eq_dec : EqDecision Cell.
Proof. solve_decision. Defined.

Definition State : Type := Cell -> jsval.

(** The initial values given to [useState]. *)
Definition initial : State := fun c =>
  match c with
  | step => Num 1
  | loading => Bool false
  | error => Str ""
  | sessionId => Null
  | candidates => Arr []
  | recommendedTests => Arr []
  | completedTests => Obj []
  | totalCost => Num 0
  | treatment => Null
  | sessionStatus => Str "in_progress"
  | trustworthiness => Null
  | report => Null
  | contextualFactors => Null
  | similarCases => Arr []
  | contraindications => Str ""
  | cnnPredictions => Null
  | imageUrl => Null
  | gradcamUrl => Null
  | caseId => Null
  end.

Definition upd (c : Cell) (v : jsval) (st : State) : State :=
  fun c' => if decide (c = c') then v else st c'.

(** [setX(v)] *)
Definition set (c : Cell) (v : jsval) : M State unit := modify (upd c v).
(** [setX(prev => f prev)] *)
Definition update (c : Cell) (f : jsval -> jsval) : M State unit :=
  modify (fun st => upd c (f (st c)) st).

(** *** extractSymptoms *)

Definition known : list string :=
  [ "fever"; "headache"; "cough"; "fatigue"; "joint_pain";
    "rash"; "nausea"; "vomiting"; "diarrhea"; "chills";
    "chest_pain"; "shortness_of_breath"; "body_aches";
    "sore_throat"; "runny_nose"; "muscle_pain"; "weakness" ].

Definition extractSymptoms (text : string) : list string :=
  let textLower := toLowerCase text in
  List.filter
    (fun s => includes textLower (replace s "_" " ") || includes textLower s)
    known.

(** *** Colouring

    [prob] is a candidate's [base_probability], a number; [level] is the
    [confidence_level] of the trust report, any value. *)

Definition getProbabilityColor (prob : float) : string :=
  if (0.7 <=? prob)%float then "bg-red-500"
  else if (0.4 <=? prob)%float then "bg-yellow-500"
  else "bg-green-500".

Definition getConfidenceColor (level : jsval) : string :=
  if is_str level "High" then "text-green-600 bg-green-50 border-green-200"
  else if is_str level "Medium" then "text-yellow-600 bg-yellow-50 border-yellow-200"
  else "text-red-600 bg-red-50 border-red-200".

(** *** startDiagnosis: the request *)

(** [stored ? stored.split(",").map(s => s.trim()).filter(Boolean) : []] *)
Definition terms (stored : option string) : list string :=
  if_item stored (fun s => List.filter nonempty (map trim (split "," s))) [].

Definition include (v : jsval) : option jsval := if truthy v then Some v else None.

Definition requestBody (ls : gmap string string) (symptomsText : string)
    (cnnPreds imgUrl gcamUrl csId : jsval) : StartRequest :=
  {| symptoms := extractSymptoms symptomsText;
     region := if_item (ls !! "patientRegion") (fun r => r) "Global";
     month := if_item (ls !! "symptomMonth") (fun m => Some (parseInt m)) None;
     family_history := terms (ls !! "familyHistory");
     genetic_variants := terms (ls !! "geneticVariants");
     cnn_predictions := include cnnPreds;
     case_id := include csId;
     image_url := include imgUrl;
     gradcam_url := include gcamUrl |}.

Section Handlers.

(** Built-ins of the host: [String(v)], [JSON.stringify(v)],
    [JSON.parse(s)] (which may throw), [a > b] and [Math.max(...vs)]. *)
Variable ToString : jsval -> string.
Variable JSON_stringify : jsval -> string.
Variable JSON_parse : string -> result jsval.
Variable js_gt : jsval -> jsval -> bool.
Variable Math_max : list jsval -> jsval.

Definition parse (s : string) : M State jsval :=
  match JSON_parse s with
  | Ok v => mret v
  | Throw msg => throw msg
  end.

(** [startDiagnosis] up to its [await fetch]: nothing there throws. *)
Definition startDiagnosis_begin (symptomsText : string)
    (cnnPreds imgUrl gcamUrl csId : jsval) : M State unit :=
  set loading (Bool true);;
  set error (Str "");;
  ls ← localStorage;
  send (PostStart (requestBody ls symptomsText cnnPreds imgUrl gcamUrl csId)).

(** [startDiagnosis] from the moment its fetch settles. *)
Definition startDiagnosis_end (o : outcome) : M State unit :=
  finally
    (try_catch
       ('(ok, b) ← settle o;
        data ← res_json b;
        if (ok : bool) then
          sid ← getProp data "session_id";
          set sessionId sid;;
          c ← getProp data "candidates";
          set candidates (js_or c (Arr []));;
          rt ← getProp data "recommended_tests";
          set recommendedTests (js_or rt (Arr []));;
          cf ← getProp data "contextual_factors";
          set contextualFactors (js_or cf Null);;
          removeItem "symptoms";;
          removeItem "cnnPredictions";;
          removeItem "imageUrl";;
          removeItem "gradcamUrl";;
          removeItem "diagnosisCaseId";;
          setItem "diagnosisSessionId" (ToString sid)
        else
          d ← getProp data "detail";
          set error (js_or d (Str "Failed to start diagnosis")))
       (fun msg => set error (Str ("Server error: " ++ msg))))
    (set loading (Bool false)).

Definition startDiagnosis (symptomsText : string)
    (cnnPreds imgUrl gcamUrl csId : jsval) (o : outcome) : M State unit :=
  startDiagnosis_begin symptomsText cnnPreds imgUrl gcamUrl csId;;
  startDiagnosis_end o.

(** *** resumeSession

    [o] settles the status request.  The restart that the [else] branch may
    trigger is not awaited: [startDiagnosis] runs up to its fetch there,
    the [finally] follows, and the restart goes on later, when its own
    fetch settles.  [resumeSession_own] is the handler up to the end of its
    [finally]; it tells whether a restart is pending. *)
Definition resumeSession_own (savedSessionId : string) (o : outcome) : M State bool :=
  set loading (Bool true);;
  set error (Str "");;
  finally
    (try_catch
       ('(ok, b) ← fetch (GetStatus savedSessionId) o;
        if (ok : bool) then
          data ← res_json b;
          set sessionId (Str savedSessionId);;
          c ← getProp data "candidates";
          set candidates (js_or c (Arr []));;
          rt ← getProp data "recommended_tests";
          set recommendedTests (js_or rt (Arr []));;
          ct ← getProp data "completed_tests";
          set completedTests (js_or ct (Obj []));;
          tc ← getProp data "total_cost";
          set totalCost (js_or tc (Num 0));;
          st ← getProp data "status";
          set sessionStatus (js_or st (Str "in_progress"));;
          set step (Num 2);;
          mret false
        else
          removeItem "diagnosisSessionId";;
          symptoms ← getItem "symptoms";
          if_item symptoms
            (fun s => startDiagnosis_begin s Null Null Null Null;; mret true)
            (mret false))
       (fun msg =>
          removeItem "diagnosisSessionId";;
          set error (Str ("Could not resume session: " ++ msg));;
          mret false))
    (set loading (Bool false)).

(** The whole of it: [o'] settles the fetch of the pending restart. *)
Definition resumeSession (savedSessionId : string) (o o' : outcome) : M State unit :=
  restarted ← resumeSession_own savedSessionId o;
  when restarted (startDiagnosis_end o').

(** *** The mount effect ([useEffect(..., [])])

    The handler it starts is followed to its end: [o] settles its first
    fetch and [o'] the fetch of a restart. *)
Definition useEffect (o o' : outcome) : M State unit :=
  savedCnn ← getItem "cnnPredictions";
  savedImage ← getItem "imageUrl";
  savedGradcam ← getItem "gradcamUrl";
  savedCaseId ← getItem "diagnosisCaseId";
  if_item savedCnn
    (fun s => try_catch (v ← parse s; set cnnPredictions v) (fun _ => mret tt))
    (mret tt);;
  if_item savedImage (fun s => set imageUrl (Str s)) (mret tt);;
  if_item savedGradcam (fun s => set gradcamUrl (Str s)) (mret tt);;
  if_item savedCaseId (fun s => set caseId (Str s)) (mret tt);;
  savedSessionId ← getItem "diagnosisSessionId";
  if_item savedSessionId
    (fun sid => resumeSession sid o o')
    (symptoms ← getItem "symptoms";
     if_item symptoms
       (fun s =>
          savedCnn' ← getItem "cnnPredictions";
          cnn ← if_item savedCnn' parse (mret Null);
          startDiagnosis s cnn (of_item savedImage) (of_item savedGradcam)
            (of_item savedCaseId) o)
       (mret tt)).

(** *** submitTestResult

    Called as [submitTestResult(test.test_id, "positive" | "negative")];
    [testId] is the property key that the id denotes. *)
Definition submitTestResult (testId result : string) (o : outcome) : M State unit :=
  st ← page;
  if negb (truthy (st sessionId)) then mret tt
  else
    set loading (Bool true);;
    finally
      (try_catch
         ('(ok, b) ← fetch (PostTestResult (st sessionId) testId result) o;
          data ← res_json b;
          if (ok : bool) then
            uc ← getProp data "updated_candidates";
            set candidates (js_or uc (Arr []));;
            tc ← getProp data "total_cost";
            set totalCost (js_or tc (Num 0));;
            s ← getProp data "status";
            set sessionStatus s;;
            rt ← getProp data "recommended_tests";
            when (truthy rt) (set recommendedTests rt);;
            update completedTests (fun prev => spread_with prev testId (Str result))
          else
            d ← getProp data "detail";
            set error (js_or d (Str "Failed to submit test result")))
         (fun msg => set error (Str ("Server error: " ++ msg))))
      (set loading (Bool false)).

(** *** getFinalResult *)

(** [report?.patient_summary?.symptoms
     || candidates.slice(0, 3).map(c => c.name)], on the state the
    handler closed over. *)
Definition symptomsForSearch (st : State) : M State jsval :=
  let fromReport := optProp (optProp (st report) "patient_summary") "symptoms" in
  if truthy fromReport then mret fromReport
  else match st candidates with
       | Arr cs =>
           names ← mapM (fun c => getProp c "name") (firstn 3 cs);
           mret (Arr names)
       | _ => throw "candidates.slice(...).map is not a function"
       end.

(** [Object.keys(cnn).reduce((a, b) => cnn[a] > cnn[b] ? a : b)] *)
Definition topLabel (cnn : jsval) : M State jsval :=
  match Object_keys cnn with
  | [] => throw "Reduce of empty array with no initial value"
  | k :: ks =>
      mret (Str (fold_left
                   (fun a b => if js_gt (getOwn cnn a) (getOwn cnn b) then a else b)
                   ks k))
  end.

(** The inner [try] block of [getFinalResult], "Fetch similar cases from
    RAG store": whatever is thrown in it is caught and only logged. *)
Definition similarCasesBlock (st : State) (o' : outcome) : M State unit :=
  try_catch
    (q ← symptomsForSearch st;
     '(_, b') ← fetch (PostSimilar q 3) o';
     similarData ← res_json b';
     sc ← getProp similarData "similar_cases";
     when (truthy sc) (set similarCases sc))
    (fun _ => mret tt).

(** [o] settles the result request, [o'] the similar-case request;
    [now] is [new Date().toISOString()]. *)
Definition getFinalResult (o o' : outcome) (now : string) : M State unit :=
  st ← page;
  if negb (truthy (st sessionId)) then mret tt
  else
    set loading (Bool true);;
    finally
      (try_catch
         ('(ok, b) ← fetch (GetResult (st sessionId) (include (st contraindications))) o;
          data ← res_json b;
          if (ok : bool) then
            t ← getProp data "treatment";
            set treatment t;;
            tr ← getProp data "trustworthiness";
            set trustworthiness tr;;
            rp ← getProp data "report";
            set report rp;;
            similarCasesBlock st o';;
            topCnn ← (if truthy (st cnnPredictions) then topLabel (st cnnPredictions)
                      else mret Null);
            let topConf :=
              if truthy (st cnnPredictions)
              then Math_max (Object_values (st cnnPredictions)) else Null in
            let lastAnalysis :=
              Obj [ ("ddx_candidates", st candidates);
                    ("cnn_output", topCnn);
                    ("cnn_confidence", topConf);
                    ("image_url", st imageUrl);
                    ("gradcam_url", st gradcamUrl);
                    ("predictions", st cnnPredictions);
                    ("analysis_output",
                      js_or (optProp rp "summary") (Str "Diagnosis complete."));
                    ("created_at", Str now) ] in
            setItem "lastAnalysis" (JSON_stringify lastAnalysis);;
            set step (Num 3);;
            removeItem "diagnosisSessionId"
          else mret tt)
         (fun _ => set error (Str "Failed to get results")))
      (set loading (Bool false)).

End Handlers.

(** *** The "Start New Diagnosis" button of the results step *)
Definition startNewDiagnosis : M State unit :=
  set step (Num 1);;
  set sessionId Null;;
  set candidates (Arr []);;
  set recommendedTests (Arr []);;
  set completedTests (Obj []);;
  set totalCost (Num 0);;
  set treatment Null;;
  set trustworthiness Null;;
  set report Null;;
  set similarCases (Arr []);;
  set contraindications (Str "");;
  set contextualFactors Null;;
  removeItem "diagnosisSessionId".

End DiagnosisFlow.

(* ===================================================================== *)
(** ** App, ProtectedRoute and the doctor's Navbar *)
(* ===================================================================== *)

Module App.

Inductive Page : Type :=
| Dashboard | DoctorCaseReview | Profile
| PatientHome | PatientProfile | SymptomsPage | UploadScansPage
| PatientHistoryPage | DiagnosisFlow
| Login.

(** What a route element renders: a page, or [<Navigate to=... replace />]. *)
Inductive Element : Type :=
| Navigate (to : string)
| Render (p : Page).

(** [userRole !== role] for a stored item and a string. *)
Definition differs (item : option string) (s : string) : bool :=
  match item with
  | Some t => negb (String.eqb t s)
  | None => true
  end.

(** [ProtectedRoute({ children, role })] *)
Definition ProtectedRoute (role : option string) (children : Page)
    (ls : gmap string string) : Element :=
  let authToken := ls !! "authToken" in
  let userRole := ls !! "role" in
  if negb (truthy (of_item authToken)) then Navigate "/"
  else if if_item role (fun r => differs userRole r) false then Navigate "/"
  else Render children.

(** The [<Routes>] of [App], in order; ["*"] is the fallback. *)
Definition routes : list (string * (gmap string string -> Element)) :=
  [ ("/dashboard", ProtectedRoute (Some "doctor") Dashboard);
    ("/cases", ProtectedRoute (Some "doctor") DoctorCaseReview);
    ("/profile", ProtectedRoute (Some "doctor") Profile);
    ("/patient-home", ProtectedRoute (Some "patient") PatientHome);
    ("/patient-profile", ProtectedRoute (Some "patient") PatientProfile);
    ("/symptoms", ProtectedRoute (Some "patient") SymptomsPage);
    ("/upload-scans", ProtectedRoute (Some "patient") UploadScansPage);
    ("/patient-history", ProtectedRoute (Some "patient") PatientHistoryPage);
    ("/diagnosis-flow", ProtectedRoute (Some "patient") DiagnosisFlow);
    ("/", fun _ => Render Login);
    ("*", fun _ => Render Login) ].

Definition isLoginPage (pathname : string) : bool := String.eqb pathname "/".

(** [!isLoginPage && authToken && role === "doctor"], as a condition. *)
Definition showDoctorNavbar (pathname : string) (ls : gmap string string) : bool :=
  negb (isLoginPage pathname) && truthy (of_item (ls !! "authToken"))
  && is_str (of_item (ls !! "role")) "doctor".

Definition showPatientNavbar (pathname : string) (ls : gmap string string) : bool :=
  negb (isLoginPage pathname) && truthy (of_item (ls !! "authToken"))
  && is_str (of_item (ls !! "role")) "patient".

End App.

Module Navbar.

Definition handleLogout : M unit unit :=
  removeItem "authToken";;
  navigate "/".

End Navbar.

(* ===================================================================== *)
(** ** Components with cells and backend calls of their own *)
(* ===================================================================== *)

Module Component.

(** The [useState] cells of a component and the calls it has made to the
    backend, oldest first. *)
Record State (C R : Type) : Type := {
  cells : C -> jsval;
  calls : list R
}.
Arguments cells {C R} s c.
Arguments calls {C R} s.

Definition upd {C R : Type} `{EqDecision C} (c : C) (v : jsval) (s : State C R)
  : State C R :=
  {| cells := fun c' => if decide (c = c') then v else cells s c'; calls := calls s |}.

Definition called {C R : Type} (r : R) (s : State C R) : State C R :=
  {| cells := cells s; calls := (calls s ++ [r])%list |}.

(** [setX(v)] *)
Definition setCell {C R : Type} `{EqDecision C} (c : C) (v : jsval)
  : M (State C R) unit :=
  modify (upd c v).

Definition call {C R : Type} (r : R) : M (State C R) unit :=
  modify (called r).

(** [await fetch(...)] *)
Definition request {C R : Type} (r : R) (o : outcome) : M (State C R) (bool * body) :=
  bind (call r) (fun _ => settle o).

Section StrictEquality.

(** Whether two objects (or arrays) are one and the same object, which
    their contents do not tell. *)
Variable same_object : jsval -> jsval -> bool.

(** [a === b] *)
Definition strict_eq (a b : jsval) : bool :=
  match a, b with
  | Undefined, Undefined => true
  | Null, Null => true
  | Bool x, Bool y => Bool.eqb x y
  | Num x, Num y => (x =? y)%float
  | Str x, Str y => String.eqb x y
  | Arr _, Arr _ => same_object a b
  | Obj _, Obj _ => same_object a b
  | _, _ => false
  end.

(** [{ ...selectedCase, verification_status: reviewStatus,
       doctor_notes: reviewNotes, status: 'reviewed' }] *)
Definition updatedCase (selectedCase reviewStatus reviewNotes : jsval) : jsval :=
  Obj (obj_set "status" (Str "reviewed")
         (obj_set "doctor_notes" reviewNotes
            (obj_set "verification_status" reviewStatus (ownEntries selectedCase)))).

(** [cases.map(c => c.id === selectedCase.id ? updatedCase : c)] *)
Definition replaceCase {P : Type} (cases selectedCase updated : jsval) : M P jsval :=
  match cases with
  | Arr cs =>
      cs' ← mapM (fun c =>
                    id ← getProp c "id";
                    mret (if strict_eq id (getOwn selectedCase "id") then updated else c))
                 cs;
      mret (Arr cs')
  | _ => throw "cases.map is not a function"
  end.

End StrictEquality.

End Component.

(* ===================================================================== *)
(** ** PatientHistoryPage.jsx *)
(* ===================================================================== *)

Module PatientHistoryPage.

Inductive Cell : Type :=
| latestAnalysis | cases | loading | error | selectedCase
| reviewStatus | reviewNotes | savingReview.

#[global] Instance Cell_eq_dec : EqDecision Cell.
Proof. solve_decision. Defined.

Inductive Call : Type :=
| GetCases
| PostReview (id verification_status doctor_notes : jsval).

Definition State : Type := Component.State Cell Call.

Definition initial : State :=
  {| Component.cells := fun c =>
       match c with
       | latestAnalysis => Null
       | cases => Arr []
       | loading => Bool true
       | error => Str ""
       | selectedCase => Null
       | reviewStatus => Str "pending"
       | reviewNotes => Str ""
       | savingReview => Bool false
       end;
     Component.calls := [] |}.

Definition set (c : Cell) (v : jsval) : M State unit := Component.setCell c v.

Definition fetchCases (o : outcome) : M State unit :=
  finally
    (try_catch
       ('(ok, b) ← Component.request GetCases o;
        if (ok : bool) then
          data ← res_json b;
          set cases data
        else mret tt)
       (fun _ => set error (Str "Failed to load history")))
    (set loading (Bool false)).

Section Handlers.

Variable JSON_parse : string -> result jsval.
Variable same_object : jsval -> jsval -> bool.

(** The mount effect: show the analysis just stored, once, then load the
    cases. *)
Definition useEffect (o : outcome) : M State unit :=
  lastAnalysis ← getItem "lastAnalysis";
  if_item lastAnalysis
    (fun s =>
       try_catch
         (match JSON_parse s with
          | Ok v => set latestAnalysis v;; removeItem "lastAnalysis"
          | Throw msg => throw msg
          end)
         (fun _ => mret tt))
    (mret tt);;
  fetchCases o.

(** The effect on [selectedCase]. *)
Definition useEffect_selectedCase : M State unit :=
  st ← page;
  let selected := Component.cells st selectedCase in
  if truthy selected then
    set reviewStatus (js_or (getOwn selected "verification_status") (Str "pending"));;
    set reviewNotes (js_or (getOwn selected "doctor_notes") (Str ""))
  else mret tt.

Definition handleSaveReview (o : outcome) : M State unit :=
  st ← page;
  let selected := Component.cells st selectedCase in
  let status := Component.cells st reviewStatus in
  let notes := Component.cells st reviewNotes in
  if negb (truthy selected) then mret tt
  else
    set savingReview (Bool true);;
    finally
      (try_catch
         ('(ok, _) ← Component.request (PostReview (getOwn selected "id") status notes) o;
          if (ok : bool) then
            let updated := Component.updatedCase selected status notes in
            cs ← Component.replaceCase same_object (Component.cells st cases) selected updated;
            set cases cs;;
            set selectedCase updated
          else alert "Failed to save review")
         (fun _ => alert "Error saving review"))
      (set savingReview (Bool false)).

End Handlers.

End PatientHistoryPage.

(* ===================================================================== *)
(** ** DoctorCaseReview *)
(* ===================================================================== *)

Module DoctorCaseReview.

Inductive Cell : Type :=
| cases | loading | error | selectedCase | reviewStatus | reviewNotes | savingReview.

#[global] Instance Cell_eq_dec : EqDecision Cell.
Proof. solve_decision. Defined.

Inductive Call : Type :=
| GetCases
| PostReview (id verification_status doctor_notes : jsval).

Definition State : Type := Component.State Cell Call.

Definition set (c : Cell) (v : jsval) : M State unit := Component.setCell c v.

Definition fetchCases (o : outcome) : M State unit :=
  finally
    (try_catch
       ('(ok, b) ← Component.request GetCases o;
        data ← res_json b;
        if (ok : bool) then set cases data
        else
          err ← getProp data "error";
          set error (js_or err (Str "Failed to fetch cases.")))
       (fun _ => set error (Str "Server error. Try again later.")))
    (set loading (Bool false)).

Section Handlers.

Variable ToString : jsval -> string.
Variable same_object : jsval -> jsval -> bool.

(** [statusText] is the [res.statusText] of the response, if one comes. *)
Definition handleSaveReview (o : outcome) (statusText : string) : M State unit :=
  st ← page;
  let selected := Component.cells st selectedCase in
  let status := Component.cells st reviewStatus in
  let notes := Component.cells st reviewNotes in
  if negb (truthy selected) then mret tt
  else
    set savingReview (Bool true);;
    finally
      (try_catch
         ('(ok, b) ← Component.request (PostReview (getOwn selected "id") status notes) o;
          if (ok : bool) then
            let updated := Component.updatedCase selected status notes in
            cs ← Component.replaceCase same_object (Component.cells st cases) selected updated;
            set cases cs;;
            set selectedCase updated;;
            alert "Review saved successfully!"
          else
            errorData ← res_json b;
            detail ← getProp errorData "detail";
            alert ("Failed to save review: " ++ ToString (js_or detail (Str statusText))))
         (fun msg => alert ("Error saving review: " ++ msg)))
      (set savingReview (Bool false)).

End Handlers.

End DoctorCaseReview.

(* ===================================================================== *)
(** ** Dashboard and PatientChart *)
(* ===================================================================== *)

Module Dashboard.

Inductive Cell : Type := stats | loading.

#[global] Instance Cell_eq_dec : EqDecision Cell.
Proof. solve_decision. Defined.

Inductive Call : Type := GetStats.

Definition State : Type := Component.State Cell Call.

Definition initial : State :=
  {| Component.cells := fun c =>
       match c with
       | stats => Obj [ ("total_patients", Num 0); ("pending_diagnoses", Num 0);
                        ("completed_reports", Num 0); ("activity_change", Str "0%") ]
       | loading => Bool true
       end;
     Component.calls := [] |}.

Definition fetchStats (o : outcome) : M State unit :=
  finally
    (try_catch
       ('(ok, b) ← Component.request GetStats o;
        if (ok : bool) then
          data ← res_json b;
          Component.setCell stats data
        else mret tt)
       (fun _ => mret tt))
    (Component.setCell loading (Bool false)).

End Dashboard.

Module PatientChart.

Inductive Cell : Type := data | loading.

#[global] Instance Cell_eq_dec : EqDecision Cell.
Proof. solve_decision. Defined.

Inductive Call : Type := GetTrends.

Definition State : Type := Component.State Cell Call.

Definition initial : State :=
  {| Component.cells := fun c => match c with data => Arr [] | loading => Bool true end;
     Component.calls := [] |}.

Definition fetchTrends (o : outcome) : M State unit :=
  finally
    (try_catch
       ('(ok, b) ← Component.request GetTrends o;
        if (ok : bool) then
          result ← res_json b;
          Component.setCell data result
        else mret tt)
       (fun _ => mret tt))
    (Component.setCell loading (Bool false)).

End PatientChart.

(* ===================================================================== *)
(** ** PatientProfile.jsx *)
(* ===================================================================== *)

Module PatientProfile.

Inductive Cell : Type := isEditing | profile.

#[global] Instance Cell_eq_dec : EqDecision Cell.
Proof. solve_decision. Defined.

Definition State : Type := Component.State Cell Empty_set.

Definition defaultProfile : jsval :=
  Obj [ ("name", Str "John Doe");
        ("email", Str "john.doe@example.com");
        ("phone", Str "+91 98765 43210");
        ("age", Str "30");
        ("bloodGroup", Str "B+");
        ("location", Str "New Delhi, India");
        ("allergies", Str "None");
        ("conditions", Str "Hypertension, Diabetes") ].

Section Handlers.

Variable JSON_stringify : jsval -> string.
Variable JSON_parse : string -> result jsval.

(** The initial value of the profile cell; a stored text that does not
    parse makes it throw. *)
Definition loadProfile (ls : gmap string string) : result jsval :=
  if_item (ls !! "patientProfile") JSON_parse (Ok defaultProfile).

Definition handleSave : M State unit :=
  st ← page;
  setItem "patientProfile" (JSON_stringify (Component.cells st profile));;
  Component.setCell isEditing (Bool false).

(** [e.target] carries the field's [name] and [value]. *)
Definition handleChange (name value : string) : M State unit :=
  modify (fun s =>
            Component.upd profile (spread_with (Component.cells s profile) name (Str value)) s).

(** The button: [isEditing ? handleSave() : setIsEditing(true)] *)
Definition onEditButton : M State unit :=
  st ← page;
  if truthy (Component.cells st isEditing) then handleSave
  else Component.setCell isEditing (Bool true).

End Handlers.

End PatientProfile.

Import DiagnosisFlow.

(* ===================================================================== *)
(** ** Notions of the specification, and sample inputs *)
(* ===================================================================== *)

(** The human-readable variant the specification speaks of: EVERY
    underscore becomes a space. *)
Fixpoint humanReadable (s : string) : string :=
  match s with
  | EmptyString => EmptyString
  | String c s' => String (if Ascii.eqb c "_" then " "%char else c) (humanReadable s')
  end.

(** The similar-case retrieval fails: the request is rejected, or the
    answer is not JSON, or it is JSON without a usable [similar_cases]
    (an error body, [null]). *)
Definition similar_retrieval_fails (o' : outcome) : Prop :=
match o' with
| NetFail _ => True
| Resp _ (BadJson _) => True
| Resp _ (Json d) => truthy (optProp d "similar_cases") = false
end.

(** No imaging datum is left in local storage. *)
Definition imaging_cleared (ls : gmap string string) : Prop :=
ls !! "cnnPredictions" = None /\ ls !! "imageUrl" = None
/\ ls !! "gradcamUrl" = None /\ ls !! "diagnosisCaseId" = None.

(** A start request without predictions and without imaging references. *)
Definition no_imaging (b : StartRequest) : Prop :=
cnn_predictions b = None /\ case_id b = None
/\ image_url b = None /\ gradcam_url b = None.

(** A browser that holds a session id and the raw symptoms. *)
Definition stale_env : Env :=
{| store := <["diagnosisSessionId" := "s-1"]> (<["symptoms" := "fever and cough"]> ∅);
   sent := []; routes := []; alerts := [] |}.

(** A browser that holds only a session id, as it does once a diagnosis
    has started. *)
Definition session_env : Env :=
{| store := <["diagnosisSessionId" := "s-1"]> ∅;
   sent := []; routes := []; alerts := [] |}.

(** Stand-ins for the host's built-ins, to run the handlers on samples. *)
Definition sample_ToString (v : jsval) : string :=
match v with Str s => s | _ => "[object Object]" end.
Definition sample_stringify (v : jsval) : string := "{}".
Definition sample_parse (s : string) : result jsval := Throw "Unexpected token".
Definition sample_gt (a b : jsval) : bool := false.
Definition sample_max (vs : list jsval) : jsval := Null.

(** A [JSON.parse] that reads every text as one fixed prediction map. *)
Definition sample_parse_ok (s : string) : result jsval :=
Ok (Obj [("Pneumonia", Num 0.8)]).

(** A browser that still holds the predictions of an earlier upload. *)
Definition leftover_env : Env :=
{| store := <["symptoms" := "fever"]> (<["cnnPredictions" := "{}"]> ∅);
   sent := []; routes := []; alerts := [] |}.

(** A browser that still holds everything an earlier upload with an image
    left behind, and the symptoms entered since. *)
Definition stale_imaging_env : Env :=
{| store := <["symptoms" := "fever"]>
              (<["cnnPredictions" := "{}"]>
                 (<["imageUrl" := "/uploads/old.png"]>
                    (<["gradcamUrl" := "/uploads/old_cam.png"]>
                       (<["diagnosisCaseId" := "case-1"]> ∅))));
   sent := []; routes := []; alerts := [] |}.

(** A browser in which the symptoms page has just stored its inputs. *)
Definition fresh_env : Env :=
{| store := <["symptoms" := "fever"]> (<["symptomMonth" := "7"]> ∅);
   sent := []; routes := []; alerts := [] |}.

(** An empty browser. *)
Definition empty_env : Env :=
{| store := ∅; sent := []; routes := []; alerts := [] |}.

(** The flow with a session under way and one test recorded. *)
Definition testing_state : State :=
upd sessionId (Str "s-1") (upd completedTests (Obj [("cbc", Str "negative")]) initial).

(** A status response of the contracted shape. *)
Definition sample_status : jsval :=
Obj [ ("candidates", Arr [Obj [("name", Str "Influenza"); ("base_probability", Num 0.62)]]);
      ("recommended_tests", Arr [Obj [("test_id", Str "crp")]]);
      ("completed_tests", Obj [("cbc", Str "negative")]);
      ("total_cost", Num 45);
      ("status", Str "in_progress") ].

(** A test-result response and a final-result response. *)
Definition sample_update : jsval :=
Obj [ ("updated_candidates", Arr []);
      ("recommended_tests", Arr [Obj [("test_id", Str "xray")]]);
      ("total_cost", Num 75);
      ("status", Str "in_progress") ].

Definition sample_result : jsval :=
Obj [ ("treatment", Obj [("medications", Arr [])]);
      ("trustworthiness", Obj [("confidence_level", Str "Medium")]);
      ("report", Obj [("summary", Str "Likely influenza.")]) ].

(** The role that the route table asks for, page by page. *)
Definition pageRole (p : App.Page) : option string :=
match p with
| App.Dashboard | App.DoctorCaseReview | App.Profile => Some "doctor"
| App.Login => None
| _ => Some "patient"
end.

(** The predictions that the mount effect hands to [startDiagnosis]:
    the parsed stored text, [null] when none is stored. *)
Definition cnnArgument (JSON_parse : string -> result jsval) (ls : gmap string string)
  : result jsval :=
if_item (ls !! "cnnPredictions") JSON_parse (Ok Null).

(** An outcome that is not a success response with a JSON body other than
    [null]. *)
Definition fails (o : outcome) : Prop :=
forall data, o = Resp true (Json data) -> nullish data = true.

(** The storage keys that an upload may write. *)
Definition uploadKeys : list string :=
[ "lastCaseId"; "lastAnalysis"; "cnnPredictions"; "imageUrl"; "gradcamUrl";
  "diagnosisCaseId" ].

(** Does the character occur in the string? *)
Fixpoint has_char (c : ascii) (s : string) : bool :=
match s with
| EmptyString => false
| String a s' => Ascii.eqb a c || has_char c s'
end.

(** A symptom tag as the quick-symptom buttons carry it: not empty, no
    white space around it, no comma in it. *)
Definition tag (s : string) : Prop :=
nonempty s = true /\ trim s = s /\ has_char "," s = false.

(** The code that a quick-symptom button stands for. *)
Definition quickCodes : list (string * string) :=
[ ("Headache", "headache"); ("Fever", "fever"); ("Cough", "cough");
  ("Fatigue", "fatigue"); ("Nausea", "nausea"); ("Sore throat", "sore_throat") ].

(** A symptoms form with a given text. *)
Definition form (text : string) : SymptomsPage.State :=
{| SymptomsPage.symptoms := text; SymptomsPage.region := "Global";
   SymptomsPage.month := PInt 1; SymptomsPage.familyHistory := "";
   SymptomsPage.geneticVariants := "" |}.

(** The cell of the history page that a cell of the doctor's review page
    corresponds to. *)
Definition shared (c : DoctorCaseReview.Cell) : PatientHistoryPage.Cell :=
match c with
| DoctorCaseReview.cases => PatientHistoryPage.cases
| DoctorCaseReview.loading => PatientHistoryPage.loading
| DoctorCaseReview.error => PatientHistoryPage.error
| DoctorCaseReview.selectedCase => PatientHistoryPage.selectedCase
| DoctorCaseReview.reviewStatus => PatientHistoryPage.reviewStatus
| DoctorCaseReview.reviewNotes => PatientHistoryPage.reviewNotes
| DoctorCaseReview.savingReview => PatientHistoryPage.savingReview
end.

(** The case list after a review, read off the list: the entries whose
    [id] is the selected one's are replaced; no list when an entry has no
    properties to read. *)
Fixpoint replaced (same_object : jsval -> jsval -> bool) (selected updated : jsval)
    (cs : list jsval) : result (list jsval) :=
match cs with
| [] => Ok []
| c :: t =>
    if nullish c then Throw (type_error c "id")
    else match replaced same_object selected updated t with
         | Ok l => Ok ((if Component.strict_eq same_object (getOwn c "id") (getOwn selected "id")
                        then updated else c) :: l)
         | Throw msg => Throw msg
         end
end.

(** What [cases.map(...)] of the review handlers evaluates to. *)
Definition reviewedCases (same_object : jsval -> jsval -> bool)
    (cases selected updated : jsval) : result jsval :=
match cases with
| Arr cs =>
    match replaced same_object selected updated cs with
    | Ok l => Ok (Arr l)
    | Throw msg => Throw msg
    end
| _ => Throw "cases.map is not a function"
end.

(** A doctor's page and a history page with one case open for review. *)
Definition sample_case : jsval :=
Obj [("id", Num 7); ("patient_name", Str "A. Rao"); ("status", Str "pending")].

Definition other_case : jsval :=
Obj [("id", Num 8); ("patient_name", Str "B. Sen"); ("status", Str "pending")].

Definition history_review : PatientHistoryPage.State :=
Component.upd PatientHistoryPage.reviewNotes (Str "Agree with the AI")
  (Component.upd PatientHistoryPage.reviewStatus (Str "approved")
     (Component.upd PatientHistoryPage.selectedCase sample_case
        (Component.upd PatientHistoryPage.cases (Arr [sample_case; other_case])
           PatientHistoryPage.initial))).

Definition doctor_review : DoctorCaseReview.State :=
{| Component.cells := fun c => Component.cells history_review (shared c);
   Component.calls := [] |}.

Definition sample_same (a b : jsval) : bool := false.

(** A profile page, and a [JSON.parse] that reads every text as one
    profile. *)
Definition profile_page : PatientProfile.State :=
{| Component.cells := fun c =>
     match c with
     | PatientProfile.isEditing => Bool false
     | PatientProfile.profile => Obj [("name", Str "John Doe"); ("age", Str "30")]
     end;
   Component.calls := [] |}.

Definition sample_parse_profile (s : string) : result jsval :=
Ok (Obj [("name", Str "John Doe"); ("age", Str "31")]).

(** A browser that holds the analysis of a finished diagnosis. *)
Definition analysis_env : Env :=
{| store := <["lastAnalysis" := "{}"]> ∅; sent := []; routes := []; alerts := [] |}.

(** The upload form before a file is chosen. *)
Definition upload_form : UploadScansPage.State :=
{| UploadScansPage.file := None; UploadScansPage.status := "";
   UploadScansPage.loading := false |}.

(** What the backend answers to an upload with an image. *)
Definition sample_upload : jsval :=
Obj [ ("predictions", Obj [("Pneumonia", Num 0.8)]);
      ("image_url", Str "/uploads/scan.png");
      ("gradcam_url", Str "/uploads/scan_cam.png");
      ("case_id", Str "case-7") ].

(** The flow with a session under way and one candidate. *)
Definition candidate_state : State :=
upd candidates (Arr [Obj [("name", Str "Influenza")]]) testing_state.

(** An answer of the similar-case retrieval. *)
Definition sample_similar : jsval :=
Obj [("similar_cases", Arr [Obj [("case_id", Str "case-3")]])].

(* ===================================================================== *)
(** * Properties *)
(* ===================================================================== *)

(** ** Strings *)

Lemma startsWith_spec (s p : string) :
  startsWith s p = true <-> exists post, s = p ++ post.
Proof.
  revert s; induction p as [|a p IH]; intros s; simpl.
  - split; [intros _; exists s; reflexivity | reflexivity].
  - destruct s as [|b s]; simpl.
    + split; [discriminate | intros [post H]; discriminate].
    + destruct (Ascii.eqb_spec a b) as [->|Hne].
      * rewrite IH. split; intros [post H]; exists post.
        -- rewrite H; reflexivity.
        -- simpl in H. injection H as H. exact H.
      * split; [discriminate |].
        intros [post H]. simpl in H. injection H as H1 H2. congruence.
Qed.

(** [includes] decides "is a substring of". *)
Lemma includes_spec (s p : string) :
  includes s p = true <-> exists pre post, s = pre ++ p ++ post.
Proof.
  induction s as [|c s IH]; simpl.
  - rewrite orb_false_r, startsWith_spec. split.
    + intros [post H]; exists "", post; exact H.
    + intros (pre & post & H). destruct pre; [exists post; exact H |discriminate].
  - rewrite orb_true_iff, startsWith_spec, IH. split.
    + intros [[post H] | (pre & post & H)].
      * exists "", post; exact H.
      * exists (String c pre), post; simpl; rewrite H; reflexivity.
    + intros (pre & post & H). destruct pre as [|c' pre]; simpl in H.
      * left; exists post; exact H.
      * right; exists pre, post. injection H as H1 H2. exact H2.
Qed.

(** [replace] turns only the first underscore into a space: on the
    vocabulary it agrees with [humanReadable] everywhere but on the one
    entry with two underscores. *)
Lemma replace_known :
  Forall (fun s => s <> "shortness_of_breath" -> replace s "_" " " = humanReadable s) known
  /\ replace "shortness_of_breath" "_" " " = "shortness of_breath"
  /\ humanReadable "shortness_of_breath" = "shortness of breath".
Proof.
  split; [| split; reflexivity].
  repeat constructor; solve [reflexivity | intros H; exfalso; apply H; reflexivity].
Qed.

(** *** trim *)

Lemma trimStart_head (s : string) (c : ascii) (t : string) :
  trimStart s = String c t -> is_space c = false.
Proof.
  induction s as [|a s IH]; simpl; [discriminate |].
  destruct (is_space a) eqn:E; [exact IH |].
  intros H. injection H as <- _. exact E.
Qed.

Lemma trimEnd_head (c : ascii) (t : string) :
  is_space c = false -> exists t', trimEnd (String c t) = String c t'.
Proof.
  intros Hc. simpl. rewrite Hc. destruct (trimEnd t); eexists; reflexivity.
Qed.

Lemma trimEnd_idem (s : string) : trimEnd (trimEnd s) = trimEnd s.
Proof.
  induction s as [|c s IH]; [reflexivity |].
  simpl. destruct (trimEnd s) as [|a t] eqn:E.
  - destruct (is_space c) eqn:Hc; [reflexivity |]. simpl. rewrite Hc. reflexivity.
  - change (trimEnd (String c (String a t))) with
      (match trimEnd (String a t) with
       | EmptyString => if is_space c then EmptyString else String c EmptyString
       | u => String c u
       end).
    rewrite IH. reflexivity.
Qed.

Lemma trimStart_not_space (c : ascii) (t : string) :
  is_space c = false -> trimStart (String c t) = String c t.
Proof. intros H. simpl. rewrite H. reflexivity. Qed.

(** A trimmed string is a fixed point of [trim]: it neither starts nor
    ends with white space. *)
Lemma trim_idem (s : string) : trim (trim s) = trim s.
Proof.
  unfold trim. destruct (trimStart s) as [|c t] eqn:E; [reflexivity |].
  pose proof (trimStart_head _ _ _ E) as Hc.
  destruct (trimEnd_head c t Hc) as [t' Ht]. rewrite Ht.
  rewrite (trimStart_not_space c t' Hc), <- Ht. apply trimEnd_idem.
Qed.

Lemma nonempty_trim (s : string) : nonempty (trim s) = true -> nonempty s = true.
Proof. destruct s; [discriminate | reflexivity]. Qed.

(** *** split *)

Lemma split_not_nil (sep : ascii) (s : string) : split sep s <> [].
Proof.
  induction s as [|c s IH]; simpl; [discriminate |].
  destruct (Ascii.eqb c sep); [discriminate |].
  destruct (split sep s); discriminate.
Qed.

(** Joining the pieces with the separator gives the string back. *)
Lemma split_concat (sep : ascii) (s : string) :
  String.concat (String sep EmptyString) (split sep s) = s.
Proof.
  induction s as [|c s IH]; [reflexivity |].
  simpl. destruct (Ascii.eqb_spec c sep) as [-> | Hne].
  - pose proof (split_not_nil sep s) as Hn.
    destruct (split sep s) as [|h t]; [contradiction |].
    simpl in *. rewrite IH. reflexivity.
  - pose proof (split_not_nil sep s) as Hn.
    destruct (split sep s) as [|h t]; [contradiction |].
    destruct t; simpl in *; rewrite <- IH; reflexivity.
Qed.

(** ** extractSymptoms *)

(** What the extractor computes: a vocabulary entry is returned exactly
    when the lower-cased text contains the entry or the entry with its
    FIRST underscore replaced by a space. *)
Lemma extractSymptoms_iff (text s : string) :
  s ∈ extractSymptoms text <->
  s ∈ known /\
  ((exists pre post, toLowerCase text = pre ++ replace s "_" " " ++ post)
   \/ (exists pre post, toLowerCase text = pre ++ s ++ post)).
Proof.
  unfold extractSymptoms. rewrite list_elem_of_In, filter_In, <- list_elem_of_In.
  rewrite orb_true_iff, !includes_spec. reflexivity.
Qed.

(** For every entry but [shortness_of_breath] that is the criterion of the
    specification. *)
Lemma extractSymptoms_iff_humanReadable (text s : string) :
  s <> "shortness_of_breath" ->
  s ∈ extractSymptoms text <->
  s ∈ known /\
  ((exists pre post, toLowerCase text = pre ++ humanReadable s ++ post)
   \/ (exists pre post, toLowerCase text = pre ++ s ++ post)).
Proof.
  intros Hne. rewrite extractSymptoms_iff.
  split; intros [Hk H]; split; try exact Hk.
  - destruct replace_known as [Hall _]. rewrite Forall_forall in Hall.
    rewrite <- (Hall s); [exact H | exact Hk | exact Hne].
  - destruct replace_known as [Hall _]. rewrite Forall_forall in Hall.
    rewrite (Hall s); [exact H | exact Hk | exact Hne].
Qed.

(** C1 (evaluation at the failing input).  The text "Shortness of breath"
    (the quick-symptom button of SymptomsPage writes exactly this) contains,
    once lower-cased, the human-readable form of [shortness_of_breath], yet
    the extractor returns no code for it: [replace] has turned only the
    first underscore into a space. *)
Theorem extractSymptoms_shortness_of_breath :
  "shortness_of_breath" ∈ known
  /\ includes (toLowerCase "Shortness of breath") (humanReadable "shortness_of_breath") = true
  /\ extractSymptoms "Shortness of breath" = [].
Proof.
  split; [| split; reflexivity].
  unfold known. rewrite list_elem_of_In. simpl. tauto.
Qed.

(** The other direction fails on the same entry: a text with the
    half-replaced form yields the code although it contains neither the code
    nor its human-readable form. *)
Lemma extractSymptoms_half_replaced :
  extractSymptoms "shortness of_breath" = ["shortness_of_breath"]
  /\ includes "shortness of_breath" "shortness_of_breath" = false
  /\ includes "shortness of_breath" (humanReadable "shortness_of_breath") = false.
Proof. repeat split. Qed.

Lemma known_NoDup : NoDup known.
Proof. apply (bool_decide_unpack _). vm_compute. exact I. Qed.

(** What holds of every text: the extractor returns a sublist of the
    17-entry vocabulary without repetitions; and a text that contains no
    code and no human-readable form of a code yields the empty list,
    provided it does not contain the half-replaced "shortness of_breath"
    either. *)
Lemma extractSymptoms_vocabulary (text : string) :
  NoDup (extractSymptoms text)
  /\ (forall s, s ∈ extractSymptoms text -> s ∈ known)
  /\ length known = 17
  /\ (Forall (fun s => includes (toLowerCase text) (humanReadable s) = false
                       /\ includes (toLowerCase text) s = false) known ->
      includes (toLowerCase text) "shortness of_breath" = false ->
      extractSymptoms text = []).
Proof.
  split; [| split; [| split]].
  - unfold extractSymptoms.
    apply NoDup_ListNoDup, List.NoDup_filter, NoDup_ListNoDup, known_NoDup.
  - intros s Hs. apply extractSymptoms_iff in Hs. tauto.
  - reflexivity.
  - intros Hnone Hhalf.
    destruct replace_known as (Hrep & Hsob & _).
    assert (Forall (fun s => includes (toLowerCase text) (replace s "_" " ") = false
                             /\ includes (toLowerCase text) s = false) known) as Hall.
    { rewrite List.Forall_forall in *. intros s Hs.
      destruct (Hnone s Hs) as [H1 H2]. split; [| exact H2].
      destruct (string_dec s "shortness_of_breath") as [-> | Hne].
      - rewrite Hsob. exact Hhalf.
      - rewrite (Hrep s Hs Hne). exact H1. }
    unfold extractSymptoms. clear Hnone Hrep.
    induction Hall as [|s l [H1 H2] _ IH]; [reflexivity |].
    simpl. rewrite H1, H2. exact IH.
Qed.

Lemma extractSymptoms_vocabulary_witness :
  extractSymptoms "I feel dizzy" = [].
Proof.
  apply (extractSymptoms_vocabulary "I feel dizzy").
  - repeat constructor.
  - reflexivity.
Defined.

(** C3 (evaluation at the failing input).  The text "shortness of_breath"
    matches no entry of the vocabulary: lower-cased, it contains none of the
    17 codes and none of their human-readable forms.  The extractor
    nevertheless returns a code for it, not the empty list: [replace] has
    turned only the first underscore of [shortness_of_breath] into a space,
    and the text contains that half-replaced form. *)
Theorem extractSymptoms_unmatched_text :
  Forall (fun s => includes (toLowerCase "shortness of_breath") s = false
                   /\ includes (toLowerCase "shortness of_breath") (humanReadable s) = false)
    known
  /\ replace "shortness_of_breath" "_" " " = "shortness of_breath"
  /\ extractSymptoms "shortness of_breath" = ["shortness_of_breath"]
  /\ extractSymptoms "shortness of_breath" <> [].
Proof.
  split; [| split; [| split]].
  - unfold known.
    repeat (apply List.Forall_cons; [split; reflexivity |]). apply List.Forall_nil.
  - reflexivity.
  - reflexivity.
  - discriminate.
Qed.

(** ** Comparison of doubles *)

Lemma SFcompare_antisym (x y : spec_float) :
  SFcompare y x = option_map CompOpp (SFcompare x y).
Proof.
  destruct x as [sx|sx| |sx mx ex], y as [sy|sy| |sy my ey]; simpl;
    try reflexivity;
    try (destruct sx; reflexivity);
    try (destruct sy; reflexivity);
    try (destruct sx, sy; reflexivity).
  destruct sx, sy; try reflexivity;
    rewrite (Z.compare_antisym ex ey); destruct (ex ?= ey)%Z; simpl; try reflexivity;
    change (Pos.compare_cont Eq my mx) with (Pos.compare my mx);
    change (Pos.compare_cont Eq mx my) with (Pos.compare mx my);
    rewrite (Pos.compare_antisym mx my); destruct (mx ?= my)%positive; reflexivity.
Qed.

Lemma not_nan_spec (p : float) : is_nan p = false -> Prim2SF p <> S754_nan.
Proof.
  unfold is_nan. rewrite FloatAxioms.eqb_spec. intros H E. rewrite E in H. discriminate.
Qed.

Lemma SFcompare_some (x y : spec_float) :
  x <> S754_nan -> y <> S754_nan -> exists r, SFcompare x y = Some r.
Proof.
  intros Hx Hy.
  destruct x as [sx|sx| |sx mx ex], y as [sy|sy| |sy my ey]; simpl;
    solve [congruence | eexists; reflexivity].
Qed.

(** [c <= p] is the negation of [p < c] unless one of them is NaN. *)
Lemma leb_negb_ltb (c p : float) :
  is_nan c = false -> is_nan p = false -> (c <=? p)%float = negb (p <? c)%float.
Proof.
  intros Hc Hp. apply not_nan_spec in Hc, Hp.
  rewrite FloatAxioms.leb_spec, FloatAxioms.ltb_spec. unfold SFleb, SFltb.
  rewrite (SFcompare_antisym (Prim2SF c) (Prim2SF p)).
  destruct (SFcompare_some _ _ Hc Hp) as [r ->].
  destruct r; reflexivity.
Qed.

Lemma Prim2SF_thresholds :
  Prim2SF 0.7 = S754_finite false 6305039478318694 (-53)
  /\ Prim2SF 0.4 = S754_finite false 7205759403792794 (-54).
Proof. split; vm_compute; reflexivity. Qed.

(** A number that reaches 0.7 reaches 0.4. *)
Lemma leb_07_04 (p : float) : (0.7 <=? p)%float = true -> (0.4 <=? p)%float = true.
Proof.
  rewrite !FloatAxioms.leb_spec. destruct Prim2SF_thresholds as [-> ->].
  unfold SFleb.
  destruct (Prim2SF p) as [sp|sp| |sp mp ep]; cbn -[Z.compare Pos.compare_cont];
    try discriminate.
  - destruct sp; [discriminate | reflexivity].
  - destruct sp; [discriminate |].
    destruct (Z.compare_spec (-53) ep) as [<- | Hlt | Hgt]; try discriminate.
    + reflexivity.
    + intros _. destruct (Z.compare_spec (-54) ep) as [E | _ | Hgt]; [lia | reflexivity | lia].
Qed.

(** ** Colouring *)

(** C2.  For every probability (every number, in fact, that is not NaN)
    the bar is red, the High bucket, exactly from 0.7 upwards, yellow
    (Medium) exactly in [0.4, 0.7), and green (Low) exactly below 0.4; the
    confidence badge has a style for "High", one for "Medium", and gives
    every other level the Low style. *)
Theorem color_thresholds (p : float) (level : jsval) :
  is_nan p = false ->
  (getProbabilityColor p = "bg-red-500" <-> (0.7 <=? p)%float = true)
  /\ (getProbabilityColor p = "bg-yellow-500"
      <-> (0.4 <=? p)%float = true /\ (p <? 0.7)%float = true)
  /\ (getProbabilityColor p = "bg-green-500" <-> (p <? 0.4)%float = true)
  /\ getConfidenceColor (Str "High") = "text-green-600 bg-green-50 border-green-200"
  /\ getConfidenceColor (Str "Medium") = "text-yellow-600 bg-yellow-50 border-yellow-200"
  /\ (level <> Str "High" -> level <> Str "Medium" ->
      getConfidenceColor level = "text-red-600 bg-red-50 border-red-200").
Proof.
  intros Hp.
  pose proof (leb_negb_ltb 0.7 p eq_refl Hp) as H7.
  pose proof (leb_negb_ltb 0.4 p eq_refl Hp) as H4.
  pose proof (leb_07_04 p) as H74.
  unfold getProbabilityColor.
  repeat split; try reflexivity.
  - destruct (0.7 <=? p)%float; [reflexivity |].
    destruct (0.4 <=? p)%float; discriminate.
  - intros ->; reflexivity.
  - destruct (0.7 <=? p)%float; [discriminate |].
    destruct (0.4 <=? p)%float; [reflexivity | discriminate].
  - destruct (0.7 <=? p)%float; [discriminate |].
    destruct (p <? 0.7)%float; [reflexivity | discriminate].
  - intros [H1 H2]. rewrite H2 in H7. simpl in H7. rewrite H7, H1. reflexivity.
  - destruct (0.7 <=? p)%float; [discriminate |].
    destruct (0.4 <=? p)%float; [discriminate |].
    destruct (p <? 0.4)%float; [reflexivity | discriminate].
  - intros H. rewrite H in H4. simpl in H4.
    destruct (0.7 <=? p)%float; [specialize (H74 eq_refl); congruence |].
    rewrite H4. reflexivity.
  - intros H1 H2. unfold getConfidenceColor, is_str.
    destruct level as [| | | |s| |]; try reflexivity.
    destruct (String.eqb_spec s "High") as [->|_]; [congruence |].
    destruct (String.eqb_spec s "Medium") as [->|_]; [congruence | reflexivity].
Qed.

Lemma color_thresholds_witness :
  ((getProbabilityColor 0.55 = "bg-red-500" <-> (0.7 <=? 0.55)%float = true)
   /\ (getProbabilityColor 0.55 = "bg-yellow-500"
       <-> (0.4 <=? 0.55)%float = true /\ (0.55 <? 0.7)%float = true)
   /\ (getProbabilityColor 0.55 = "bg-green-500" <-> (0.55 <? 0.4)%float = true)
   /\ getConfidenceColor (Str "High") = "text-green-600 bg-green-50 border-green-200"
   /\ getConfidenceColor (Str "Medium") = "text-yellow-600 bg-yellow-50 border-yellow-200"
   /\ (Str "Low" <> Str "High" -> Str "Low" <> Str "Medium" ->
       getConfidenceColor (Str "Low") = "text-red-600 bg-red-50 border-red-200"))
  /\ getProbabilityColor 0.55 = "bg-yellow-500".
Proof.
  split; [apply (color_thresholds 0.55 (Str "Low")); reflexivity | reflexivity].
Defined.

(** Outside the claim: a value that is not a number at all (NaN, which is
    what an absent [base_probability] compares as) is coloured green
    although it is not below 0.4. *)
Lemma getProbabilityColor_nan :
  getProbabilityColor nan = "bg-green-500" /\ (nan <? 0.4)%float = false.
Proof. split; reflexivity. Qed.

(** ** UploadScansPage: nothing to submit *)

Section UploadProperties.

Variable ToString : jsval -> string.
Variable JSON_stringify : jsval -> string.

#[local] Abbreviation handleUpload := (UploadScansPage.handleUpload ToString JSON_stringify).
#[local] Abbreviation handleSkipScan := (UploadScansPage.handleSkipScan ToString JSON_stringify).

(** C6.  With no file selected and no symptoms stored (the key is absent
    or holds the empty string) the upload handler only sets its validation
    message: the environment, and with it the request log, is left as it
    was.  The skip-scan handler does the same whenever no symptoms are
    stored, whatever the file. *)
Theorem submit_without_input_rejected
    (st : UploadScansPage.State) (e : Env) (o : outcome) :
  store e !! "symptoms" = None \/ store e !! "symptoms" = Some "" ->
  (UploadScansPage.file st = None ->
   handleUpload o (st, e)
   = (({| UploadScansPage.file := None;
          UploadScansPage.status := UploadScansPage.msg_need_input;
          UploadScansPage.loading := UploadScansPage.loading st |}, e), Ok tt))
  /\ handleSkipScan o (st, e)
     = (({| UploadScansPage.file := UploadScansPage.file st;
            UploadScansPage.status := UploadScansPage.msg_no_symptoms;
            UploadScansPage.loading := UploadScansPage.loading st |}, e), Ok tt).
Proof.
  intros Hs. split.
  - intros Hf. destruct st as [f s l]. simpl in Hf. subst f.
    unfold UploadScansPage.handleUpload, mbind, M_bind, bind, page, getItem. simpl.
    destruct Hs as [-> | ->]; reflexivity.
  - unfold UploadScansPage.handleSkipScan, mbind, M_bind, bind, getItem. simpl.
    destruct Hs as [-> | ->]; reflexivity.
Qed.

(** With symptoms in storage both handlers do submit. *)
Lemma handlers_submit_stored_symptoms
    (st : UploadScansPage.State) (e : Env) (o : outcome) (s : string) :
  store e !! "symptoms" = Some s -> nonempty s = true ->
  sent (snd (run (handleUpload o) st e))
  = (sent e ++ [PostSubmit "Anonymous Patient" s (UploadScansPage.file st)])%list
  /\ sent (snd (run (handleSkipScan o) st e))
     = (sent e ++ [PostSubmit "Anonymous Patient" s None])%list.
Proof.
  intros Hs Hne. split.
  - unfold run, UploadScansPage.handleUpload. unfold mbind, M_bind.
    unfold bind at 1 2, page, getItem. simpl. rewrite Hs. simpl. rewrite Hne.
    rewrite andb_false_r.
    unfold finally, try_catch, fetch, send, settle, res_json, UploadScansPage.errorStatus,
      UploadScansPage.setLoading, UploadScansPage.setStatus, modify, modify_env,
      setItem, navigate, getProp, when, mret, M_ret, ret, throw, bind.
    destruct o as [msg | ok [msg | data]]; simpl; try reflexivity.
    destruct ok, (nullish data); simpl; try reflexivity.
    destruct (truthy (getOwn data "predictions")
              && negb (Nat.eqb (length (Object_keys (getOwn data "predictions"))) 0)),
      (truthy (getOwn data "image_url")), (truthy (getOwn data "gradcam_url")),
      (truthy (getOwn data "case_id")); reflexivity.
  - unfold run, UploadScansPage.handleSkipScan. unfold mbind, M_bind.
    unfold bind at 1, getItem. simpl. rewrite Hs. unfold if_item. rewrite Hne.
    unfold finally, try_catch, fetch, send, settle, res_json, UploadScansPage.errorStatus,
      UploadScansPage.setLoading, UploadScansPage.setStatus, modify, modify_env,
      setItem, removeItem, navigate, getProp, when, mret, M_ret, ret, throw, bind.
    destruct o as [msg | ok [msg | data]]; simpl; try reflexivity.
    destruct ok, (nullish data); reflexivity.
Qed.

End UploadProperties.

(** ** SymptomsPage: what is stored *)

(** Both submit handlers store the month as the text of the number in the
    month cell, and the selector puts one of its options there. *)
Lemma SymptomsPage_stores_month (sp : SymptomsPage.State) (e : Env) :
  nonempty (trim (SymptomsPage.symptoms sp)) = true ->
  store (snd (run SymptomsPage.handleSubmit sp e)) !! "symptomMonth"
  = Some (numToString (SymptomsPage.month sp))
  /\ store (snd (run SymptomsPage.handleSymptomOnlyAnalysis sp e)) !! "symptomMonth"
     = Some (numToString (SymptomsPage.month sp)).
Proof.
  intros Hne.
  unfold run, SymptomsPage.handleSubmit, SymptomsPage.handleSymptomOnlyAnalysis.
  unfold mbind, M_bind, bind, page. simpl. rewrite Hne. simpl.
  split; simplify_map_eq; reflexivity.
Qed.

Lemma onMonthChange_option (sp : SymptomsPage.State) :
  Forall (fun m => SymptomsPage.month (SymptomsPage.onMonthChange (numToString m) sp) = m)
    SymptomsPage.monthOptions.
Proof. repeat constructor. Qed.

(** ** DiagnosisFlow: sessions *)

Lemma getOwn_nullish (v : jsval) (k : string) : nullish v = true -> getOwn v k = Undefined.
Proof. destruct v; try discriminate; reflexivity. Qed.

Lemma getProp_ok {P} (v : jsval) (k : string) (w : P * Env) :
  nullish v = false -> getProp v k w = (w, Ok (getOwn v k)).
Proof. intros H. unfold getProp. rewrite H. reflexivity. Qed.

Lemma js_or_truthy (a b : jsval) : truthy a = true -> js_or a b = a.
Proof. intros H. unfold js_or. rewrite H. reflexivity. Qed.

Lemma js_or_cost (n : float) :
  n = 0%float \/ truthy (Num n) = true -> js_or (Num n) (Num 0) = Num n.
Proof. intros [-> | H]; [reflexivity | apply js_or_truthy, H]. Qed.

(** The two numbers this leaves out, negative zero and NaN, are stored as
    zero (NaN cannot come out of JSON at all). *)
Lemma js_or_cost_zero :
  js_or (Num (-0)%float) (Num 0) = Num 0 /\ js_or (Num nan) (Num 0) = Num 0.
Proof. split; reflexivity. Qed.

Section FlowProperties.

Variable ToString : jsval -> string.
Variable JSON_stringify : jsval -> string.
Variable JSON_parse : string -> result jsval.
Variable js_gt : jsval -> jsval -> bool.
Variable Math_max : list jsval -> jsval.

#[local] Abbreviation resumeSession_own := (DiagnosisFlow.resumeSession_own).
#[local] Abbreviation resumeSession := (DiagnosisFlow.resumeSession ToString).

(** C4.  A successful status response that carries the candidate list, the
    two test collections and the cost puts exactly these into the four
    cells, whatever they held before: the cost is assigned, not added.
    The status request is the only request made, so no history is
    replayed; local storage is left alone and the flow is at the testing
    step.  Nothing on the right-hand sides depends on the prior state [st]:
    the same response yields the same view from any state, the fresh one
    after a restart included. *)
Theorem resume_restores_server_view
    (st : State) (e : Env) (sid : string) (data : jsval) (o' : outcome)
    (cs rts : list jsval) (cts : list (string * jsval)) (n : float) :
  getOwn data "candidates" = Arr cs ->
  getOwn data "recommended_tests" = Arr rts ->
  getOwn data "completed_tests" = Obj cts ->
  getOwn data "total_cost" = Num n ->
  n = 0%float \/ truthy (Num n) = true ->
  let w := run (resumeSession sid (Resp true (Json data)) o') st e in
  fst w candidates = Arr cs
  /\ fst w recommendedTests = Arr rts
  /\ fst w completedTests = Obj cts
  /\ fst w totalCost = Num n
  /\ fst w sessionId = Str sid
  /\ fst w step = Num 2
  /\ sent (snd w) = (sent e ++ [GetStatus sid])%list
  /\ store (snd w) = store e.
Proof.
  intros Hc Hr Ht Hn Hz.
  assert (nullish data = false) as Hd.
  { destruct (nullish data) eqn:E; [| reflexivity].
    rewrite (getOwn_nullish _ _ E) in Hc. discriminate. }
  unfold run, DiagnosisFlow.resumeSession, DiagnosisFlow.resumeSession_own,
    mbind, M_bind, bind, finally, try_catch, fetch, send, settle, res_json,
    set, modify, modify_env, mret, M_ret, ret, when. simpl.
  rewrite !(getProp_ok data _ _ Hd). simpl.
  rewrite Hc, Hr, Ht, Hn, (js_or_cost n Hz). simpl.
  repeat split; reflexivity.
Qed.

(** C5 (as the code has it).  When the status request is answered with an
    error status, the stored session id is removed and, if symptoms are
    still stored, one start request is built from them, without imaging
    data; with no symptoms stored nothing is restarted.  When the request
    itself fails, or its body is not JSON, the stored session id is removed
    and an error message is shown: nothing is restarted. *)
Theorem resume_failure_handling (st : State) (e : Env) (sid : string) :
  (forall b,
     let ls := delete "diagnosisSessionId" (store e) in
     let w := run (resumeSession_own sid (Resp false b)) st e in
     store (snd w) = ls
     /\ sent (snd w)
        = (sent e ++ GetStatus sid
             :: if_item (store e !! "symptoms")
                  (fun s => [PostStart (requestBody ls s Null Null Null Null)]) [])%list
     /\ outcome_of (resumeSession_own sid (Resp false b)) st e
        = Ok (if_item (store e !! "symptoms") (fun _ => true) false))
  /\ (forall msg o, In o [NetFail msg; Resp true (BadJson msg)] ->
       let w := run (resumeSession_own sid o) st e in
       store (snd w) = delete "diagnosisSessionId" (store e)
       /\ sent (snd w) = (sent e ++ [GetStatus sid])%list
       /\ fst w error = Str ("Could not resume session: " ++ msg)
       /\ outcome_of (resumeSession_own sid o) st e = Ok false).
Proof.
  split.
  - intros b ls w. subst w ls.
    unfold run, outcome_of, DiagnosisFlow.resumeSession_own, startDiagnosis_begin,
      mbind, M_bind, bind, finally, try_catch, fetch, send, settle,
      set, modify, modify_env, mret, M_ret, ret, removeItem, getItem, localStorage.
    simpl. rewrite lookup_delete_ne by discriminate.
    unfold if_item. destruct (store e !! "symptoms") as [s|]; simpl.
    + destruct (nonempty s); simpl; rewrite <- ?app_assoc; repeat split; reflexivity.
    + repeat split; reflexivity.
  - intros msg o [<- | [<- | []]]; repeat split; reflexivity.
Qed.

(** C5 as stated fails: with symptoms still stored, a status request that
    itself fails removes the session id but starts no diagnosis; and an
    expired session with no symptoms left in storage (they are removed once
    a diagnosis has started) is not restarted either. *)
Lemma resume_failure_without_restart :
  let w := run (resumeSession_own "s-1" (NetFail "Failed to fetch")) initial stale_env in
  let w' := run (resumeSession_own "s-1" (Resp false (Json (Obj [])))) initial session_env in
  store stale_env !! "symptoms" = Some "fever and cough"
  /\ store (snd w) !! "diagnosisSessionId" = None
  /\ ~ (exists body, In (PostStart body) (sent (snd w)))
  /\ store (snd w') !! "diagnosisSessionId" = None
  /\ ~ (exists body, In (PostStart body) (sent (snd w'))).
Proof.
  repeat split; try (vm_compute; reflexivity).
  - intros [body Hin]. vm_compute in Hin. destruct Hin as [Hin | []]. discriminate.
  - intros [body Hin]. vm_compute in Hin. destruct Hin as [Hin | []]. discriminate.
Qed.

(** *** Test results *)

Lemma assoc_obj_set_eq (k : string) (v : jsval) (l : list (string * jsval)) :
  assoc k (obj_set k v l) = Some v.
Proof.
  induction l as [|[k' v'] l IH]; simpl.
  - rewrite String.eqb_refl. reflexivity.
  - destruct (String.eqb k k') eqn:E; simpl; rewrite ?String.eqb_refl, ?E; auto.
Qed.

Lemma assoc_obj_set_ne (k k' : string) (v : jsval) (l : list (string * jsval)) :
  k' <> k -> assoc k' (obj_set k v l) = assoc k' l.
Proof.
  intros Hne. induction l as [|[k0 v0] l IH]; simpl.
  - destruct (String.eqb_spec k' k); [contradiction | reflexivity].
  - destruct (String.eqb_spec k k0) as [<- | Hk]; simpl.
    + destruct (String.eqb_spec k' k); [contradiction | reflexivity].
    + rewrite IH. reflexivity.
Qed.

Lemma getOwn_spread_eq (prev : jsval) (k : string) (v : jsval) :
  getOwn (spread_with prev k v) k = v.
Proof. unfold getOwn, spread_with. simpl. rewrite assoc_obj_set_eq. reflexivity. Qed.

Lemma getOwn_spread_ne (prev : jsval) (k k' : string) (v : jsval) :
  k' <> k -> getOwn (spread_with prev k v) k' = getOwn prev k'.
Proof.
  intros Hne. unfold getOwn, spread_with. simpl (ownEntries (Obj _)).
  rewrite assoc_obj_set_ne by exact Hne. reflexivity.
Qed.

(** C9.  After a test-result submission that the backend accepts, the
    completed-tests object maps the submitted test id to the submitted
    outcome and every other entry is what it was; the slate that the
    response carries replaces the recommended tests (the client removes
    nothing itself: the completed test is gone from the slate because the
    backend's slate no longer lists it), and the one request made is the
    submission. *)
Theorem submit_records_result
    (st : State) (e : Env) (testId result : string) (data : jsval) :
  truthy (st sessionId) = true ->
  nullish data = false ->
  let w := run (submitTestResult testId result (Resp true (Json data))) st e in
  getOwn (fst w completedTests) testId = Str result
  /\ (forall k, k <> testId ->
        getOwn (fst w completedTests) k = getOwn (st completedTests) k)
  /\ (truthy (getOwn data "recommended_tests") = true ->
        fst w recommendedTests = getOwn data "recommended_tests")
  /\ sent (snd w) = (sent e ++ [PostTestResult (st sessionId) testId result])%list.
Proof.
  intros Hs Hd w. subst w.
  unfold run, submitTestResult, update, mbind, M_bind, bind, finally, try_catch,
    fetch, send, settle, res_json, page, set, modify, modify_env, mret, M_ret, ret.
  simpl. rewrite Hs. simpl.
  rewrite !(getProp_ok data _ _ Hd). simpl.
  unfold when. destruct (truthy (getOwn data "recommended_tests")) eqn:Hrt; simpl.
  - repeat split; try reflexivity.
    + apply getOwn_spread_eq.
    + intros k Hk. apply getOwn_spread_ne, Hk.
  - repeat split; try reflexivity.
    + apply getOwn_spread_eq.
    + intros k Hk. apply getOwn_spread_ne, Hk.
    + discriminate.
Qed.

(** *** The final result *)

Lemma mapM_world {A B : Type} (f : A -> M State B) (l : list A) (w : State * Env) :
  (forall a w, fst (f a w) = w) -> fst (mapM f l w) = w.
Proof.
  intros Hf. induction l as [|a l IH]; [reflexivity |].
  change (mapM f (a :: l)) with (bind (f a) (fun y => bind (mapM f l) (fun k => ret (y :: k)))).
  unfold bind. specialize (Hf a w).
  destruct (f a w) as [w1 [y | msg]]; simpl in Hf; subst w1; [| reflexivity].
  destruct (mapM f l w) as [w2 [k | msg]]; simpl in IH; subst w2; reflexivity.
Qed.

Lemma getProp_world (k : string) (c : jsval) (w : State * Env) : fst (getProp c k w) = w.
Proof. unfold getProp. destruct (nullish c); reflexivity. Qed.

(** Computing the search symptoms only reads. *)
Lemma symptomsForSearch_world (st : State) (w : State * Env) :
  fst (symptomsForSearch st w) = w.
Proof.
  unfold symptomsForSearch.
  destruct (truthy _); [reflexivity |].
  destruct (st candidates); try reflexivity.
  unfold mbind, M_bind, bind.
  pose proof (mapM_world (fun c => getProp c "name") (firstn 3 items) w
                (getProp_world "name")) as H.
  destruct (mapM (M := M State) (fun c => getProp c "name") (firstn 3 items) w)
    as [w' [names | msg]]; simpl in *; subst; reflexivity.
Qed.

(** A failing retrieval leaves the cells and the storage as they were and
    throws nothing to the enclosing block. *)
Lemma similarCasesBlock_fails (st : State) (o' : outcome) (w : State * Env) :
  similar_retrieval_fails o' ->
  exists e', similarCasesBlock st o' w = ((fst w, e'), Ok tt)
             /\ store e' = store (snd w).
Proof.
  intros Hf. unfold similarCasesBlock, try_catch. unfold mbind, M_bind. unfold bind at 1.
  pose proof (symptomsForSearch_world st w) as H.
  destruct (symptomsForSearch st w) as [w' [q | msg]]; simpl in H; subst w';
    [| exists (snd w); destruct w; split; reflexivity].
  unfold fetch, bind, send, settle, modify_env, res_json, getProp.
  destruct w as [st0 e0].
  destruct o' as [msg | ok [msg | d]]; simpl in *;
    try (eexists; split; reflexivity).
  unfold optProp in Hf.
  destruct (nullish d) eqn:E; simpl; [eexists; split; reflexivity |].
  rewrite Hf. eexists; split; reflexivity.
Qed.

(** What a successful result request leaves behind when the retrieval
    fails. *)
Lemma getFinalResult_similar_fails
    (st : State) (e : Env) (data : jsval) (o' : outcome) (now : string) :
  truthy (st sessionId) = true ->
  nullish data = false ->
  similar_retrieval_fails o' ->
  (truthy (st cnnPredictions) = true -> Object_keys (st cnnPredictions) <> []) ->
  exists e',
    getFinalResult JSON_stringify js_gt Math_max (Resp true (Json data)) o' now (st, e)
    = ((upd loading (Bool false)
          (upd step (Num 3)
             (upd report (getOwn data "report")
                (upd trustworthiness (getOwn data "trustworthiness")
                   (upd treatment (getOwn data "treatment")
                      (upd loading (Bool true) st))))), e'), Ok tt).
Proof.
  intros Hs Hd Hf Hk.
  unfold getFinalResult. unfold mbind, M_bind. unfold bind at 1, page.
  simpl. rewrite Hs. simpl.
  unfold finally, try_catch, fetch, send, settle, res_json, set, modify, modify_env, ret,
    setItem, removeItem, mret, M_ret.
  unfold bind at 1. simpl. unfold bind at 1 2. simpl. unfold bind at 1. simpl.
  unfold bind at 1. rewrite (getProp_ok data _ _ Hd).
  unfold bind at 1. simpl.
  unfold bind at 1. rewrite (getProp_ok data _ _ Hd).
  unfold bind at 1. simpl.
  unfold bind at 1. rewrite (getProp_ok data _ _ Hd).
  unfold bind at 1. simpl.
  unfold bind at 1.
  match goal with |- context [similarCasesBlock st o' ?w0] =>
    destruct (similarCasesBlock_fails st o' w0 Hf) as (e1 & -> & Hstore)
  end.
  simpl. unfold bind at 1.
  destruct (truthy (st cnnPredictions)) eqn:Hc.
  - specialize (Hk eq_refl). unfold topLabel.
    destruct (Object_keys (st cnnPredictions)) as [|k ks]; [contradiction |].
    simpl. eexists. reflexivity.
  - simpl. eexists. reflexivity.
Qed.

(** C7.  Once the result request has succeeded, a similar-case retrieval
    that fails does not stand in the way of the report: treatment,
    trustworthiness and report are set from the response, the flow moves
    to the results step without an error, and the similar-cases list is
    left as it was (empty, when it was empty).  The stored imaging
    predictions are assumed to carry at least one label whenever there are
    any, which is how the upload page stores them. *)
Theorem final_result_survives_similar_failure
    (st : State) (e : Env) (data : jsval) (o' : outcome) (now : string) :
  truthy (st sessionId) = true ->
  nullish data = false ->
  similar_retrieval_fails o' ->
  (truthy (st cnnPredictions) = true -> Object_keys (st cnnPredictions) <> []) ->
  let m := getFinalResult JSON_stringify js_gt Math_max (Resp true (Json data)) o' now in
  let w := run m st e in
  fst w treatment = getOwn data "treatment"
  /\ fst w trustworthiness = getOwn data "trustworthiness"
  /\ fst w report = getOwn data "report"
  /\ fst w step = Num 3
  /\ fst w similarCases = st similarCases
  /\ (st similarCases = Arr [] -> fst w similarCases = Arr [])
  /\ fst w error = st error
  /\ fst w loading = Bool false
  /\ outcome_of m st e = Ok tt.
Proof.
  intros Hs Hd Hf Hk m w. subst w m. unfold run, outcome_of.
  destruct (getFinalResult_similar_fails st e data o' now Hs Hd Hf Hk) as [e' ->].
  simpl. repeat split; try reflexivity. intros H. exact H.
Qed.

(** *** The start request *)

Lemma terms_trimmed (stored : option string) :
  Forall (fun s => nonempty s = true /\ trim s = s) (terms stored).
Proof.
  unfold terms, if_item. destruct stored as [s|]; [| constructor].
  destruct (nonempty s); [| constructor].
  rewrite Forall_forall. intros x Hx. apply list_elem_of_In, filter_In in Hx.
  destruct Hx as [Hin Hne]. split; [exact Hne |].
  apply in_map_iff in Hin. destruct Hin as (y & <- & _). apply trim_idem.
Qed.

(** The month selector offers 1..12, and reading the stored text of any
    of them with [parseInt] gives the number back. *)
Lemma monthOptions_round_trip :
  SymptomsPage.monthOptions
  = map PInt [1; 2; 3; 4; 5; 6; 7; 8; 9; 10; 11; 12]%Z
  /\ Forall (fun m => parseInt (numToString m) = m) SymptomsPage.monthOptions.
Proof. split; [reflexivity | repeat constructor]. Qed.

Lemma include_Some (v : jsval) : is_Some (include v) <-> truthy v = true.
Proof.
  unfold include. destruct (truthy v); split; intros H; try reflexivity.
  - eexists; reflexivity.
  - destruct H as [x H]. discriminate.
  - discriminate.
Qed.

(** C8.  The body of every start request: the symptoms are the extracted
    codes; the region is the stored one, "Global" when none is stored; the
    month is absent when none is stored and, stored from the selector (which
    offers exactly 1..12), is that integer; family history and genetic
    variants are the comma-separated pieces of the stored text, trimmed,
    the empty ones dropped; each imaging field is present exactly when the
    corresponding datum is there. *)
Theorem start_request_shape
    (ls : gmap string string) (text : string) (cnnPreds imgUrl gcamUrl csId : jsval) :
  let body := requestBody ls text cnnPreds imgUrl gcamUrl csId in
  symptoms body = extractSymptoms text
  /\ (ls !! "patientRegion" = None -> region body = "Global")
  /\ (forall r, ls !! "patientRegion" = Some r ->
        region body = if nonempty r then r else "Global")
  /\ (ls !! "symptomMonth" = None -> month body = None)
  /\ (forall m, In m SymptomsPage.monthOptions ->
        ls !! "symptomMonth" = Some (numToString m) ->
        month body = Some m /\ exists z, m = PInt z /\ (1 <= z <= 12)%Z)
  /\ SymptomsPage.monthOptions = map PInt [1; 2; 3; 4; 5; 6; 7; 8; 9; 10; 11; 12]%Z
  /\ family_history body
     = if_item (ls !! "familyHistory")
         (fun s => List.filter nonempty (map trim (split "," s))) []
  /\ genetic_variants body
     = if_item (ls !! "geneticVariants")
         (fun s => List.filter nonempty (map trim (split "," s))) []
  /\ Forall (fun s => nonempty s = true /\ trim s = s)
       (family_history body ++ genetic_variants body)%list
  /\ (is_Some (cnn_predictions body) <-> truthy cnnPreds = true)
  /\ (is_Some (case_id body) <-> truthy csId = true)
  /\ (is_Some (image_url body) <-> truthy imgUrl = true)
  /\ (is_Some (gradcam_url body) <-> truthy gcamUrl = true).
Proof.
  intros body. subst body. unfold requestBody. simpl.
  split; [reflexivity |].
  split; [intros ->; reflexivity |].
  split; [intros r ->; reflexivity |].
  split; [intros ->; reflexivity |].
  split.
  { intros m Hm ->.
    pose proof (proj1 (List.Forall_forall _ _) (proj2 monthOptions_round_trip) m Hm) as Hrt.
    assert (exists z, m = PInt z /\ (1 <= z <= 12)%Z /\ nonempty (numToString m) = true)
      as (z & -> & Hz & Hne).
    { simpl in Hm.
      repeat (destruct Hm as [<- | Hm];
              [eexists; split; [reflexivity | split; [simpl; lia | reflexivity]] |]).
      destruct Hm. }
    unfold if_item. rewrite Hne, Hrt.
    split; [reflexivity | exists z; split; [reflexivity | exact Hz]]. }
  split; [apply monthOptions_round_trip |].
  split; [reflexivity |].
  split; [reflexivity |].
  split; [apply Forall_app; split; apply terms_trimmed |].
  repeat split; try (apply include_Some); intros H; apply include_Some; exact H.
Qed.

(** *** Symptom-only paths *)

Lemma startDiagnosis_end_sent (o : outcome) (w : State * Env) :
  sent (snd (fst (startDiagnosis_end ToString o w))) = sent (snd w).
Proof.
  unfold startDiagnosis_end, finally, try_catch, mbind, M_bind, bind, settle, res_json,
    getProp, set, modify, modify_env, setItem, removeItem, throw, ret.
  destruct w as [st e].
  destruct o as [msg | ok [msg | d]]; simpl; try reflexivity.
  destruct ok; destruct (nullish d); reflexivity.
Qed.

(** With no imaging datum and no session id in storage, mounting the flow
    on stored symptoms issues one start request, built without imaging
    arguments. *)
Lemma useEffect_without_imaging (st : State) (e : Env) (s : string) (o o' : outcome) :
  imaging_cleared (store e) ->
  store e !! "diagnosisSessionId" = None ->
  store e !! "symptoms" = Some s ->
  nonempty s = true ->
  sent (snd (run (useEffect ToString JSON_parse o o') st e))
  = (sent e ++ [PostStart (requestBody (store e) s Null Null Null Null)])%list.
Proof.
  intros (H1 & H2 & H3 & H4) Hsid Hsym Hne.
  unfold run, useEffect. unfold mbind, M_bind. unfold bind at 1 2 3 4, getItem.
  simpl. rewrite H1, H2, H3, H4. simpl.
  unfold bind at 1 2 3 4 5. simpl. rewrite Hsid. simpl.
  unfold bind at 1. simpl. rewrite Hsym. unfold if_item at 1. rewrite Hne.
  unfold bind at 1. simpl. rewrite H1. simpl.
  unfold bind at 1. simpl.
  unfold startDiagnosis. unfold mbind, M_bind. unfold bind at 1.
  unfold startDiagnosis_begin. unfold mbind, M_bind, bind, set, modify, localStorage, send,
    modify_env. simpl.
  rewrite startDiagnosis_end_sent. reflexivity.
Qed.

Lemma requestBody_no_imaging (ls : gmap string string) (s : string) :
  no_imaging (requestBody ls s Null Null Null Null).
Proof. repeat split. Qed.

(** Two of the symptom-only paths do clear the imaging state: the
    "Analyze Symptoms Only" handler and the accepted "Skip Scan"
    submission leave local storage without predictions, image, heat map and
    case id (and without a session id), so that the diagnosis flow mounted
    next issues a start request that carries no predictions and no imaging
    references. *)
Theorem symptom_only_paths_clear_imaging :
  (forall (sp : SymptomsPage.State) (e : Env),
     nonempty (trim (SymptomsPage.symptoms sp)) = true ->
     let e1 := snd (run SymptomsPage.handleSymptomOnlyAnalysis sp e) in
     imaging_cleared (store e1)
     /\ forall st o o', exists body,
          sent (snd (run (useEffect ToString JSON_parse o o') st e1))
          = (sent e1 ++ [PostStart body])%list
          /\ no_imaging body)
  /\ (forall (up : UploadScansPage.State) (e : Env) (data : jsval) (s : string),
       store e !! "symptoms" = Some s -> nonempty s = true -> nullish data = false ->
       let skip := UploadScansPage.handleSkipScan ToString JSON_stringify
                     (Resp true (Json data)) in
       let e1 := snd (run skip up e) in
       imaging_cleared (store e1)
       /\ forall st o o', exists body,
            sent (snd (run (useEffect ToString JSON_parse o o') st e1))
            = (sent e1 ++ [PostStart body])%list
            /\ no_imaging body).
Proof.
  split.
  - intros sp e Hne e1.
    assert (store e1
            = delete "diagnosisSessionId" (delete "diagnosisCaseId" (delete "gradcamUrl"
                (delete "imageUrl" (delete "cnnPredictions"
                  (<["geneticVariants" := SymptomsPage.geneticVariants sp]>
                   (<["familyHistory" := SymptomsPage.familyHistory sp]>
                    (<["symptomMonth" := numToString (SymptomsPage.month sp)]>
                     (<["patientRegion" := SymptomsPage.region sp]>
                      (<["symptoms" := SymptomsPage.symptoms sp]> (store e))))))))))) as Hst.
    { subst e1. unfold run, SymptomsPage.handleSymptomOnlyAnalysis.
      unfold mbind, M_bind, bind, page. simpl. rewrite Hne. reflexivity. }
    assert (imaging_cleared (store e1)) as Hclear.
    { rewrite Hst. repeat split; simplify_map_eq; reflexivity. }
    split; [exact Hclear |].
    intros st o o'. eexists. split; [| apply requestBody_no_imaging].
    apply useEffect_without_imaging with (s := SymptomsPage.symptoms sp).
    + exact Hclear.
    + rewrite Hst. simplify_map_eq. reflexivity.
    + rewrite Hst. simplify_map_eq. reflexivity.
    + apply nonempty_trim, Hne.
  - intros up e data s Hsym Hne Hd skip e1.
    assert (store e1
            = delete "diagnosisSessionId" (delete "diagnosisCaseId" (delete "gradcamUrl"
                (delete "imageUrl" (delete "cnnPredictions"
                  (<["lastAnalysis" := JSON_stringify data]>
                   (<["lastCaseId" := ToString (getOwn data "case_id")]> (store e)))))))) as Hst.
    { subst e1 skip. unfold run, UploadScansPage.handleSkipScan.
      unfold mbind, M_bind, bind, getItem. simpl. rewrite Hsym. unfold if_item.
      rewrite Hne. simpl. unfold getProp. rewrite Hd. reflexivity. }
    assert (imaging_cleared (store e1)) as Hclear.
    { rewrite Hst. repeat split; simplify_map_eq; reflexivity. }
    split; [exact Hclear |].
    intros st o o'. eexists. split; [| apply requestBody_no_imaging].
    apply useEffect_without_imaging with (s := s).
    + exact Hclear.
    + rewrite Hst. simplify_map_eq. reflexivity.
    + rewrite Hst. simplify_map_eq. reflexivity.
    + exact Hne.
Qed.

End FlowProperties.

(** ** Remarks on the assumption about stored predictions *)

(** The upload page writes the predictions to storage only when they have
    at least one key. *)
Lemma handleUpload_stores_labelled_predictions
    (ToString JSON_stringify : jsval -> string)
    (st : UploadScansPage.State) (e : Env) (o : outcome) :
  store e !! "cnnPredictions" = None ->
  forall stored,
    store (snd (run (UploadScansPage.handleUpload ToString JSON_stringify o) st e))
      !! "cnnPredictions" = Some stored ->
    exists data preds,
      o = Resp true (Json data) /\ getOwn data "predictions" = preds
      /\ Object_keys preds <> [] /\ stored = JSON_stringify preds.
Proof.
  intros Hnone stored.
  unfold run, UploadScansPage.handleUpload. unfold mbind, M_bind. unfold bind at 1 2, page, getItem.
  simpl. destruct (negb (present (UploadScansPage.file st)) && _).
  { simpl. rewrite Hnone. discriminate. }
  unfold finally, try_catch, fetch, send, settle, res_json, UploadScansPage.errorStatus,
    UploadScansPage.setLoading, UploadScansPage.setStatus, modify, modify_env,
    setItem, navigate, getProp, when, mret, M_ret, ret, throw, bind.
  destruct o as [msg | ok [msg | data]]; simpl; try (rewrite Hnone; discriminate).
  destruct ok; simpl.
  - destruct (nullish data) eqn:Hd; simpl; [rewrite Hnone; discriminate |].
    destruct (truthy (getOwn data "predictions")) eqn:Ht; simpl.
    + destruct (Object_keys (getOwn data "predictions")) as [|k ks] eqn:Hk; simpl.
      * destruct (truthy (getOwn data "image_url")), (truthy (getOwn data "gradcam_url")),
          (truthy (getOwn data "case_id")); simpl;
          simplify_map_eq; rewrite ?Hnone; discriminate.
      * intros Hst. exists data, (getOwn data "predictions").
        rewrite Hk. repeat split; try discriminate.
        destruct (truthy (getOwn data "image_url")), (truthy (getOwn data "gradcam_url")),
          (truthy (getOwn data "case_id")); simpl in Hst;
          simplify_map_eq; reflexivity.
    + destruct (truthy (getOwn data "image_url")), (truthy (getOwn data "gradcam_url")),
        (truthy (getOwn data "case_id")); simpl;
        simplify_map_eq; rewrite ?Hnone; discriminate.
  - destruct (nullish data); simpl; rewrite Hnone; discriminate.
Qed.

(** Were predictions without any label in the cell, the final result would
    be answered with "Failed to get results" and the flow would stay where
    it is, with or without similar cases. *)
Lemma getFinalResult_unlabelled_predictions :
  let st := upd cnnPredictions (Obj []) testing_state in
  let m := getFinalResult sample_stringify sample_gt sample_max
             (Resp true (Json sample_result))
             (Resp true (Json (Obj [("similar_cases", Arr [])]))) "2026-01-01T00:00:00.000Z" in
  fst (run m st session_env) error = Str "Failed to get results"
  /\ fst (run m st session_env) step = Num 1.
Proof. split; vm_compute; reflexivity. Qed.

(** ** The theorems at sample inputs *)

Lemma submit_without_input_rejected_witness :
  let st := {| UploadScansPage.file := None; UploadScansPage.status := "";
               UploadScansPage.loading := false |} in
  UploadScansPage.handleUpload sample_ToString sample_stringify (NetFail "offline")
    (st, empty_env)
  = (({| UploadScansPage.file := None;
         UploadScansPage.status := UploadScansPage.msg_need_input;
         UploadScansPage.loading := false |}, empty_env), Ok tt)
  /\ UploadScansPage.handleSkipScan sample_ToString sample_stringify (NetFail "offline")
       (st, empty_env)
     = (({| UploadScansPage.file := None;
            UploadScansPage.status := UploadScansPage.msg_no_symptoms;
            UploadScansPage.loading := false |}, empty_env), Ok tt).
Proof.
  pose proof (submit_without_input_rejected sample_ToString sample_stringify
                {| UploadScansPage.file := None; UploadScansPage.status := "";
                   UploadScansPage.loading := false |}
                empty_env (NetFail "offline") (or_introl eq_refl)) as H.
  exact (conj (proj1 H eq_refl) (proj2 H)).
Defined.

Lemma resume_restores_server_view_witness :
  let w := run (resumeSession sample_ToString "s-1" (Resp true (Json sample_status))
                  (NetFail "offline")) initial session_env in
  fst w totalCost = Num 45.
Proof.
  exact (proj1 (proj2 (proj2 (proj2
    (resume_restores_server_view sample_ToString initial session_env "s-1" sample_status
       (NetFail "offline") _ _ _ 45%float
       eq_refl eq_refl eq_refl eq_refl (or_intror eq_refl)))))).
Defined.

Lemma resume_failure_handling_witness :
  sent (snd (run (resumeSession_own "s-1" (NetFail "Failed to fetch")) initial stale_env))
  = [GetStatus "s-1"].
Proof.
  exact (proj1 (proj2 (proj2 (resume_failure_handling initial stale_env "s-1")
                          "Failed to fetch" (NetFail "Failed to fetch")
                          (or_introl eq_refl)))).
Defined.

Lemma submit_records_result_witness :
  let w := run (submitTestResult "crp" "positive" (Resp true (Json sample_update)))
             testing_state session_env in
  getOwn (fst w completedTests) "crp" = Str "positive"
  /\ getOwn (fst w completedTests) "cbc" = Str "negative".
Proof.
  pose proof (submit_records_result testing_state session_env "crp" "positive" sample_update
                eq_refl eq_refl) as H.
  split.
  - exact (proj1 H).
  - exact (proj1 (proj2 H) "cbc" ltac:(discriminate)).
Defined.

Lemma final_result_survives_similar_failure_witness :
  let m := getFinalResult sample_stringify sample_gt sample_max
             (Resp true (Json sample_result)) (NetFail "index unreachable")
             "2026-01-01T00:00:00.000Z" in
  fst (run m testing_state session_env) step = Num 3.
Proof.
  exact (proj1 (proj2 (proj2 (proj2
    (final_result_survives_similar_failure sample_stringify sample_gt sample_max
       testing_state session_env sample_result (NetFail "index unreachable")
       "2026-01-01T00:00:00.000Z" eq_refl eq_refl I
       (fun H : false = true => False_ind _ (diff_false_true H))))))).
Defined.

Lemma start_request_shape_witness :
  month (requestBody (store fresh_env) "fever" Null Null Null Null) = Some (PInt 7).
Proof.
  refine (proj1 (proj1 (proj2 (proj2 (proj2 (proj2
    (start_request_shape (store fresh_env) "fever" Null Null Null Null)))))
    (PInt 7) _ eq_refl)).
  simpl. tauto.
Defined.

Lemma symptom_only_paths_clear_imaging_witness :
  let sp := {| SymptomsPage.symptoms := "fever and cough"; SymptomsPage.region := "Europe";
               SymptomsPage.month := PInt 3; SymptomsPage.familyHistory := "";
               SymptomsPage.geneticVariants := "" |} in
  imaging_cleared (store (snd (run SymptomsPage.handleSymptomOnlyAnalysis sp stale_imaging_env))).
Proof.
  exact (proj1 (proj1 (symptom_only_paths_clear_imaging sample_ToString sample_stringify
                         sample_parse)
                 {| SymptomsPage.symptoms := "fever and cough"; SymptomsPage.region := "Europe";
                    SymptomsPage.month := PInt 3; SymptomsPage.familyHistory := "";
                    SymptomsPage.geneticVariants := "" |}
                 stale_imaging_env eq_refl)).
Defined.

(** ** Remark on uploads without a file *)

(** "Upload & Analyze" with stored symptoms and no file also submits the
    symptoms alone, but removes nothing: predictions left in storage by an
    earlier upload stay there, and the flow mounted next sends them along. *)
Lemma handleUpload_without_file_keeps_predictions :
  let st := {| UploadScansPage.file := None; UploadScansPage.status := "";
               UploadScansPage.loading := false |} in
  let e1 := snd (run (UploadScansPage.handleUpload sample_ToString sample_stringify
                        (Resp true (Json (Obj [("case_id", Str "c-9")])))) st leftover_env) in
  let e2 := snd (run (useEffect sample_ToString sample_parse_ok (NetFail "offline")
                        (NetFail "offline")) initial e1) in
  store e1 !! "cnnPredictions" = Some "{}"
  /\ exists body, last (sent e2) = Some (PostStart body)
                  /\ cnn_predictions body = Some (Obj [("Pneumonia", Num 0.8)]).
Proof.
  split; [vm_compute; reflexivity |].
  eexists. split; vm_compute; reflexivity.
Qed.

(** "Upload & Analyze" removes nothing from local storage, whatever the
    backend answers. *)
Lemma handleUpload_removes_nothing
    (ToString JSON_stringify : jsval -> string) (st : UploadScansPage.State) (e : Env)
    (o : outcome) (k : string) :
  is_Some (store e !! k) ->
  is_Some (store (snd (run (UploadScansPage.handleUpload ToString JSON_stringify o) st e)) !! k).
Proof.
  intros Hk.
  unfold run, UploadScansPage.handleUpload. unfold mbind, M_bind.
  unfold bind at 1 2, page, getItem.
  simpl. destruct (negb (present (UploadScansPage.file st)) && _); [exact Hk |].
  unfold finally, try_catch, fetch, send, settle, res_json, UploadScansPage.errorStatus,
    UploadScansPage.setLoading, UploadScansPage.setStatus, modify, modify_env,
    setItem, navigate, getProp, when, mret, M_ret, ret, throw, bind.
  destruct o as [msg | ok [msg | d]]; simpl; try exact Hk.
  destruct ok, (nullish d); simpl; try exact Hk.
  destruct (truthy (getOwn d "predictions")
            && negb (Nat.eqb (length (Object_keys (getOwn d "predictions"))) 0)),
    (truthy (getOwn d "image_url")), (truthy (getOwn d "gradcam_url")),
    (truthy (getOwn d "case_id")); simpl;
    repeat (apply lookup_insert_is_Some'; right); exact Hk.
Qed.

(** C10 (evaluation at the failing input).  "Upload & Analyze" pressed
    with stored symptoms and no file selected is a symptom-only path as
    well: it submits the symptoms without an image and goes on to the
    diagnosis flow.  It clears nothing.  In a browser that still holds the
    predictions and the image references of an earlier upload these stay in
    local storage, and the flow mounted next sends a start request that
    carries them.  "Skip Scan", on the same browser and the same answer,
    does clear them. *)
Theorem upload_without_file_keeps_imaging :
  let answer := Resp true (Json (Obj [("case_id", Str "case-9")])) in
  let e1 := snd (run (UploadScansPage.handleUpload sample_ToString sample_stringify answer)
                   upload_form stale_imaging_env) in
  let e2 := snd (run (useEffect sample_ToString sample_parse_ok (NetFail "offline")
                        (NetFail "offline")) initial e1) in
  let e1' := snd (run (UploadScansPage.handleSkipScan sample_ToString sample_stringify answer)
                    upload_form stale_imaging_env) in
  UploadScansPage.file upload_form = None
  /\ sent e1 = [PostSubmit "Anonymous Patient" "fever" None]
  /\ routes e1 = ["/diagnosis-flow"]
  /\ store e1 !! "cnnPredictions" = Some "{}"
  /\ store e1 !! "imageUrl" = Some "/uploads/old.png"
  /\ store e1 !! "gradcamUrl" = Some "/uploads/old_cam.png"
  /\ ~ imaging_cleared (store e1)
  /\ (exists body,
        sent e2 = (sent e1 ++ [PostStart body])%list
        /\ cnn_predictions body = Some (Obj [("Pneumonia", Num 0.8)])
        /\ image_url body = Some (Str "/uploads/old.png")
        /\ gradcam_url body = Some (Str "/uploads/old_cam.png")
        /\ ~ no_imaging body)
  /\ sent e1' = sent e1
  /\ imaging_cleared (store e1').
Proof.
  cbv zeta.
  split; [reflexivity |].
  split; [vm_compute; reflexivity |].
  split; [vm_compute; reflexivity |].
  split; [vm_compute; reflexivity |].
  split; [vm_compute; reflexivity |].
  split; [vm_compute; reflexivity |].
  split.
  { intros (H & _). vm_compute in H. discriminate. }
  split.
  { eexists. split; [vm_compute; reflexivity |].
    split; [vm_compute; reflexivity |].
    split; [vm_compute; reflexivity |].
    split; [vm_compute; reflexivity |].
    intros (H & _). vm_compute in H. discriminate. }
  split; [vm_compute; reflexivity |].
  repeat split; vm_compute; reflexivity.
Qed.


(* ===================================================================== *)
(** * Further properties of the pages *)
(* ===================================================================== *)

(** ** SymptomsPage: the quick-symptom buttons *)

Lemma split_no_sep (sep : ascii) (s : string) :
  has_char sep s = false -> split sep s = [s].
Proof.
  induction s as [|c s IH]; [reflexivity |].
  simpl. intros H. apply orb_false_elim in H as [Hc Hs].
  rewrite Hc, (IH Hs). reflexivity.
Qed.

Lemma split_app_sep (sep : ascii) (a b : string) :
  split sep (a ++ String sep b) = (split sep a ++ split sep b)%list.
Proof.
  induction a as [|c a IH]; simpl.
  - rewrite Ascii.eqb_refl. reflexivity.
  - rewrite IH. destruct (Ascii.eqb c sep); [reflexivity |].
    pose proof (split_not_nil sep a) as Hn.
    destruct (split sep a) as [|h t]; [contradiction | reflexivity].
Qed.

Lemma split_pieces_no_sep (sep : ascii) (s : string) :
  Forall (fun x => has_char sep x = false) (split sep s).
Proof.
  induction s as [|c s IH]; simpl; [repeat constructor |].
  destruct (Ascii.eqb c sep) eqn:E; [constructor; [reflexivity | exact IH] |].
  destruct (split sep s) as [|h t]; [repeat constructor; simpl; rewrite E; reflexivity |].
  inversion IH as [|? ? Hh Ht]; subst.
  constructor; [simpl; rewrite E, Hh; reflexivity | exact Ht].
Qed.

Lemma has_char_trimStart (c : ascii) (s : string) :
  has_char c s = false -> has_char c (trimStart s) = false.
Proof.
  induction s as [|a s IH]; [reflexivity |].
  simpl. intros H. pose proof H as H'. apply orb_false_elim in H' as [Ha Hs].
  destruct (is_space a); [exact (IH Hs) | exact H].
Qed.

Lemma has_char_trimEnd (c : ascii) (s : string) :
  has_char c s = false -> has_char c (trimEnd s) = false.
Proof.
  induction s as [|a s IH]; [reflexivity |].
  simpl. intros H. apply orb_false_elim in H as [Ha Hs]. specialize (IH Hs).
  destruct (trimEnd s) as [|b t].
  - destruct (is_space a); simpl; rewrite ?Ha; reflexivity.
  - simpl in *. rewrite Ha. exact IH.
Qed.

Lemma has_char_trim (c : ascii) (s : string) :
  has_char c s = false -> has_char c (trim s) = false.
Proof. intros H. apply has_char_trimEnd, has_char_trimStart, H. Qed.

(** What the page reads off the text are tags. *)
Lemma symptomList_tags (text : string) : Forall tag (SymptomsPage.symptomList text).
Proof.
  unfold SymptomsPage.symptomList. rewrite List.Forall_forall. intros x Hx.
  apply filter_In in Hx as [Hin Hne]. apply in_map_iff in Hin as (y & <- & Hy).
  repeat split; [exact Hne | apply trim_idem |].
  apply has_char_trim.
  exact (proj1 (List.Forall_forall _ _) (split_pieces_no_sep "," text) y Hy).
Qed.

(** A space after the comma does not change what is read. *)
Lemma map_trim_split_space (s : string) :
  map trim (split "," (String " " s)) = map trim (split "," s).
Proof.
  simpl. pose proof (split_not_nil "," s) as Hn.
  destruct (split "," s) as [|h t]; [contradiction | reflexivity].
Qed.

(** Reading back the text that [join(", ")] writes. *)
Lemma symptomList_concat (l : list string) :
  Forall tag l -> SymptomsPage.symptomList (String.concat ", " l) = l.
Proof.
  unfold SymptomsPage.symptomList.
  induction 1 as [|x l (Hne & Htrim & Hcomma) Hl IH]; [reflexivity |].
  destruct l as [|y r].
  - simpl. rewrite (split_no_sep _ _ Hcomma). simpl. rewrite Htrim, Hne. reflexivity.
  - change (String.concat ", " (x :: y :: r))
      with (x ++ String "," (String " " (String.concat ", " (y :: r)))).
    rewrite split_app_sep, (split_no_sep _ _ Hcomma), map_app, List.filter_app.
    rewrite map_trim_split_space, IH. simpl. rewrite Htrim, Hne. reflexivity.
Qed.

Lemma list_includes_In (l : list string) (x : string) :
  SymptomsPage.list_includes l x = true <-> In x l.
Proof.
  unfold SymptomsPage.list_includes. rewrite existsb_exists. split.
  - intros (y & Hy & E). apply String.eqb_eq in E. subst. exact Hy.
  - intros H. exists x. split; [exact H | apply String.eqb_refl].
Qed.

Lemma symptomList_single (symptom : string) :
  tag symptom -> SymptomsPage.symptomList symptom = [symptom].
Proof.
  intros (Hne & Htrim & Hcomma).
  unfold SymptomsPage.symptomList. rewrite (split_no_sep _ _ Hcomma). simpl.
  rewrite Htrim, Hne. reflexivity.
Qed.

Lemma symptomList_append (text symptom : string) :
  tag symptom ->
  SymptomsPage.symptomList (text ++ ", " ++ symptom)
  = (SymptomsPage.symptomList text ++ [symptom])%list.
Proof.
  intros (Hne & Htrim & Hcomma).
  unfold SymptomsPage.symptomList.
  change (text ++ ", " ++ symptom) with (text ++ String "," (String " " symptom)).
  rewrite split_app_sep, map_app, List.filter_app, map_trim_split_space.
  rewrite (split_no_sep _ _ Hcomma). simpl. rewrite Htrim, Hne. reflexivity.
Qed.

(** X1.  Clicking a quick symptom that the text does not yet list appends
    it: what the page reads off the new text is the old list followed by
    the symptom. *)
Theorem toggle_adds (symptom : string) (st : SymptomsPage.State) :
  tag symptom ->
  ~ In symptom (SymptomsPage.symptomList (SymptomsPage.symptoms st)) ->
  SymptomsPage.symptomList (SymptomsPage.symptoms (SymptomsPage.handleToggleSymptom symptom st))
  = (SymptomsPage.symptomList (SymptomsPage.symptoms st) ++ [symptom])%list.
Proof.
  intros Htag Hnot.
  unfold SymptomsPage.handleToggleSymptom.
  destruct (SymptomsPage.list_includes _ symptom) eqn:E.
  { apply list_includes_In in E. contradiction. }
  destruct (SymptomsPage.symptomList (SymptomsPage.symptoms st)) as [|y r] eqn:El.
  - simpl. apply symptomList_single, Htag.
  - rewrite <- El. unfold SymptomsPage.setSymptoms, SymptomsPage.symptoms at 1.
    apply symptomList_append, Htag.
Qed.

Lemma toggle_adds_witness :
  SymptomsPage.symptomList
    (SymptomsPage.symptoms (SymptomsPage.handleToggleSymptom "Cough" (form "fever , Headache")))
  = ["fever"; "Headache"; "Cough"].
Proof.
  apply (toggle_adds "Cough" (form "fever , Headache")).
  - repeat split.
  - simpl. intros [H | [H | []]]; discriminate.
Defined.

(** X2.  Clicking a symptom that the text lists removes every mention of
    it and keeps the other symptoms, in their order. *)
Theorem toggle_removes (symptom : string) (st : SymptomsPage.State) :
  In symptom (SymptomsPage.symptomList (SymptomsPage.symptoms st)) ->
  SymptomsPage.symptomList (SymptomsPage.symptoms (SymptomsPage.handleToggleSymptom symptom st))
  = List.filter (fun s => negb (String.eqb s symptom))
      (SymptomsPage.symptomList (SymptomsPage.symptoms st)).
Proof.
  intros Hin. unfold SymptomsPage.handleToggleSymptom.
  rewrite (proj2 (list_includes_In _ _) Hin). simpl.
  apply symptomList_concat.
  rewrite List.Forall_forall. intros x Hx. apply filter_In in Hx as [Hx _].
  exact (proj1 (List.Forall_forall _ _) (symptomList_tags _) x Hx).
Qed.

Lemma toggle_removes_witness :
  SymptomsPage.symptomList
    (SymptomsPage.symptoms
       (SymptomsPage.handleToggleSymptom "Fever" (form "Fever,cough ,, Fever")))
  = ["cough"].
Proof.
  apply (toggle_removes "Fever" (form "Fever,cough ,, Fever")).
  simpl. left. reflexivity.
Defined.

Lemma isSymptomSelected_list (symptom : string) (st : SymptomsPage.State) :
  nonempty symptom = true ->
  SymptomsPage.isSymptomSelected symptom st = true
  <-> In symptom (SymptomsPage.symptomList (SymptomsPage.symptoms st)).
Proof.
  intros Hne. unfold SymptomsPage.isSymptomSelected, SymptomsPage.symptomList.
  rewrite list_includes_In, filter_In. split; [| tauto].
  intros H. split; [exact H | exact Hne].
Qed.

(** X3.  Each click on a quick symptom flips its highlight. *)
Theorem toggle_flips_selection (symptom : string) (st : SymptomsPage.State) :
  tag symptom ->
  SymptomsPage.isSymptomSelected symptom (SymptomsPage.handleToggleSymptom symptom st)
  = negb (SymptomsPage.isSymptomSelected symptom st).
Proof.
  intros Htag. pose proof Htag as (Hne & _ & _).
  pose proof (isSymptomSelected_list symptom st Hne) as Hold.
  rewrite <- (negb_involutive
                (SymptomsPage.isSymptomSelected symptom
                   (SymptomsPage.handleToggleSymptom symptom st))).
  f_equal.
  destruct (SymptomsPage.isSymptomSelected symptom st) eqn:E.
  - pose proof (proj1 Hold eq_refl) as Hin.
    apply negb_true_iff, not_true_is_false. intros H.
    apply (isSymptomSelected_list _ _ Hne) in H.
    unfold SymptomsPage.handleToggleSymptom in H.
    rewrite (proj2 (list_includes_In _ _) Hin) in H. simpl in H.
    rewrite symptomList_concat in H.
    + apply filter_In in H as [_ H]. rewrite String.eqb_refl in H. discriminate.
    + rewrite List.Forall_forall. intros x Hx. apply filter_In in Hx as [Hx _].
      exact (proj1 (List.Forall_forall _ _) (symptomList_tags _) x Hx).
  - assert (SymptomsPage.list_includes
              (SymptomsPage.symptomList (SymptomsPage.symptoms st)) symptom = false) as Hinc.
    { apply not_true_is_false. intros H. apply list_includes_In in H.
      apply Hold in H. discriminate. }
    apply negb_false_iff. apply (isSymptomSelected_list _ _ Hne).
    unfold SymptomsPage.handleToggleSymptom. rewrite Hinc.
    destruct (SymptomsPage.symptomList (SymptomsPage.symptoms st)) as [|y r] eqn:El.
    + simpl. rewrite (symptomList_single _ Htag). left. reflexivity.
    + unfold SymptomsPage.setSymptoms, SymptomsPage.symptoms at 1.
      rewrite (symptomList_append _ _ Htag). apply in_or_app. right. left. reflexivity.
Qed.

Lemma toggle_flips_selection_witness :
  SymptomsPage.isSymptomSelected "Sore throat"
    (SymptomsPage.handleToggleSymptom "Sore throat" (form "Fever, Sore throat"))
  = negb (SymptomsPage.isSymptomSelected "Sore throat" (form "Fever, Sore throat")).
Proof.
  apply (toggle_flips_selection "Sore throat" (form "Fever, Sore throat")).
  repeat split.
Defined.

Lemma quickSymptoms_tags : Forall tag SymptomsPage.quickSymptoms.
Proof. repeat constructor. Qed.

Lemma toLowerCase_app (a b : string) :
  toLowerCase (a ++ b) = toLowerCase a ++ toLowerCase b.
Proof. induction a as [|c a IH]; simpl; [reflexivity | rewrite IH; reflexivity]. Qed.

Lemma string_app_assoc (a b c : string) : (a ++ b) ++ c = a ++ b ++ c.
Proof.
  induction a as [|x a IH]; [reflexivity |].
  change (String x ((a ++ b) ++ c) = String x (a ++ b ++ c)). f_equal. exact IH.
Qed.

Lemma string_app_nil_r (a : string) : a ++ "" = a.
Proof.
  induction a as [|x a IH]; [reflexivity |].
  change (String x (a ++ "") = String x a). f_equal. exact IH.
Qed.

(** X4.  A quick symptom that is switched on is recognised: for six of
    the seven buttons the extractor finds the button's code in the text
    that the click produces, whatever the text was. *)
Theorem quick_symptom_extracted (q c : string) (st : SymptomsPage.State) :
  In (q, c) quickCodes ->
  SymptomsPage.isSymptomSelected q st = false ->
  In c (extractSymptoms (SymptomsPage.symptoms (SymptomsPage.handleToggleSymptom q st))).
Proof.
  intros Hqc Hsel.
  assert (tag q /\ In c known /\ replace c "_" " " = toLowerCase q) as (Htag & Hk & Hrep).
  { simpl in Hqc.
    repeat (destruct Hqc as [Hqc | Hqc];
            [injection Hqc as <- <-; repeat split; simpl; tauto |]).
    destruct Hqc. }
  apply list_elem_of_In, extractSymptoms_iff. split; [apply list_elem_of_In, Hk |].
  left. rewrite Hrep.
  unfold SymptomsPage.handleToggleSymptom.
  destruct (SymptomsPage.list_includes _ q) eqn:E.
  { apply list_includes_In in E.
    apply (isSymptomSelected_list _ _ (proj1 Htag)) in E. congruence. }
  destruct (SymptomsPage.symptomList (SymptomsPage.symptoms st)); simpl.
  - exists "", "". rewrite string_app_nil_r. reflexivity.
  - exists (toLowerCase (SymptomsPage.symptoms st ++ ", ")), "".
    rewrite string_app_nil_r, <- toLowerCase_app. f_equal.
    symmetry. apply (string_app_assoc (SymptomsPage.symptoms st) ", " q).
Qed.

Lemma quick_symptom_extracted_witness :
  In "sore_throat"
    (extractSymptoms
       (SymptomsPage.symptoms (SymptomsPage.handleToggleSymptom "Sore throat" (form "Fever")))).
Proof.
  apply (quick_symptom_extracted "Sore throat" "sore_throat" (form "Fever")).
  - simpl. tauto.
  - reflexivity.
Defined.


(** ** App: who gets to see what *)

Lemma ProtectedRoute_renders
    (r : string) (p q : App.Page) (ls : gmap string string) :
  nonempty r = true ->
  App.ProtectedRoute (Some r) p ls = App.Render q ->
  q = p /\ truthy (of_item (ls !! "authToken")) = true /\ ls !! "role" = Some r.
Proof.
  intros Hr. unfold App.ProtectedRoute, if_item, App.differs. rewrite Hr.
  destruct (truthy (of_item (ls !! "authToken"))); simpl; [| discriminate].
  destruct (ls !! "role") as [u|]; simpl; [| discriminate].
  destruct (String.eqb_spec u r) as [-> | _]; simpl; [| discriminate].
  intros H. injection H as <-. repeat split.
Qed.

(** X5.  A page other than the login page is rendered only with an auth
    token in storage and with the stored role that the page's route asks
    for: a patient never gets a doctor's page, nor a doctor a patient's. *)
Theorem routes_role_separation
    (ls : gmap string string) (path : string) (view : gmap string string -> App.Element)
    (p : App.Page) :
  In (path, view) App.routes ->
  view ls = App.Render p ->
  p = App.Login
  \/ (truthy (of_item (ls !! "authToken")) = true /\ ls !! "role" = pageRole p).
Proof.
  intros Hin Hview. simpl in Hin.
  repeat (destruct Hin as [Hin | Hin];
          [injection Hin as <- <-;
           first
             [ apply ProtectedRoute_renders in Hview; [| reflexivity];
               destruct Hview as (-> & Ht & Hr); right; split; [exact Ht | exact Hr]
             | left; injection Hview as <-; reflexivity ] |]).
  destruct Hin.
Qed.

Lemma routes_role_separation_witness :
  let ls : gmap string string := <["authToken" := "t0k3n"]> (<["role" := "patient"]> ∅) in
  App.SymptomsPage = App.Login
  \/ (truthy (of_item (ls !! "authToken")) = true /\ ls !! "role" = pageRole App.SymptomsPage).
Proof.
  apply (routes_role_separation _ "/symptoms"
           (App.ProtectedRoute (Some "patient") App.SymptomsPage) App.SymptomsPage).
  - simpl. tauto.
  - reflexivity.
Defined.

(** X6.  After the doctor's logout every route of the application leads
    to the login page (it renders it, or redirects to "/"), no navbar is
    shown on any path, and the browser has been sent to "/". *)
Theorem logout_closes_every_route (e : Env) :
  let e' := snd (run Navbar.handleLogout tt e) in
  Forall (fun r => snd r (store e') = App.Navigate "/" \/ snd r (store e') = App.Render App.Login)
    App.routes
  /\ (forall pathname, App.showDoctorNavbar pathname (store e') = false
                       /\ App.showPatientNavbar pathname (store e') = false)
  /\ routes e' = (routes e ++ ["/"])%list.
Proof.
  assert (store (snd (run Navbar.handleLogout tt e)) !! "authToken" = None) as Htok.
  { unfold run, Navbar.handleLogout, mbind, M_bind, bind, removeItem, navigate, modify_env.
    simpl. apply lookup_delete_eq. }
  split; [| split]; [| | reflexivity];
    generalize dependent (store (snd (run Navbar.handleLogout tt e))); intros ls Htok.
  - unfold App.routes, App.ProtectedRoute.
    repeat (apply List.Forall_cons; [simpl; rewrite ?Htok; simpl; tauto |]).
    apply List.Forall_nil.
  - intros pathname. unfold App.showDoctorNavbar, App.showPatientNavbar.
    rewrite Htok. simpl. rewrite !andb_false_r. split; reflexivity.
Qed.

(** X7.  The navbars agree with the routes: away from the login page the
    doctor's navbar is shown exactly when the doctor's routes render their
    page, the patient's navbar exactly when the patient's routes do; the
    two are never shown together, and none is shown on the login page. *)
Theorem navbar_matches_access (pathname : string) (ls : gmap string string) (p : App.Page) :
  (App.isLoginPage pathname = false ->
   (App.showDoctorNavbar pathname ls = true
    <-> App.ProtectedRoute (Some "doctor") p ls = App.Render p)
   /\ (App.showPatientNavbar pathname ls = true
       <-> App.ProtectedRoute (Some "patient") p ls = App.Render p))
  /\ App.showDoctorNavbar pathname ls && App.showPatientNavbar pathname ls = false
  /\ (App.isLoginPage pathname = true ->
      App.showDoctorNavbar pathname ls = false /\ App.showPatientNavbar pathname ls = false).
Proof.
  unfold App.showDoctorNavbar, App.showPatientNavbar, App.ProtectedRoute, if_item, App.differs,
    is_str.
  destruct (App.isLoginPage pathname); simpl;
    destruct (truthy (of_item (ls !! "authToken"))); simpl;
    destruct (ls !! "role") as [r|]; simpl;
    try (destruct (String.eqb_spec r "doctor") as [-> | Hd]; simpl);
    try (destruct (String.eqb_spec r "patient") as [-> | Hp]; simpl);
    repeat split; intros; try discriminate; try reflexivity; try congruence.
Qed.

Lemma navbar_matches_access_witness :
  let ls : gmap string string := <["authToken" := "t0k3n"]> (<["role" := "doctor"]> ∅) in
  App.showDoctorNavbar "/cases" ls = true
  <-> App.ProtectedRoute (Some "doctor") App.DoctorCaseReview ls
      = App.Render App.DoctorCaseReview.
Proof.
  exact (proj1 (proj1 (navbar_matches_access "/cases"
                         (<["authToken" := "t0k3n"]> (<["role" := "doctor"]> ∅))
                         App.DoctorCaseReview) eq_refl)).
Defined.

(** ** DiagnosisFlow: restarting, failures, reloads *)

Section MoreFlow.

Variable ToString : jsval -> string.
Variable JSON_stringify : jsval -> string.
Variable JSON_parse : string -> result jsval.
Variable js_gt : jsval -> jsval -> bool.
Variable Math_max : list jsval -> jsval.

(** Without a session id neither handler does anything. *)
Lemma handlers_need_session (st : State) (e : Env) :
  truthy (st sessionId) = false ->
  (forall t r o, submitTestResult t r o (st, e) = ((st, e), Ok tt))
  /\ (forall o o' now,
        getFinalResult JSON_stringify js_gt Math_max o o' now (st, e) = ((st, e), Ok tt)).
Proof.
  intros Hs. split; intros.
  - unfold submitTestResult. unfold mbind, M_bind. unfold bind at 1, page. simpl.
    rewrite Hs. reflexivity.
  - unfold getFinalResult. unfold mbind, M_bind. unfold bind at 1, page. simpl.
    rewrite Hs. reflexivity.
Qed.

(** X8.  "Start New Diagnosis" puts the twelve cells it names back to
    their initial values and removes the stored session id; the error
    message, the session status and the imaging cells are left as they
    are.  No request is made, and until a new session exists submitting a
    test result or asking for the final result does nothing at all. *)
Theorem start_new_diagnosis_resets (st : State) (e : Env) :
  let w := run startNewDiagnosis st e in
  Forall (fun c => fst w c = initial c)
    [step; sessionId; candidates; recommendedTests; completedTests; totalCost;
     treatment; trustworthiness; report; similarCases; contraindications;
     contextualFactors]
  /\ Forall (fun c => fst w c = st c)
       [loading; error; sessionStatus; cnnPredictions; imageUrl; gradcamUrl; caseId]
  /\ store (snd w) = delete "diagnosisSessionId" (store e)
  /\ sent (snd w) = sent e
  /\ (forall t r o, submitTestResult t r o w = (w, Ok tt))
  /\ (forall o o' now,
        getFinalResult JSON_stringify js_gt Math_max o o' now w = (w, Ok tt)).
Proof.
  intros w.
  assert (fst w sessionId = Null) as Hsid by reflexivity.
  split; [repeat (apply List.Forall_cons; [reflexivity |]); apply List.Forall_nil |].
  split; [repeat (apply List.Forall_cons; [reflexivity |]); apply List.Forall_nil |].
  split; [reflexivity |]. split; [reflexivity |].
  destruct w as [st' e']. simpl in Hsid.
  apply handlers_need_session. rewrite Hsid. reflexivity.
Qed.

(** What a test-result submission leaves behind unless the backend
    accepts it. *)
Lemma submitTestResult_failure (st : State) (e : Env) (t r : string) (o : outcome) :
  truthy (st sessionId) = true ->
  (forall data, o = Resp true (Json data) -> nullish data = true) ->
  exists v,
    submitTestResult t r o (st, e)
    = ((upd loading (Bool false) (upd error v (upd loading (Bool true) st)),
        with_sent (PostTestResult (st sessionId) t r) e), Ok tt)
    /\ (forall msg, o = NetFail msg -> v = Str ("Server error: " ++ msg))
    /\ (forall d, o = Resp false (Json d) -> nullish d = false ->
          v = js_or (getOwn d "detail") (Str "Failed to submit test result")).
Proof.
  intros Hs Ho.
  unfold submitTestResult. unfold mbind, M_bind. unfold bind at 1, page. simpl.
  rewrite Hs. simpl.
  unfold finally, try_catch, fetch, send, settle, res_json, getProp, set, modify, modify_env,
    throw, ret, bind.
  destruct o as [msg | ok [msg | d]]; simpl.
  - eexists. split; [reflexivity |]. split; [intros m H; injection H as <-; reflexivity |].
    intros d H; discriminate.
  - eexists. split; [reflexivity |]. split; intros ? H; discriminate.
  - destruct ok.
    + rewrite (Ho d eq_refl). simpl.
      eexists. split; [reflexivity |]. split; intros ? H; discriminate.
    + destruct (nullish d) eqn:Hd; simpl.
      * eexists. split; [reflexivity |]. split; [intros ? H; discriminate |].
        intros d' H Hd'. injection H as <-. congruence.
      * eexists. split; [reflexivity |]. split; [intros ? H; discriminate |].
        intros d' H _. injection H as <-. reflexivity.
Qed.

(** X9.  A test-result submission that fails (the request is rejected,
    the backend answers with an error status, or the body is unusable)
    changes neither the candidates, the slate, the completed tests, the
    cost, the session nor the step, and leaves local storage alone.  The
    spinner is switched off again, and the error cell holds the backend's
    [detail] (or "Failed to submit test result"), respectively
    "Server error: ..." for a rejected request. *)
Theorem submit_failure_changes_nothing
    (st : State) (e : Env) (t r : string) (o : outcome) :
  truthy (st sessionId) = true ->
  (forall data, o = Resp true (Json data) -> nullish data = true) ->
  let w := run (submitTestResult t r o) st e in
  Forall (fun c => fst w c = st c)
    [candidates; recommendedTests; completedTests; totalCost; sessionStatus; sessionId; step]
  /\ fst w loading = Bool false
  /\ store (snd w) = store e
  /\ (forall msg, o = NetFail msg -> fst w error = Str ("Server error: " ++ msg))
  /\ (forall d, o = Resp false (Json d) -> nullish d = false ->
        fst w error = js_or (getOwn d "detail") (Str "Failed to submit test result")).
Proof.
  intros Hs Ho w. subst w. unfold run.
  destruct (submitTestResult_failure st e t r o Hs Ho) as (v & -> & Hnet & Hdet).
  simpl.
  split; [repeat (apply List.Forall_cons; [reflexivity |]); apply List.Forall_nil |].
  split; [reflexivity |]. split; [reflexivity |].
  split.
  - intros msg H. rewrite <- (Hnet msg H). reflexivity.
  - intros d H Hd. rewrite <- (Hdet d H Hd). reflexivity.
Qed.

Lemma getFinalResult_failure (st : State) (e : Env) (o o' : outcome) (now : string) :
  truthy (st sessionId) = true ->
  (forall data, o = Resp true (Json data) -> nullish data = true) ->
  getFinalResult JSON_stringify js_gt Math_max o o' now (st, e)
  = ((upd loading (Bool false)
        match o with
        | Resp false (Json _) => upd loading (Bool true) st
        | _ => upd error (Str "Failed to get results") (upd loading (Bool true) st)
        end,
      with_sent (GetResult (st sessionId) (include (st contraindications))) e), Ok tt).
Proof.
  intros Hs Ho.
  unfold getFinalResult. unfold mbind, M_bind. unfold bind at 1, page. simpl.
  rewrite Hs. simpl.
  unfold finally, try_catch, fetch, send, settle, res_json, set, modify, modify_env,
    throw, ret, mret, M_ret.
  unfold bind at 1. simpl. unfold bind at 1 2. simpl.
  destruct o as [msg | ok [msg | d]]; simpl.
  - reflexivity.
  - destruct ok; reflexivity.
  - destruct ok; [| reflexivity].
    unfold bind, getProp. rewrite (Ho d eq_refl). reflexivity.
Qed.

(** X10.  A final-result request that does not succeed leaves the flow
    where it is: treatment, trustworthiness, report, similar cases and step
    are unchanged, nothing is written to local storage (the session id
    stays, so the session can still be resumed), and the result request is
    the only request made.  A rejected request or an unusable body shows
    "Failed to get results"; an error status with a JSON body shows
    nothing. *)
Theorem final_result_failure_changes_nothing
    (st : State) (e : Env) (o o' : outcome) (now : string) :
  truthy (st sessionId) = true ->
  (forall data, o = Resp true (Json data) -> nullish data = true) ->
  let w := run (getFinalResult JSON_stringify js_gt Math_max o o' now) st e in
  Forall (fun c => fst w c = st c)
    [treatment; trustworthiness; report; similarCases; step; candidates; completedTests;
     sessionId]
  /\ fst w loading = Bool false
  /\ store (snd w) = store e
  /\ sent (snd w)
     = (sent e ++ [GetResult (st sessionId) (include (st contraindications))])%list
  /\ fst w error
     = match o with
       | Resp false (Json _) => st error
       | _ => Str "Failed to get results"
       end.
Proof.
  intros Hs Ho w. subst w. unfold run.
  rewrite (getFinalResult_failure st e o o' now Hs Ho). simpl.
  split.
  { destruct o as [msg | [|] [msg | d]];
      repeat (apply List.Forall_cons; [reflexivity |]); apply List.Forall_nil. }
  repeat split; try reflexivity.
  destruct o as [msg | [|] [msg | d]]; reflexivity.
Qed.

Lemma mapM_getProp_ok (k : string) (cs : list jsval) (w : State * Env) :
  Forall (fun c => nullish c = false) cs ->
  mapM (M := M State) (fun c => getProp c k) cs w
  = (w, Ok (map (fun c => getOwn c k) cs)).
Proof.
  induction 1 as [|c cs Hc _ IH]; [reflexivity |].
  change (mapM (M := M State) (fun c0 => getProp c0 k) (c :: cs))
    with (bind (P := State) (getProp c k)
            (fun y => bind (mapM (M := M State) (fun c0 => getProp c0 k) cs)
                        (fun l => ret (y :: l)))).
  unfold bind at 1. rewrite (getProp_ok c k w Hc).
  unfold bind. rewrite IH. reflexivity.
Qed.

Lemma getFinalResult_with_similar
    (st : State) (e : Env) (data sd : jsval) (ok' : bool) (now : string)
    (cs : list jsval) :
  truthy (st sessionId) = true ->
  nullish data = false ->
  nullish (st report) = true ->
  st candidates = Arr cs ->
  Forall (fun c => nullish c = false) (firstn 3 cs) ->
  nullish sd = false ->
  truthy (getOwn sd "similar_cases") = true ->
  truthy (st cnnPredictions) = false ->
  exists text,
    getFinalResult JSON_stringify js_gt Math_max (Resp true (Json data))
      (Resp ok' (Json sd)) now (st, e)
    = ((upd loading (Bool false)
          (upd step (Num 3)
             (upd similarCases (getOwn sd "similar_cases")
                (upd report (getOwn data "report")
                   (upd trustworthiness (getOwn data "trustworthiness")
                      (upd treatment (getOwn data "treatment")
                         (upd loading (Bool true) st)))))),
        with_store (delete "diagnosisSessionId")
          (with_store (insert "lastAnalysis" text)
             (with_sent (PostSimilar (Arr (map (fun c => getOwn c "name") (firstn 3 cs))) 3)
                (with_sent (GetResult (st sessionId) (include (st contraindications)))
                   e)))), Ok tt).
Proof.
  intros Hs Hd Hrep Hcs Hall Hsd Hsc Hcnn.
  unfold getFinalResult. unfold mbind, M_bind. unfold bind at 1, page. simpl.
  rewrite Hs. simpl.
  unfold finally, try_catch at 1, fetch at 1, send at 1, settle at 1, res_json at 1.
  unfold bind at 1. simpl. unfold bind at 1 2. simpl. unfold bind at 1. simpl.
  unfold bind at 1. rewrite (getProp_ok data _ _ Hd).
  unfold bind at 1. simpl.
  unfold bind at 1. rewrite (getProp_ok data _ _ Hd).
  unfold bind at 1. simpl.
  unfold bind at 1. rewrite (getProp_ok data _ _ Hd).
  unfold bind at 1. simpl.
  unfold bind at 1.
  unfold similarCasesBlock, try_catch at 1. unfold mbind, M_bind. unfold bind at 1.
  unfold symptomsForSearch at 1.
  assert (optProp (optProp (st report) "patient_summary") "symptoms" = Undefined) as ->.
  { unfold optProp at 2. rewrite Hrep. reflexivity. }
  simpl (truthy Undefined). cbv iota. rewrite Hcs.
  unfold mbind, M_bind. unfold bind at 1. rewrite (mapM_getProp_ok _ _ _ Hall).
  unfold mret, M_ret, ret at 1. cbv iota beta.
  unfold fetch, send, settle, res_json, modify_env. unfold bind at 1 2. simpl.
  unfold bind at 1. simpl. unfold bind at 1. rewrite (getProp_ok sd _ _ Hsd).
  rewrite Hsc. simpl. rewrite Hcnn. simpl.
  eexists. reflexivity.
Qed.

(** X11.  On a first final result (no report in the flow yet) the
    similar-case query is made of the names of the three leading
    candidates, as the flow held them; when the retrieval answers with
    cases these fill the similar-cases cell.  The flow moves to the results
    step, the session id leaves local storage, and the analysis is stored
    for the history page. *)
Theorem final_result_with_similar_cases
    (st : State) (e : Env) (data sd : jsval) (ok' : bool) (now : string)
    (cs : list jsval) :
  truthy (st sessionId) = true ->
  nullish data = false ->
  nullish (st report) = true ->
  st candidates = Arr cs ->
  Forall (fun c => nullish c = false) (firstn 3 cs) ->
  nullish sd = false ->
  truthy (getOwn sd "similar_cases") = true ->
  truthy (st cnnPredictions) = false ->
  let m := getFinalResult JSON_stringify js_gt Math_max (Resp true (Json data))
             (Resp ok' (Json sd)) now in
  let w := run m st e in
  sent (snd w)
  = (sent e ++ [GetResult (st sessionId) (include (st contraindications));
                PostSimilar (Arr (map (fun c => getOwn c "name") (firstn 3 cs))) 3])%list
  /\ fst w similarCases = getOwn sd "similar_cases"
  /\ fst w report = getOwn data "report"
  /\ fst w step = Num 3
  /\ store (snd w) !! "diagnosisSessionId" = None
  /\ is_Some (store (snd w) !! "lastAnalysis").
Proof.
  intros Hs Hd Hrep Hcs Hall Hsd Hsc Hcnn m w. subst w m. unfold run.
  destruct (getFinalResult_with_similar st e data sd ok' now cs Hs Hd Hrep Hcs Hall Hsd Hsc
              Hcnn) as [text ->].
  simpl. repeat split; try reflexivity.
  - rewrite <- app_assoc. reflexivity.
  - apply lookup_delete_eq.
  - rewrite lookup_delete_ne by discriminate. rewrite lookup_insert_eq. eexists; reflexivity.
Qed.

(** *** Starting, and mounting again *)

Lemma startDiagnosis_end_ok (st : State) (e : Env) (data : jsval) :
  nullish data = false ->
  startDiagnosis_end ToString (Resp true (Json data)) (st, e)
  = ((upd loading (Bool false)
        (upd contextualFactors (js_or (getOwn data "contextual_factors") Null)
           (upd recommendedTests (js_or (getOwn data "recommended_tests") (Arr []))
              (upd candidates (js_or (getOwn data "candidates") (Arr []))
                 (upd sessionId (getOwn data "session_id") st)))),
      with_store (insert "diagnosisSessionId" (ToString (getOwn data "session_id")))
        (with_store (delete "diagnosisCaseId")
           (with_store (delete "gradcamUrl")
              (with_store (delete "imageUrl")
                 (with_store (delete "cnnPredictions")
                    (with_store (delete "symptoms") e)))))), Ok tt).
Proof.
  intros Hd.
  unfold startDiagnosis_end, finally, try_catch, mbind, M_bind, bind, settle, res_json,
    getProp, set, modify, modify_env, setItem, removeItem, throw, ret.
  simpl. rewrite Hd. reflexivity.
Qed.

Lemma startDiagnosis_end_fails (o : outcome) (st : State) (e : Env) :
  fails o ->
  exists st', startDiagnosis_end ToString o (st, e) = ((st', e), Ok tt).
Proof.
  intros Ho.
  unfold startDiagnosis_end, finally, try_catch, mbind, M_bind, bind, settle, res_json,
    getProp, set, modify, modify_env, setItem, removeItem, throw, ret.
  destruct o as [msg | ok [msg | d]]; simpl; try (eexists; reflexivity).
  destruct ok.
  - rewrite (Ho d eq_refl). eexists; reflexivity.
  - destruct (nullish d); eexists; reflexivity.
Qed.

Lemma startDiagnosis_run (s : string) (cnn img gcam cs : jsval) (o : outcome)
    (st : State) (e : Env) :
  startDiagnosis ToString s cnn img gcam cs o (st, e)
  = startDiagnosis_end ToString o
      (upd error (Str "") (upd loading (Bool true) st),
       with_sent (PostStart (requestBody (store e) s cnn img gcam cs)) e).
Proof. reflexivity. Qed.

(** What the mount effect does before it looks for a session: it fills
    the imaging cells and leaves the environment alone. *)
Lemma useEffect_resumes (st : State) (e : Env) (sid : string) (o o' : outcome) :
  store e !! "diagnosisSessionId" = Some sid -> nonempty sid = true ->
  exists st',
    useEffect ToString JSON_parse o o' (st, e) = resumeSession ToString sid o o' (st', e).
Proof.
  intros Hsid Hne.
  unfold useEffect. unfold mbind, M_bind. unfold bind at 1 2 3 4, getItem. simpl.
  unfold if_item at 1, parse, try_catch.
  destruct (store e !! "cnnPredictions") as [c|]; [destruct (nonempty c) |];
    try destruct (JSON_parse c);
    unfold bind at 1; simpl;
    (unfold if_item at 1; destruct (store e !! "imageUrl") as [i|];
     [destruct (nonempty i) |]; unfold bind at 1; simpl);
    (unfold if_item at 1; destruct (store e !! "gradcamUrl") as [g|];
     [destruct (nonempty g) |]; unfold bind at 1; simpl);
    (unfold if_item at 1; destruct (store e !! "diagnosisCaseId") as [d|];
     [destruct (nonempty d) |]; unfold bind at 1; simpl);
    unfold bind at 1; simpl; rewrite Hsid; unfold if_item at 1; rewrite Hne;
    eexists; reflexivity.
Qed.

Lemma useEffect_starts (st : State) (e : Env) (s : string) (v : jsval) (o o' : outcome) :
  if_item (store e !! "diagnosisSessionId") (fun _ => true) false = false ->
  store e !! "symptoms" = Some s -> nonempty s = true ->
  cnnArgument JSON_parse (store e) = Ok v ->
  exists st',
    useEffect ToString JSON_parse o o' (st, e)
    = startDiagnosis ToString s v (of_item (store e !! "imageUrl"))
        (of_item (store e !! "gradcamUrl")) (of_item (store e !! "diagnosisCaseId")) o
        (st', e).
Proof.
  intros Hsid Hsym Hne Hcnn.
  unfold useEffect. unfold mbind, M_bind. unfold bind at 1 2 3 4, getItem. simpl.
  unfold cnnArgument in Hcnn.
  assert (forall w : State * Env,
            snd w = e ->
            bind (getItem "diagnosisSessionId")
              (fun savedSessionId =>
                 if_item savedSessionId (fun sid => resumeSession ToString sid o o')
                   (bind (getItem "symptoms")
                      (fun symptoms =>
                         if_item symptoms
                           (fun s0 =>
                              bind (getItem "cnnPredictions")
                                (fun savedCnn' =>
                                   bind (if_item savedCnn' (parse JSON_parse) (mret Null))
                                     (fun cnn =>
                                        startDiagnosis ToString s0 cnn
                                          (of_item (store e !! "imageUrl"))
                                          (of_item (store e !! "gradcamUrl"))
                                          (of_item (store e !! "diagnosisCaseId")) o)))
                           (mret tt)))) w
            = startDiagnosis ToString s v (of_item (store e !! "imageUrl"))
                (of_item (store e !! "gradcamUrl")) (of_item (store e !! "diagnosisCaseId")) o
                w) as Hrest.
  { intros [st0 e0] He0. simpl in He0. subst e0.
    unfold bind at 1, getItem. simpl.
    unfold if_item at 1. unfold if_item in Hsid.
    destruct (store e !! "diagnosisSessionId") as [x|];
      [destruct (nonempty x); [discriminate |] |];
      (unfold bind at 1; simpl; rewrite Hsym; unfold if_item at 1; rewrite Hne;
       unfold bind at 1; simpl; unfold bind at 1;
       unfold if_item, parse in *;
       destruct (store e !! "cnnPredictions") as [c|];
       [destruct (nonempty c); [rewrite Hcnn | injection Hcnn as <-] | injection Hcnn as <-];
       reflexivity). }
  unfold if_item at 1, parse, try_catch.
  destruct (store e !! "cnnPredictions") as [c|]; [destruct (nonempty c) |];
    try destruct (JSON_parse c);
    unfold bind at 1; simpl;
    (unfold if_item at 1; destruct (store e !! "imageUrl") as [i|];
     [destruct (nonempty i) |]; unfold bind at 1; simpl);
    (unfold if_item at 1; destruct (store e !! "gradcamUrl") as [g|];
     [destruct (nonempty g) |]; unfold bind at 1; simpl);
    (unfold if_item at 1; destruct (store e !! "diagnosisCaseId") as [d|];
     [destruct (nonempty d) |]; unfold bind at 1; simpl);
    eexists; apply Hrest; reflexivity.
Qed.

(** The requests of a resume: the status request, then at most the start
    request of a restart. *)
Lemma resumeSession_sent (st : State) (e : Env) (sid : string) (o o' : outcome) :
  sent (snd (run (resumeSession ToString sid o o') st e))
  = (sent e ++ GetStatus sid
       :: match o with
          | Resp false _ =>
              if_item (store e !! "symptoms")
                (fun s => [PostStart (requestBody (delete "diagnosisSessionId" (store e)) s
                                        Null Null Null Null)]) []
          | _ => []
          end)%list.
Proof.
  unfold run, resumeSession. unfold mbind, M_bind. unfold bind at 1.
  destruct o as [msg | ok [msg | d]].
  - reflexivity.
  - destruct ok; [reflexivity |].
    unfold resumeSession_own, startDiagnosis_begin, finally, try_catch, fetch, send, settle,
      set, modify, modify_env, removeItem, getItem, localStorage, mbind, M_bind, bind,
      mret, M_ret, ret.
    simpl. rewrite lookup_delete_ne by discriminate.
    unfold if_item. destruct (store e !! "symptoms") as [s|]; simpl; [| reflexivity].
    destruct (nonempty s); simpl; [| reflexivity].
    rewrite startDiagnosis_end_sent. simpl. rewrite <- app_assoc. reflexivity.
  - destruct ok.
    + unfold resumeSession_own, finally, try_catch, fetch, send, settle, res_json, getProp,
        set, modify, modify_env, removeItem, mbind, M_bind, bind, mret, M_ret, ret, throw.
      simpl. destruct (nullish d); reflexivity.
    + unfold resumeSession_own, startDiagnosis_begin, finally, try_catch, fetch, send, settle,
        set, modify, modify_env, removeItem, getItem, localStorage, mbind, M_bind, bind,
        mret, M_ret, ret.
      simpl. rewrite lookup_delete_ne by discriminate.
      unfold if_item. destruct (store e !! "symptoms") as [s|]; simpl; [| reflexivity].
      destruct (nonempty s); simpl; [| reflexivity].
      rewrite startDiagnosis_end_sent. simpl. rewrite <- app_assoc. reflexivity.
Qed.

(** X12.  A successful start makes the session resumable: the session id
    is stored, the symptoms and the imaging data are gone from storage, and
    a flow mounted afterwards makes exactly one request, the status request
    for that session, whatever the backend answers. *)
Theorem started_session_is_resumed
    (st : State) (e : Env) (text : string) (cnn img gcam cs data : jsval) :
  nullish data = false ->
  nonempty (ToString (getOwn data "session_id")) = true ->
  let sid := ToString (getOwn data "session_id") in
  let w := run (startDiagnosis ToString text cnn img gcam cs (Resp true (Json data))) st e in
  store (snd w) !! "diagnosisSessionId" = Some sid
  /\ store (snd w) !! "symptoms" = None
  /\ imaging_cleared (store (snd w))
  /\ forall st' o o',
       sent (snd (run (useEffect ToString JSON_parse o o') st' (snd w)))
       = (sent (snd w) ++ [GetStatus sid])%list.
Proof.
  intros Hd Hne sid w.
  assert (store (snd w)
          = <["diagnosisSessionId" := sid]>
              (delete "diagnosisCaseId" (delete "gradcamUrl" (delete "imageUrl"
                 (delete "cnnPredictions" (delete "symptoms" (store e))))))) as Hst.
  { subst w. unfold run. rewrite startDiagnosis_run, (startDiagnosis_end_ok _ _ _ Hd).
    reflexivity. }
  assert (store (snd w) !! "diagnosisSessionId" = Some sid) as Hsid.
  { rewrite Hst. apply lookup_insert_eq. }
  assert (store (snd w) !! "symptoms" = None) as Hsym.
  { rewrite Hst. simplify_map_eq. reflexivity. }
  split; [exact Hsid |]. split; [exact Hsym |].
  split; [rewrite Hst; repeat split; simplify_map_eq; reflexivity |].
  intros st' o o'.
  destruct (useEffect_resumes st' (snd w) sid o o' Hsid Hne) as [st2 Heq].
  unfold run at 1. rewrite Heq.
  pose proof (resumeSession_sent st2 (snd w) sid o o') as Hs. unfold run in Hs.
  rewrite Hs, Hsym. destruct o as [msg | [|] b]; reflexivity.
Qed.

(** X13.  A start that fails leaves local storage as it was (symptoms,
    context and imaging data stay, no session id appears), so mounting the
    flow again repeats the very same start request. *)
Theorem failed_start_is_retried
    (st : State) (e : Env) (s : string) (v : jsval) (o o' : outcome) :
  if_item (store e !! "diagnosisSessionId") (fun _ => true) false = false ->
  store e !! "symptoms" = Some s -> nonempty s = true ->
  cnnArgument JSON_parse (store e) = Ok v ->
  fails o ->
  let body := requestBody (store e) s v (of_item (store e !! "imageUrl"))
                (of_item (store e !! "gradcamUrl")) (of_item (store e !! "diagnosisCaseId")) in
  let w := run (useEffect ToString JSON_parse o o') st e in
  store (snd w) = store e
  /\ sent (snd w) = (sent e ++ [PostStart body])%list
  /\ forall st2 o2 o2',
       sent (snd (run (useEffect ToString JSON_parse o2 o2') st2 (snd w)))
       = (sent e ++ [PostStart body; PostStart body])%list.
Proof.
  intros Hsid Hsym Hne Hcnn Ho body w.
  destruct (useEffect_starts st e s v o o' Hsid Hsym Hne Hcnn) as [st1 Heq].
  assert (snd w = with_sent (PostStart body) e) as Hw.
  { subst w. unfold run. rewrite Heq, startDiagnosis_run.
    edestruct (startDiagnosis_end_fails o) as [st' Hf]; [exact Ho |].
    rewrite Hf. reflexivity. }
  rewrite Hw. split; [reflexivity |]. split; [reflexivity |].
  intros st2 o2 o2'.
  destruct (useEffect_starts st2 (with_sent (PostStart body) e) s v o2 o2' Hsid Hsym Hne Hcnn)
    as [st3 Heq2].
  unfold run. rewrite Heq2, startDiagnosis_run, startDiagnosis_end_sent.
  simpl. rewrite <- app_assoc. reflexivity.
Qed.

End MoreFlow.

Lemma submit_failure_changes_nothing_witness :
  let w := run (submitTestResult "crp" "positive"
                  (Resp false (Json (Obj [("detail", Str "Unknown test")]))))
             testing_state session_env in
  fst w completedTests = Obj [("cbc", Str "negative")]
  /\ fst w error = Str "Unknown test".
Proof.
  pose proof (submit_failure_changes_nothing testing_state session_env "crp" "positive"
                (Resp false (Json (Obj [("detail", Str "Unknown test")]))) eq_refl
                ltac:(intros data H; discriminate)) as H.
  split.
  - exact (Forall_inv (Forall_inv_tail (Forall_inv_tail (proj1 H)))).
  - exact (proj2 (proj2 (proj2 (proj2 H))) _ eq_refl eq_refl).
Defined.

(** ** UploadScansPage: what an upload leaves in storage *)

Section MoreUpload.

Variable ToString : jsval -> string.
Variable JSON_stringify : jsval -> string.
Variable JSON_parse : string -> result jsval.

#[local] Abbreviation handleUpload := (UploadScansPage.handleUpload ToString JSON_stringify).
#[local] Abbreviation handleSkipScan := (UploadScansPage.handleSkipScan ToString JSON_stringify).

Lemma handleUpload_fails (st : UploadScansPage.State) (e : Env) (o : outcome) :
  fails o ->
  exists st' e',
    handleUpload o (st, e) = ((st', e'), Ok tt)
    /\ store e' = store e /\ routes e' = routes e
    /\ UploadScansPage.file st' = UploadScansPage.file st
    /\ (sent e' <> sent e -> UploadScansPage.loading st' = false).
Proof.
  intros Ho.
  unfold UploadScansPage.handleUpload. unfold mbind, M_bind. unfold bind at 1 2, page, getItem.
  simpl. destruct (negb (present (UploadScansPage.file st)) && _).
  { do 2 eexists. split; [reflexivity |]. repeat split. intros H. contradiction. }
  unfold finally, try_catch, fetch, send, settle, res_json, UploadScansPage.errorStatus,
    UploadScansPage.setLoading, UploadScansPage.setStatus, modify, modify_env,
    setItem, navigate, getProp, when, mret, M_ret, ret, throw, bind.
  destruct o as [msg | ok [msg | d]]; simpl;
    try (do 2 eexists; split; [reflexivity |]; repeat split).
  destruct ok.
  - rewrite (Ho d eq_refl). simpl. do 2 eexists; split; [reflexivity |]; repeat split.
  - destruct (nullish d); simpl; do 2 eexists; (split; [reflexivity |]); repeat split.
Qed.

Lemma handleSkipScan_fails (st : UploadScansPage.State) (e : Env) (o : outcome) :
  fails o ->
  exists st' e',
    handleSkipScan o (st, e) = ((st', e'), Ok tt)
    /\ store e' = store e /\ routes e' = routes e
    /\ UploadScansPage.file st' = UploadScansPage.file st
    /\ (sent e' <> sent e -> UploadScansPage.loading st' = false).
Proof.
  intros Ho.
  unfold UploadScansPage.handleSkipScan. unfold mbind, M_bind. unfold bind at 1, getItem.
  simpl. unfold if_item.
  destruct (store e !! "symptoms") as [s|]; [destruct (nonempty s) |];
    try (do 2 eexists; split; [reflexivity |]; repeat split; intros H; contradiction).
  unfold finally, try_catch, fetch, send, settle, res_json, UploadScansPage.errorStatus,
    UploadScansPage.setLoading, UploadScansPage.setStatus, modify, modify_env,
    setItem, removeItem, navigate, getProp, when, mret, M_ret, ret, throw, bind.
  destruct o as [msg | ok [msg | d]]; simpl;
    try (do 2 eexists; split; [reflexivity |]; repeat split).
  destruct ok.
  - rewrite (Ho d eq_refl). simpl. do 2 eexists; split; [reflexivity |]; repeat split.
  - destruct (nullish d); simpl; do 2 eexists; (split; [reflexivity |]); repeat split.
Qed.

(** X14.  A submission that fails (rejected request, error status,
    unusable body) writes nothing to local storage and does not navigate,
    with "Upload & Analyze" as with "Skip Scan"; the selected file is kept,
    and once a request has gone out the button is enabled again. *)
Theorem failed_submission_writes_nothing
    (st : UploadScansPage.State) (e : Env) (o : outcome) :
  fails o ->
  let w := run (handleUpload o) st e in
  let w' := run (handleSkipScan o) st e in
  (store (snd w) = store e /\ routes (snd w) = routes e
   /\ UploadScansPage.file (fst w) = UploadScansPage.file st
   /\ (sent (snd w) <> sent e -> UploadScansPage.loading (fst w) = false))
  /\ (store (snd w') = store e /\ routes (snd w') = routes e
      /\ UploadScansPage.file (fst w') = UploadScansPage.file st
      /\ (sent (snd w') <> sent e -> UploadScansPage.loading (fst w') = false)).
Proof.
  intros Ho w w'. subst w w'. unfold run. split.
  - destruct (handleUpload_fails st e o Ho) as (st' & e' & -> & H). exact H.
  - destruct (handleSkipScan_fails st e o Ho) as (st' & e' & -> & H). exact H.
Qed.

(** Whatever the outcome, an upload writes no key but its own six. *)
Lemma handleUpload_frame (st : UploadScansPage.State) (e : Env) (o : outcome) (k : string) :
  ~ In k uploadKeys ->
  store (snd (run (handleUpload o) st e)) !! k = store e !! k.
Proof.
  intros Hk.
  assert (k <> "lastCaseId" /\ k <> "lastAnalysis" /\ k <> "cnnPredictions"
          /\ k <> "imageUrl" /\ k <> "gradcamUrl" /\ k <> "diagnosisCaseId")
    as (K1 & K2 & K3 & K4 & K5 & K6).
  { repeat split; intros ->; apply Hk; simpl; tauto. }
  unfold run, UploadScansPage.handleUpload. unfold mbind, M_bind.
  unfold bind at 1 2, page, getItem.
  simpl. destruct (negb (present (UploadScansPage.file st)) && _); [reflexivity |].
  unfold finally, try_catch, fetch, send, settle, res_json, UploadScansPage.errorStatus,
    UploadScansPage.setLoading, UploadScansPage.setStatus, modify, modify_env,
    setItem, navigate, getProp, when, mret, M_ret, ret, throw, bind.
  destruct o as [msg | ok [msg | d]]; simpl; try reflexivity.
  destruct ok, (nullish d); simpl; try reflexivity.
  destruct (truthy (getOwn d "predictions")
            && negb (Nat.eqb (length (Object_keys (getOwn d "predictions"))) 0)),
    (truthy (getOwn d "image_url")), (truthy (getOwn d "gradcam_url")),
    (truthy (getOwn d "case_id")); simpl;
    rewrite ?lookup_insert_ne by congruence; reflexivity.
Qed.

(** X15.  An upload never touches the stored session id.  With an id in
    storage from an earlier diagnosis, the flow mounted after the upload
    therefore asks for that session's status before anything else, whatever
    the upload returned. *)
Theorem upload_keeps_session
    (st : UploadScansPage.State) (e : Env) (o : outcome) (sid : string) :
  store e !! "diagnosisSessionId" = Some sid ->
  nonempty sid = true ->
  let e1 := snd (run (handleUpload o) st e) in
  store e1 !! "diagnosisSessionId" = Some sid
  /\ forall fs o1 o2, exists rest,
       sent (snd (run (useEffect ToString JSON_parse o1 o2) fs e1))
       = (sent e1 ++ GetStatus sid :: rest)%list.
Proof.
  intros Hsid Hne e1.
  assert (store e1 !! "diagnosisSessionId" = Some sid) as H1.
  { subst e1. rewrite handleUpload_frame; [exact Hsid |].
    simpl. intros H. repeat (destruct H as [H | H]; [discriminate |]). exact H. }
  split; [exact H1 |].
  intros fs o1 o2.
  destruct (useEffect_resumes ToString JSON_parse fs e1 sid o1 o2 H1 Hne) as [st2 Heq].
  unfold run. rewrite Heq.
  pose proof (resumeSession_sent ToString st2 e1 sid o1 o2) as Hs. unfold run in Hs.
  rewrite Hs. eexists. reflexivity.
Qed.

(** X16.  What an upload with an image brings back reaches the start
    request through local storage: with no session id stored, the flow
    mounted after the upload sends one start request, built from the stored
    symptoms, whose image, heat-map and case references are the texts of
    the returned ones and whose predictions are the stored predictions read
    back. *)
Theorem upload_reaches_start_request
    (st : UploadScansPage.State) (e : Env) (data v : jsval) (s : string) :
  if_item (store e !! "diagnosisSessionId") (fun _ => true) false = false ->
  store e !! "symptoms" = Some s -> nonempty s = true ->
  nullish data = false ->
  truthy (getOwn data "predictions") = true ->
  Object_keys (getOwn data "predictions") <> [] ->
  nonempty (JSON_stringify (getOwn data "predictions")) = true ->
  JSON_parse (JSON_stringify (getOwn data "predictions")) = Ok v ->
  Forall (fun k => truthy (getOwn data k) = true /\ nonempty (ToString (getOwn data k)) = true)
    ["image_url"; "gradcam_url"; "case_id"] ->
  let e1 := snd (run (handleUpload (Resp true (Json data))) st e) in
  forall fs o o', exists body,
    sent (snd (run (useEffect ToString JSON_parse o o') fs e1))
    = (sent e1 ++ [PostStart body])%list
    /\ symptoms body = extractSymptoms s
    /\ cnn_predictions body = include v
    /\ image_url body = Some (Str (ToString (getOwn data "image_url")))
    /\ gradcam_url body = Some (Str (ToString (getOwn data "gradcam_url")))
    /\ case_id body = Some (Str (ToString (getOwn data "case_id"))).
Proof.
  intros Hsid Hsym Hne Hd Hp Hk Hj Hparse Hrefs e1 fs o o'.
  inversion Hrefs as [|? ? [Hi1 Hi2] Hrefs1]; subst.
  inversion Hrefs1 as [|? ? [Hg1 Hg2] Hrefs2]; subst.
  inversion Hrefs2 as [|? ? [Hc1 Hc2] _]; subst.
  assert (store e1
          = <["diagnosisCaseId" := ToString (getOwn data "case_id")]>
              (<["gradcamUrl" := ToString (getOwn data "gradcam_url")]>
                 (<["imageUrl" := ToString (getOwn data "image_url")]>
                    (<["cnnPredictions" := JSON_stringify (getOwn data "predictions")]>
                       (<["lastAnalysis" := JSON_stringify data]>
                          (<["lastCaseId" := ToString (getOwn data "case_id")]>
                             (store e))))))) as Hst.
  { subst e1. unfold run, UploadScansPage.handleUpload. unfold mbind, M_bind.
    unfold bind at 1 2, page, getItem. simpl. rewrite Hsym. simpl. rewrite Hne.
    rewrite andb_false_r.
    unfold finally, try_catch, fetch, send, settle, res_json, UploadScansPage.errorStatus,
      UploadScansPage.setLoading, UploadScansPage.setStatus, modify, modify_env,
      setItem, navigate, getProp, when, mret, M_ret, ret, throw, bind.
    simpl. rewrite Hd. simpl. rewrite Hp, Hi1, Hg1, Hc1.
    destruct (Object_keys (getOwn data "predictions")); [contradiction | reflexivity]. }
  assert (if_item (store e1 !! "diagnosisSessionId") (fun _ => true) false = false) as H1.
  { rewrite Hst. rewrite !lookup_insert_ne by discriminate. exact Hsid. }
  assert (store e1 !! "symptoms" = Some s) as H2.
  { rewrite Hst. rewrite !lookup_insert_ne by discriminate. exact Hsym. }
  assert (cnnArgument JSON_parse (store e1) = Ok v) as H3.
  { unfold cnnArgument. rewrite Hst. rewrite !lookup_insert_ne by discriminate.
    rewrite lookup_insert_eq. unfold if_item. rewrite Hj. exact Hparse. }
  destruct (useEffect_starts ToString JSON_parse fs e1 s v o o' H1 H2 Hne H3) as [st1 Heq].
  eexists. split.
  { unfold run at 1. rewrite Heq, startDiagnosis_run, startDiagnosis_end_sent. reflexivity. }
  unfold requestBody. simpl. rewrite Hst.
  rewrite lookup_insert_eq.
  rewrite (lookup_insert_ne _ "diagnosisCaseId" "gradcamUrl") by discriminate.
  rewrite lookup_insert_eq.
  rewrite (lookup_insert_ne _ "diagnosisCaseId" "imageUrl") by discriminate.
  rewrite (lookup_insert_ne _ "gradcamUrl" "imageUrl") by discriminate.
  rewrite lookup_insert_eq.
  unfold include. simpl. rewrite Hi2, Hg2, Hc2. repeat split; reflexivity.
Qed.

End MoreUpload.

(** ** The further theorems at sample inputs *)

Lemma final_result_failure_changes_nothing_witness :
  let w := run (getFinalResult sample_stringify sample_gt sample_max
                  (NetFail "offline") (NetFail "offline") "now")
             testing_state session_env in
  store (snd w) = store session_env /\ fst w error = Str "Failed to get results".
Proof.
  pose proof (final_result_failure_changes_nothing sample_stringify sample_gt sample_max
                testing_state session_env (NetFail "offline") (NetFail "offline") "now"
                eq_refl ltac:(intros data H; discriminate)) as H.
  split.
  - exact (proj1 (proj2 (proj2 H))).
  - exact (proj2 (proj2 (proj2 (proj2 H)))).
Defined.

Lemma final_result_with_similar_cases_witness :
  let w := run (getFinalResult sample_stringify sample_gt sample_max
                  (Resp true (Json sample_result)) (Resp true (Json sample_similar)) "now")
             candidate_state session_env in
  fst w similarCases = Arr [Obj [("case_id", Str "case-3")]]
  /\ store (snd w) !! "diagnosisSessionId" = None.
Proof.
  pose proof (final_result_with_similar_cases sample_stringify sample_gt sample_max
                candidate_state session_env sample_result sample_similar true "now"
                [Obj [("name", Str "Influenza")]]
                eq_refl eq_refl eq_refl eq_refl
                ltac:(apply List.Forall_cons; [reflexivity | apply List.Forall_nil])
                eq_refl eq_refl eq_refl) as H.
  split.
  - exact (proj1 (proj2 H)).
  - exact (proj1 (proj2 (proj2 (proj2 (proj2 H))))).
Defined.

Lemma started_session_is_resumed_witness :
  let w := run (startDiagnosis sample_ToString "fever" Null Null Null Null
                  (Resp true (Json (Obj [("session_id", Str "s-9")]))))
             initial fresh_env in
  store (snd w) !! "diagnosisSessionId" = Some "s-9"
  /\ store (snd w) !! "symptoms" = None.
Proof.
  pose proof (started_session_is_resumed sample_ToString sample_parse initial fresh_env "fever"
                Null Null Null Null (Obj [("session_id", Str "s-9")]) eq_refl eq_refl) as H.
  split.
  - exact (proj1 H).
  - exact (proj1 (proj2 H)).
Defined.

Lemma failed_start_is_retried_witness :
  let w := run (useEffect sample_ToString sample_parse (NetFail "offline") (NetFail "offline"))
             initial fresh_env in
  store (snd w) = store fresh_env /\ length (sent (snd w)) = 1.
Proof.
  pose proof (failed_start_is_retried sample_ToString sample_parse initial fresh_env "fever"
                Null (NetFail "offline") (NetFail "offline") eq_refl eq_refl eq_refl eq_refl
                ltac:(intros data H; discriminate)) as H.
  split.
  - exact (proj1 H).
  - exact (f_equal (@length Request) (proj1 (proj2 H))).
Defined.

Lemma failed_submission_writes_nothing_witness :
  store (snd (run (UploadScansPage.handleUpload sample_ToString sample_stringify
                     (Resp false (Json (Obj [("error", Str "No model")]))))
                upload_form fresh_env))
  = store fresh_env.
Proof.
  exact (proj1 (proj1 (failed_submission_writes_nothing sample_ToString sample_stringify
                         upload_form fresh_env
                         (Resp false (Json (Obj [("error", Str "No model")])))
                         ltac:(intros data H; discriminate)))).
Defined.

Lemma upload_keeps_session_witness :
  store (snd (run (UploadScansPage.handleUpload sample_ToString sample_stringify
                     (Resp true (Json sample_upload)))
                upload_form stale_env)) !! "diagnosisSessionId"
  = Some "s-1".
Proof.
  exact (proj1 (upload_keeps_session sample_ToString sample_stringify sample_parse
                  upload_form stale_env (Resp true (Json sample_upload)) "s-1"
                  eq_refl eq_refl)).
Defined.

Lemma upload_reaches_start_request_witness :
  let e1 := snd (run (UploadScansPage.handleUpload sample_ToString sample_stringify
                        (Resp true (Json sample_upload)))
                   upload_form fresh_env) in
  exists body,
    sent (snd (run (useEffect sample_ToString sample_parse_ok (NetFail "offline")
                      (NetFail "offline")) initial e1))
    = (sent e1 ++ [PostStart body])%list
    /\ cnn_predictions body = Some (Obj [("Pneumonia", Num 0.8)])
    /\ image_url body = Some (Str "/uploads/scan.png").
Proof.
  destruct (upload_reaches_start_request sample_ToString sample_stringify sample_parse_ok
              upload_form fresh_env sample_upload (Obj [("Pneumonia", Num 0.8)]) "fever"
              eq_refl eq_refl eq_refl eq_refl eq_refl
              ltac:(discriminate) eq_refl eq_refl
              ltac:(repeat (apply List.Forall_cons; [split; reflexivity |]);
                    apply List.Forall_nil)
              initial (NetFail "offline") (NetFail "offline"))
    as (body & Hs & _ & Hc & Hi & _).
  exists body. split; [exact Hs |]. split; [exact Hc | exact Hi].
Defined.

(** ** Case review: saving a review *)

Section Review.

Variable ToString : jsval -> string.
Variable same_object : jsval -> jsval -> bool.

Lemma replaceCase_reviewedCases {P : Type} (cases selected updated : jsval) (w : P * Env) :
  Component.replaceCase same_object cases selected updated w
  = (w, reviewedCases same_object cases selected updated).
Proof.
  unfold Component.replaceCase, reviewedCases.
  destruct cases as [| | b | n | s | cs | fs]; try reflexivity.
  unfold mbind, M_bind. unfold bind at 1.
  set (f := fun c : jsval => bind (P := P) (getProp c "id") _).
  assert (forall w0, mapM (M := M P) f cs w0 = (w0, replaced same_object selected updated cs))
    as ->.
  { induction cs as [|c t IH]; intros w0; [reflexivity |].
    change (mapM (M := M P) f (c :: t))
      with (bind (P := P) (f c)
              (fun y => bind (mapM (M := M P) f t) (fun l => ret (y :: l)))).
    unfold bind at 1. unfold f at 1. unfold bind at 1, getProp. simpl.
    destruct (nullish c); [reflexivity |].
    unfold ret at 1, mret, M_ret, ret at 1. unfold bind. rewrite IH.
    destruct (replaced same_object selected updated t); reflexivity. }
  destruct (replaced same_object selected updated cs); reflexivity.
Qed.

Lemma history_save_run (st : PatientHistoryPage.State) (e : Env) (o : outcome) :
  truthy (Component.cells st PatientHistoryPage.selectedCase) = true ->
  let selected := Component.cells st PatientHistoryPage.selectedCase in
  let status := Component.cells st PatientHistoryPage.reviewStatus in
  let notes := Component.cells st PatientHistoryPage.reviewNotes in
  let updated := Component.updatedCase selected status notes in
  let st1 := Component.called
               (PatientHistoryPage.PostReview (getOwn selected "id") status notes)
               (Component.upd PatientHistoryPage.savingReview (Bool true) st) in
  let failed a :=
    ((Component.upd PatientHistoryPage.savingReview (Bool false) st1, with_alert a e),
     Ok tt) in
  PatientHistoryPage.handleSaveReview same_object o (st, e)
  = match o with
    | NetFail _ => failed "Error saving review"
    | Resp false _ => failed "Failed to save review"
    | Resp true _ =>
        match reviewedCases same_object (Component.cells st PatientHistoryPage.cases)
                selected updated with
        | Ok v =>
            ((Component.upd PatientHistoryPage.savingReview (Bool false)
                (Component.upd PatientHistoryPage.selectedCase updated
                   (Component.upd PatientHistoryPage.cases v st1)), e), Ok tt)
        | Throw _ => failed "Error saving review"
        end
    end.
Proof.
  intros Hs selected status notes updated st1 failed.
  unfold PatientHistoryPage.handleSaveReview. unfold mbind, M_bind. unfold bind at 1, page.
  simpl. rewrite Hs. simpl.
  unfold PatientHistoryPage.set, Component.setCell, Component.request, Component.call,
    finally, try_catch, settle, alert, modify, modify_env, throw, ret, mret, M_ret.
  unfold bind at 1. simpl. unfold bind at 1 2. simpl.
  destruct o as [msg | [|] b]; simpl; try reflexivity.
  unfold bind at 1. rewrite replaceCase_reviewedCases.
  fold selected status notes updated.
  destruct (reviewedCases same_object _ selected updated); reflexivity.
Qed.

Lemma doctor_save_run (st : DoctorCaseReview.State) (e : Env) (o : outcome)
    (statusText : string) :
  truthy (Component.cells st DoctorCaseReview.selectedCase) = true ->
  let selected := Component.cells st DoctorCaseReview.selectedCase in
  let status := Component.cells st DoctorCaseReview.reviewStatus in
  let notes := Component.cells st DoctorCaseReview.reviewNotes in
  let updated := Component.updatedCase selected status notes in
  let st1 := Component.called
               (DoctorCaseReview.PostReview (getOwn selected "id") status notes)
               (Component.upd DoctorCaseReview.savingReview (Bool true) st) in
  let failed a :=
    ((Component.upd DoctorCaseReview.savingReview (Bool false) st1, with_alert a e),
     Ok tt) in
  DoctorCaseReview.handleSaveReview ToString same_object o statusText (st, e)
  = match o with
    | NetFail msg => failed ("Error saving review: " ++ msg)
    | Resp false (BadJson msg) => failed ("Error saving review: " ++ msg)
    | Resp false (Json d) =>
        if nullish d then failed ("Error saving review: " ++ type_error d "detail")
        else failed ("Failed to save review: "
                       ++ ToString (js_or (getOwn d "detail") (Str statusText)))
    | Resp true _ =>
        match reviewedCases same_object (Component.cells st DoctorCaseReview.cases)
                selected updated with
        | Ok v =>
            ((Component.upd DoctorCaseReview.savingReview (Bool false)
                (Component.upd DoctorCaseReview.selectedCase updated
                   (Component.upd DoctorCaseReview.cases v st1)),
              with_alert "Review saved successfully!" e), Ok tt)
        | Throw msg => failed ("Error saving review: " ++ msg)
        end
    end.
Proof.
  intros Hs selected status notes updated st1 failed.
  unfold DoctorCaseReview.handleSaveReview. unfold mbind, M_bind. unfold bind at 1, page.
  simpl. rewrite Hs. simpl.
  unfold DoctorCaseReview.set, Component.setCell, Component.request, Component.call,
    finally, try_catch, settle, res_json, alert, modify, modify_env, throw, ret, mret, M_ret.
  unfold bind at 1. simpl. unfold bind at 1 2. simpl.
  destruct o as [msg | [|] b]; simpl; try reflexivity.
  - unfold bind at 1. rewrite replaceCase_reviewedCases.
    fold selected status notes updated.
    destruct (reviewedCases same_object _ selected updated); reflexivity.
  - destruct b as [msg | d]; simpl; [reflexivity |].
    unfold bind, getProp. destruct (nullish d); reflexivity.
Qed.

Lemma history_save_none (st : PatientHistoryPage.State) (e : Env) (o : outcome) :
  truthy (Component.cells st PatientHistoryPage.selectedCase) = false ->
  PatientHistoryPage.handleSaveReview same_object o (st, e) = ((st, e), Ok tt).
Proof.
  intros Hs. unfold PatientHistoryPage.handleSaveReview. unfold mbind, M_bind.
  unfold bind at 1, page. simpl. rewrite Hs. reflexivity.
Qed.

Lemma doctor_save_none (st : DoctorCaseReview.State) (e : Env) (o : outcome)
    (statusText : string) :
  truthy (Component.cells st DoctorCaseReview.selectedCase) = false ->
  DoctorCaseReview.handleSaveReview ToString same_object o statusText (st, e)
  = ((st, e), Ok tt).
Proof.
  intros Hs. unfold DoctorCaseReview.handleSaveReview. unfold mbind, M_bind.
  unfold bind at 1, page. simpl. rewrite Hs. reflexivity.
Qed.

Lemma replaced_ok (selected updated : jsval) (cs : list jsval) :
  Forall (fun c => nullish c = false) cs ->
  replaced same_object selected updated cs
  = Ok (map (fun c => if Component.strict_eq same_object (getOwn c "id") (getOwn selected "id")
                      then updated else c) cs).
Proof.
  induction 1 as [|c t Hc _ IH]; [reflexivity |].
  simpl. rewrite Hc, IH. reflexivity.
Qed.

Lemma getOwn_updatedCase (selected status notes : jsval) (k : string) :
  getOwn (Component.updatedCase selected status notes) k
  = if String.eqb k "status" then Str "reviewed"
    else if String.eqb k "doctor_notes" then notes
    else if String.eqb k "verification_status" then status
    else getOwn selected k.
Proof.
  unfold getOwn, Component.updatedCase. simpl (ownEntries (Obj _)).
  destruct (String.eqb_spec k "status") as [-> | H1]; [rewrite assoc_obj_set_eq; reflexivity |].
  rewrite assoc_obj_set_ne by exact H1.
  destruct (String.eqb_spec k "doctor_notes") as [-> | H2];
    [rewrite assoc_obj_set_eq; reflexivity |].
  rewrite assoc_obj_set_ne by exact H2.
  destruct (String.eqb_spec k "verification_status") as [-> | H3];
    [rewrite assoc_obj_set_eq; reflexivity |].
  rewrite assoc_obj_set_ne by exact H3. reflexivity.
Qed.

(** X17.  A review that the backend accepts is shown at once on the
    history page: in the case list every entry whose [id] is the selected
    case's is replaced by the updated case and every other entry is the one
    it was, at its place; the updated case becomes the selected one.  The
    updated case carries the status and the notes of the form and the
    status "reviewed"; all its other properties are the selected case's.
    The one call made is the review of that case, with the status and notes
    of the form. *)
Theorem review_saved_in_list
    (st : PatientHistoryPage.State) (e : Env) (b : body) (cs : list jsval) :
  truthy (Component.cells st PatientHistoryPage.selectedCase) = true ->
  Component.cells st PatientHistoryPage.cases = Arr cs ->
  Forall (fun c => nullish c = false) cs ->
  let selected := Component.cells st PatientHistoryPage.selectedCase in
  let status := Component.cells st PatientHistoryPage.reviewStatus in
  let notes := Component.cells st PatientHistoryPage.reviewNotes in
  let updated := Component.updatedCase selected status notes in
  let w := run (PatientHistoryPage.handleSaveReview same_object (Resp true b)) st e in
  Component.cells (fst w) PatientHistoryPage.cases
  = Arr (map (fun c => if Component.strict_eq same_object (getOwn c "id") (getOwn selected "id")
                       then updated else c) cs)
  /\ Component.cells (fst w) PatientHistoryPage.selectedCase = updated
  /\ getOwn updated "verification_status" = status
  /\ getOwn updated "doctor_notes" = notes
  /\ getOwn updated "status" = Str "reviewed"
  /\ (forall k, ~ In k ["verification_status"; "doctor_notes"; "status"] ->
        getOwn updated k = getOwn selected k)
  /\ Component.calls (fst w)
     = (Component.calls st
          ++ [PatientHistoryPage.PostReview (getOwn selected "id") status notes])%list
  /\ snd w = e.
Proof.
  intros Hs Hcs Hall selected status notes updated w.
  pose proof (history_save_run st e (Resp true b) Hs) as Hrun. cbv zeta in Hrun.
  subst w. unfold run. rewrite Hrun. clear Hrun.
  unfold reviewedCases. rewrite Hcs, (replaced_ok _ _ _ Hall).
  fold selected status notes updated.
  split; [reflexivity |]. split; [reflexivity |].
  split; [subst updated; rewrite getOwn_updatedCase; reflexivity |].
  split; [subst updated; rewrite getOwn_updatedCase; reflexivity |].
  split; [subst updated; rewrite getOwn_updatedCase; reflexivity |].
  split; [| split; reflexivity].
  intros k Hk. subst updated. rewrite getOwn_updatedCase.
  destruct (String.eqb_spec k "status") as [-> | _];
    [exfalso; apply Hk; right; right; left; reflexivity |].
  destruct (String.eqb_spec k "doctor_notes") as [-> | _];
    [exfalso; apply Hk; right; left; reflexivity |].
  destruct (String.eqb_spec k "verification_status") as [-> | _];
    [exfalso; apply Hk; left; reflexivity |].
  reflexivity.
Qed.

(** X18.  Saving a review on the history page is all or nothing for the
    page: whatever the backend does, the handler throws nothing, switches
    the saving flag off again, has made the one review call and leaves
    local storage alone; and either the selected case and the case list
    have both taken the update and nothing is alerted (only after a success
    response), or both are what they were and exactly one alert is
    raised. *)
Theorem review_all_or_nothing (st : PatientHistoryPage.State) (e : Env) (o : outcome) :
  truthy (Component.cells st PatientHistoryPage.selectedCase) = true ->
  let selected := Component.cells st PatientHistoryPage.selectedCase in
  let status := Component.cells st PatientHistoryPage.reviewStatus in
  let notes := Component.cells st PatientHistoryPage.reviewNotes in
  let updated := Component.updatedCase selected status notes in
  let w := run (PatientHistoryPage.handleSaveReview same_object o) st e in
  outcome_of (PatientHistoryPage.handleSaveReview same_object o) st e = Ok tt
  /\ Component.cells (fst w) PatientHistoryPage.savingReview = Bool false
  /\ Component.calls (fst w)
     = (Component.calls st
          ++ [PatientHistoryPage.PostReview (getOwn selected "id") status notes])%list
  /\ store (snd w) = store e
  /\ ((Component.cells (fst w) PatientHistoryPage.selectedCase = updated
       /\ reviewedCases same_object (Component.cells st PatientHistoryPage.cases)
            selected updated
          = Ok (Component.cells (fst w) PatientHistoryPage.cases)
       /\ alerts (snd w) = alerts e
       /\ exists b, o = Resp true b)
      \/ (Component.cells (fst w) PatientHistoryPage.selectedCase = selected
          /\ Component.cells (fst w) PatientHistoryPage.cases
             = Component.cells st PatientHistoryPage.cases
          /\ exists a, alerts (snd w) = (alerts e ++ [a])%list)).
Proof.
  intros Hs selected status notes updated w.
  pose proof (history_save_run st e o Hs) as Hrun. cbv zeta in Hrun.
  subst w. unfold run, outcome_of. rewrite Hrun. clear Hrun.
  fold selected status notes updated.
  destruct o as [msg | [|] b].
  - repeat split. right. repeat split. eexists; reflexivity.
  - destruct (reviewedCases same_object _ selected updated) as [v | msg] eqn:Hr.
    + repeat split. left. repeat split. eexists; reflexivity.
    + repeat split. right. repeat split. eexists; reflexivity.
  - repeat split. right. repeat split. eexists; reflexivity.
Qed.

(** X19.  The doctor's page and the history page save a review in the
    same way: from pages that agree on the cells they share, the two
    handlers end, for every outcome of the request, in pages that agree
    again. *)
Theorem review_handlers_agree
    (dst : DoctorCaseReview.State) (hst : PatientHistoryPage.State) (e e' : Env)
    (o : outcome) (statusText : string) :
  (forall c, Component.cells dst c = Component.cells hst (shared c)) ->
  let d := run (DoctorCaseReview.handleSaveReview ToString same_object o statusText) dst e in
  let h := run (PatientHistoryPage.handleSaveReview same_object o) hst e' in
  forall c, Component.cells (fst d) c = Component.cells (fst h) (shared c).
Proof.
  intros Hag d h c.
  destruct (truthy (Component.cells dst DoctorCaseReview.selectedCase)) eqn:Hs.
  - assert (truthy (Component.cells hst PatientHistoryPage.selectedCase) = true) as Hs'.
    { rewrite <- Hs. rewrite (Hag DoctorCaseReview.selectedCase). reflexivity. }
    pose proof (doctor_save_run dst e o statusText Hs) as Hd. cbv zeta in Hd.
    pose proof (history_save_run hst e' o Hs') as Hh. cbv zeta in Hh.
    subst d h. unfold run. rewrite Hd, Hh. clear Hd Hh.
    rewrite !(Hag DoctorCaseReview.selectedCase), !(Hag DoctorCaseReview.reviewStatus),
      !(Hag DoctorCaseReview.reviewNotes), !(Hag DoctorCaseReview.cases).
    simpl (shared _).
    destruct o as [msg | [|] b].
    + destruct c; simpl; rewrite ?Hag; reflexivity.
    + destruct (reviewedCases same_object _ _ _); destruct c; simpl; rewrite ?Hag;
        reflexivity.
    + destruct b as [msg | dt]; [| destruct (nullish dt)];
        destruct c; simpl; rewrite ?Hag; reflexivity.
  - assert (truthy (Component.cells hst PatientHistoryPage.selectedCase) = false) as Hs'.
    { rewrite <- Hs. rewrite (Hag DoctorCaseReview.selectedCase). reflexivity. }
    subst d h. unfold run.
    rewrite (doctor_save_none _ _ _ _ Hs), (history_save_none _ _ _ Hs'). apply Hag.
Qed.

(** X20.  The doctor is always answered, and told "saved" only when it
    is so: with a case selected every run of the doctor's handler raises
    exactly one alert and throws nothing; the alert is "Review saved
    successfully!" only after a success response with the selected case
    and the list updated; and an error status whose body is an object is
    reported with the body's [detail], or else the status text. *)
Theorem doctor_review_always_answers
    (st : DoctorCaseReview.State) (e : Env) (o : outcome) (statusText : string) :
  truthy (Component.cells st DoctorCaseReview.selectedCase) = true ->
  let selected := Component.cells st DoctorCaseReview.selectedCase in
  let updated := Component.updatedCase selected
                   (Component.cells st DoctorCaseReview.reviewStatus)
                   (Component.cells st DoctorCaseReview.reviewNotes) in
  let m := DoctorCaseReview.handleSaveReview ToString same_object o statusText in
  let w := run m st e in
  outcome_of m st e = Ok tt
  /\ Component.cells (fst w) DoctorCaseReview.savingReview = Bool false
  /\ exists a,
       alerts (snd w) = (alerts e ++ [a])%list
       /\ (a = "Review saved successfully!" ->
           (exists b, o = Resp true b)
           /\ Component.cells (fst w) DoctorCaseReview.selectedCase = updated
           /\ reviewedCases same_object (Component.cells st DoctorCaseReview.cases)
                selected updated
              = Ok (Component.cells (fst w) DoctorCaseReview.cases))
       /\ (forall d, o = Resp false (Json d) -> nullish d = false ->
           a = "Failed to save review: "
               ++ ToString (js_or (getOwn d "detail") (Str statusText))).
Proof.
  intros Hs selected updated m w.
  pose proof (doctor_save_run st e o statusText Hs) as Hrun. cbv zeta in Hrun.
  subst w m. unfold run, outcome_of. rewrite Hrun. clear Hrun.
  fold selected. fold updated.
  destruct o as [msg | [|] b].
  - split; [reflexivity |]. split; [reflexivity |]. eexists. split; [reflexivity |].
    split; [intros H; discriminate | intros d H; discriminate].
  - destruct (reviewedCases same_object _ selected updated) as [v | msg] eqn:Hr.
    + split; [reflexivity |]. split; [reflexivity |]. eexists. split; [reflexivity |].
      split; [| intros d H; discriminate].
      intros _. split; [eexists; reflexivity |]. split; reflexivity.
    + split; [reflexivity |]. split; [reflexivity |]. eexists. split; [reflexivity |].
      split; [intros H; discriminate | intros d H; discriminate].
  - destruct b as [msg | dt]; [| destruct (nullish dt) eqn:Hn].
    + split; [reflexivity |]. split; [reflexivity |]. eexists. split; [reflexivity |].
      split; [intros H; discriminate | intros d H; discriminate].
    + split; [reflexivity |]. split; [reflexivity |]. eexists. split; [reflexivity |].
      split; [intros H; discriminate |].
      intros d H Hd. injection H as <-. congruence.
    + split; [reflexivity |]. split; [reflexivity |]. eexists. split; [reflexivity |].
      split; [intros H; discriminate |].
      intros d H Hd. injection H as <-. reflexivity.
Qed.

Lemma nonempty_false (s : string) : nonempty s = false -> s = "".
Proof. destruct s; [reflexivity | discriminate]. Qed.

(** X21.  The form keeps what was saved: once a review is accepted the
    updated case becomes the selected one, the effect on the selection runs
    again, and it puts back into the form the very status and notes that
    were saved (a status that is not blank, notes that are a text). *)
Theorem saved_review_stays_in_form
    (st : PatientHistoryPage.State) (e : Env) (b : body) (cs : list jsval) (n : string) :
  truthy (Component.cells st PatientHistoryPage.selectedCase) = true ->
  Component.cells st PatientHistoryPage.cases = Arr cs ->
  Forall (fun c => nullish c = false) cs ->
  truthy (Component.cells st PatientHistoryPage.reviewStatus) = true ->
  Component.cells st PatientHistoryPage.reviewNotes = Str n ->
  let w := run (PatientHistoryPage.handleSaveReview same_object (Resp true b);;
                PatientHistoryPage.useEffect_selectedCase) st e in
  Component.cells (fst w) PatientHistoryPage.reviewStatus
  = Component.cells st PatientHistoryPage.reviewStatus
  /\ Component.cells (fst w) PatientHistoryPage.reviewNotes = Str n
  /\ getOwn (Component.cells (fst w) PatientHistoryPage.selectedCase) "status"
     = Str "reviewed".
Proof.
  intros Hs Hcs Hall Hst Hn w.
  assert (exists st',
            (PatientHistoryPage.handleSaveReview same_object (Resp true b);;
             PatientHistoryPage.useEffect_selectedCase) (st, e) = ((st', e), Ok tt)
            /\ Component.cells st' PatientHistoryPage.reviewStatus
               = Component.cells st PatientHistoryPage.reviewStatus
            /\ Component.cells st' PatientHistoryPage.reviewNotes = Str n
            /\ getOwn (Component.cells st' PatientHistoryPage.selectedCase) "status"
               = Str "reviewed") as (st' & Heq & H1 & H2 & H3).
  { pose proof (history_save_run st e (Resp true b) Hs) as Hrun. cbv zeta in Hrun.
    unfold mbind, M_bind. unfold bind at 1. rewrite Hrun. clear Hrun.
    unfold reviewedCases. rewrite Hcs, (replaced_ok _ _ _ Hall).
    unfold PatientHistoryPage.useEffect_selectedCase. unfold mbind, M_bind.
    unfold bind at 1, page. simpl.
    eexists. split; [reflexivity |]. simpl.
    rewrite !getOwn_updatedCase. simpl.
    rewrite (js_or_truthy _ _ Hst). rewrite Hn.
    split; [reflexivity |]. split; [| reflexivity].
    unfold js_or. simpl. destruct (nonempty n) eqn:Hne; [reflexivity |].
    rewrite (nonempty_false _ Hne). reflexivity. }
  subst w. unfold run. rewrite Heq. simpl. auto.
Qed.

End Review.

Lemma review_saved_in_list_witness :
  let w := run (PatientHistoryPage.handleSaveReview sample_same (Resp true (Json Null)))
             history_review empty_env in
  Component.cells (fst w) PatientHistoryPage.cases
  = Arr [Component.updatedCase sample_case (Str "approved") (Str "Agree with the AI");
         other_case].
Proof.
  exact (proj1 (review_saved_in_list sample_same history_review empty_env (Json Null)
                  [sample_case; other_case] eq_refl eq_refl
                  ltac:(repeat (apply List.Forall_cons; [reflexivity |]);
                        apply List.Forall_nil))).
Defined.

Lemma review_all_or_nothing_witness :
  let w := run (PatientHistoryPage.handleSaveReview sample_same (NetFail "offline"))
             history_review empty_env in
  Component.cells (fst w) PatientHistoryPage.savingReview = Bool false
  /\ store (snd w) = ∅.
Proof.
  pose proof (review_all_or_nothing sample_same history_review empty_env (NetFail "offline")
                eq_refl) as H.
  split.
  - exact (proj1 (proj2 H)).
  - exact (proj1 (proj2 (proj2 (proj2 H)))).
Defined.

Lemma review_handlers_agree_witness :
  Component.cells
    (fst (run (DoctorCaseReview.handleSaveReview sample_ToString sample_same
                 (Resp true (Json Null)) "OK") doctor_review empty_env))
    DoctorCaseReview.selectedCase
  = Component.cells
      (fst (run (PatientHistoryPage.handleSaveReview sample_same (Resp true (Json Null)))
              history_review empty_env))
      PatientHistoryPage.selectedCase.
Proof.
  exact (review_handlers_agree sample_ToString sample_same doctor_review history_review
           empty_env empty_env (Resp true (Json Null)) "OK" (fun c => eq_refl)
           DoctorCaseReview.selectedCase).
Defined.

Lemma doctor_review_always_answers_witness :
  let w := run (DoctorCaseReview.handleSaveReview sample_ToString sample_same
                  (Resp false (Json (Obj [("detail", Str "Case not found")]))) "Not Found")
             doctor_review empty_env in
  Component.cells (fst w) DoctorCaseReview.savingReview = Bool false
  /\ exists a, alerts (snd w) = [a] /\ a = "Failed to save review: Case not found".
Proof.
  destruct (doctor_review_always_answers sample_ToString sample_same doctor_review empty_env
              (Resp false (Json (Obj [("detail", Str "Case not found")]))) "Not Found"
              eq_refl) as (_ & Hsv & a & Ha & _ & Hd).
  split; [exact Hsv |].
  exists a. split; [exact Ha |]. exact (Hd _ eq_refl eq_refl).
Defined.

Lemma saved_review_stays_in_form_witness :
  let w := run (PatientHistoryPage.handleSaveReview sample_same (Resp true (Json Null));;
                PatientHistoryPage.useEffect_selectedCase) history_review empty_env in
  Component.cells (fst w) PatientHistoryPage.reviewStatus = Str "approved"
  /\ Component.cells (fst w) PatientHistoryPage.reviewNotes = Str "Agree with the AI".
Proof.
  pose proof (saved_review_stays_in_form sample_same history_review empty_env (Json Null)
                [sample_case; other_case] "Agree with the AI" eq_refl eq_refl
                ltac:(repeat (apply List.Forall_cons; [reflexivity |]);
                      apply List.Forall_nil)
                eq_refl eq_refl) as H.
  split.
  - exact (proj1 H).
  - exact (proj1 (proj2 H)).
Defined.

(** ** Loading the lists and the figures *)

Lemma history_fetchCases_run (st : PatientHistoryPage.State) (e : Env) (o : outcome) :
  PatientHistoryPage.fetchCases o (st, e)
  = ((Component.upd PatientHistoryPage.loading (Bool false)
        match o with
        | Resp true (Json d) =>
            Component.upd PatientHistoryPage.cases d
              (Component.called PatientHistoryPage.GetCases st)
        | Resp false _ => Component.called PatientHistoryPage.GetCases st
        | _ => Component.upd PatientHistoryPage.error (Str "Failed to load history")
                 (Component.called PatientHistoryPage.GetCases st)
        end, e), Ok tt).
Proof.
  unfold PatientHistoryPage.fetchCases, PatientHistoryPage.set, Component.setCell,
    Component.request, Component.call, finally, try_catch, settle, res_json, modify,
    throw, ret, mbind, M_bind, mret, M_ret, bind.
  destruct o as [msg | [|] [msg | d]]; reflexivity.
Qed.

(** X22.  The doctor's case list never fails silently: the loader throws
    nothing, makes its one call and switches the loading flag off; either
    the response was a success with a JSON body, which becomes the list
    while the error message is left alone, or the list is left alone and an
    error message that is not blank is shown. *)
Theorem doctor_list_failure_is_shown (st : DoctorCaseReview.State) (e : Env) (o : outcome) :
  let w := run (DoctorCaseReview.fetchCases o) st e in
  outcome_of (DoctorCaseReview.fetchCases o) st e = Ok tt
  /\ snd w = e
  /\ Component.calls (fst w) = (Component.calls st ++ [DoctorCaseReview.GetCases])%list
  /\ Component.cells (fst w) DoctorCaseReview.loading = Bool false
  /\ ((exists d, o = Resp true (Json d)
                 /\ Component.cells (fst w) DoctorCaseReview.cases = d
                 /\ Component.cells (fst w) DoctorCaseReview.error
                    = Component.cells st DoctorCaseReview.error)
      \/ (Component.cells (fst w) DoctorCaseReview.cases
          = Component.cells st DoctorCaseReview.cases
          /\ truthy (Component.cells (fst w) DoctorCaseReview.error) = true)).
Proof.
  unfold run, outcome_of, DoctorCaseReview.fetchCases, DoctorCaseReview.set,
    Component.setCell, Component.request, Component.call, finally, try_catch, settle,
    res_json, getProp, modify, throw, ret, mbind, M_bind, mret, M_ret, bind.
  destruct o as [msg | [|] [msg | d]]; simpl.
  - repeat split. right. split; reflexivity.
  - repeat split. right. split; reflexivity.
  - repeat split. left. exists d. repeat split.
  - repeat split. right. split; reflexivity.
  - destruct (nullish d) eqn:Hd; simpl.
    + repeat split. right. split; reflexivity.
    + repeat split. right. split; [reflexivity |].
      unfold js_or. destruct (truthy (getOwn d "error")) eqn:Ht; [exact Ht | reflexivity].
Qed.

(** X23.  The other three loaders (the history page's cases, the
    dashboard's figures, the chart's trends) throw nothing, make their one
    call, leave the browser alone and switch their loading flag off; what
    they show changes only with a success response that carries JSON.  An
    error status changes nothing else at all: the history page keeps its
    list and shows no error message. *)
Theorem quiet_loaders (o : outcome) :
  (forall (st : PatientHistoryPage.State) (e : Env),
     let w := run (PatientHistoryPage.fetchCases o) st e in
     outcome_of (PatientHistoryPage.fetchCases o) st e = Ok tt
     /\ snd w = e
     /\ Component.calls (fst w) = (Component.calls st ++ [PatientHistoryPage.GetCases])%list
     /\ Component.cells (fst w) PatientHistoryPage.loading = Bool false
     /\ Component.cells (fst w) PatientHistoryPage.cases
        = match o with
          | Resp true (Json d) => d
          | _ => Component.cells st PatientHistoryPage.cases
          end
     /\ Component.cells (fst w) PatientHistoryPage.error
        = match o with
          | NetFail _ | Resp true (BadJson _) => Str "Failed to load history"
          | _ => Component.cells st PatientHistoryPage.error
          end)
  /\ (forall (st : Dashboard.State) (e : Env),
        let w := run (Dashboard.fetchStats o) st e in
        outcome_of (Dashboard.fetchStats o) st e = Ok tt
        /\ snd w = e
        /\ Component.calls (fst w) = (Component.calls st ++ [Dashboard.GetStats])%list
        /\ Component.cells (fst w) Dashboard.loading = Bool false
        /\ Component.cells (fst w) Dashboard.stats
           = match o with
             | Resp true (Json d) => d
             | _ => Component.cells st Dashboard.stats
             end)
  /\ (forall (st : PatientChart.State) (e : Env),
        let w := run (PatientChart.fetchTrends o) st e in
        outcome_of (PatientChart.fetchTrends o) st e = Ok tt
        /\ snd w = e
        /\ Component.calls (fst w) = (Component.calls st ++ [PatientChart.GetTrends])%list
        /\ Component.cells (fst w) PatientChart.loading = Bool false
        /\ Component.cells (fst w) PatientChart.data
           = match o with
             | Resp true (Json d) => d
             | _ => Component.cells st PatientChart.data
             end).
Proof.
  split; [| split].
  - intros st e. unfold run, outcome_of. rewrite history_fetchCases_run.
    destruct o as [msg | [|] [msg | d]]; repeat split.
  - intros st e.
    unfold run, outcome_of, Dashboard.fetchStats, Component.setCell, Component.request,
      Component.call, finally, try_catch, settle, res_json, modify, throw, ret, mbind,
      M_bind, mret, M_ret, bind.
    destruct o as [msg | [|] [msg | d]]; repeat split.
  - intros st e.
    unfold run, outcome_of, PatientChart.fetchTrends, Component.setCell, Component.request,
      Component.call, finally, try_catch, settle, res_json, modify, throw, ret, mbind,
      M_bind, mret, M_ret, bind.
    destruct o as [msg | [|] [msg | d]]; repeat split.
Qed.

(** ** The history page: the analysis just made *)

Section HistoryMount.

Variable ToString : jsval -> string.
Variable JSON_stringify : jsval -> string.
Variable JSON_parse : string -> result jsval.

Lemma history_mount_shows (st : PatientHistoryPage.State) (e : Env) (s : string) (v : jsval)
    (o : outcome) :
  store e !! "lastAnalysis" = Some s -> nonempty s = true -> JSON_parse s = Ok v ->
  PatientHistoryPage.useEffect JSON_parse o (st, e)
  = PatientHistoryPage.fetchCases o
      (Component.upd PatientHistoryPage.latestAnalysis v st,
       with_store (delete "lastAnalysis") e).
Proof.
  intros Hl Hne Hp.
  unfold PatientHistoryPage.useEffect. unfold mbind, M_bind. unfold bind at 1, getItem.
  simpl. rewrite Hl. unfold if_item. rewrite Hne, Hp.
  unfold bind at 1, try_catch. unfold bind at 1.
  unfold PatientHistoryPage.set, Component.setCell, removeItem, modify, modify_env.
  reflexivity.
Qed.

Lemma history_mount_plain (st : PatientHistoryPage.State) (e : Env) (o : outcome) :
  store e !! "lastAnalysis" = None ->
  PatientHistoryPage.useEffect JSON_parse o (st, e) = PatientHistoryPage.fetchCases o (st, e).
Proof.
  intros Hl.
  unfold PatientHistoryPage.useEffect. unfold mbind, M_bind. unfold bind at 1, getItem.
  simpl. rewrite Hl. reflexivity.
Qed.

Lemma history_mount_result
    (st : PatientHistoryPage.State) (e : Env) (s : string) (v : jsval) (o : outcome) :
  store e !! "lastAnalysis" = Some s -> nonempty s = true -> JSON_parse s = Ok v ->
  run (PatientHistoryPage.useEffect JSON_parse o) st e
  = run (PatientHistoryPage.fetchCases o)
      (Component.upd PatientHistoryPage.latestAnalysis v st)
      (with_store (delete "lastAnalysis") e)
  /\ Component.cells (fst (run (PatientHistoryPage.useEffect JSON_parse o) st e))
       PatientHistoryPage.latestAnalysis = v
  /\ store (snd (run (PatientHistoryPage.useEffect JSON_parse o) st e))
     = delete "lastAnalysis" (store e).
Proof.
  intros Hl Hne Hp.
  assert (run (PatientHistoryPage.useEffect JSON_parse o) st e
          = run (PatientHistoryPage.fetchCases o)
              (Component.upd PatientHistoryPage.latestAnalysis v st)
              (with_store (delete "lastAnalysis") e)) as Hw.
  { unfold run. rewrite (history_mount_shows st e s v o Hl Hne Hp). reflexivity. }
  split; [exact Hw |]. rewrite Hw. unfold run. rewrite history_fetchCases_run. simpl.
  split; [destruct o as [msg | [|] [msg | d]]; reflexivity | reflexivity].
Qed.

(** X24.  The history page shows a stored analysis once.  With an
    analysis in local storage that parses, mounting the page puts the
    parsed value into the latest-analysis cell and removes the stored text
    (and loads the cases); a page mounted after that finds nothing to show:
    its latest-analysis cell stays what it was and storage is not touched
    again. *)
Theorem last_analysis_shown_once
    (st : PatientHistoryPage.State) (e : Env) (s : string) (v : jsval) (o : outcome) :
  store e !! "lastAnalysis" = Some s -> nonempty s = true -> JSON_parse s = Ok v ->
  let w := run (PatientHistoryPage.useEffect JSON_parse o) st e in
  Component.cells (fst w) PatientHistoryPage.latestAnalysis = v
  /\ store (snd w) = delete "lastAnalysis" (store e)
  /\ Component.calls (fst w) = (Component.calls st ++ [PatientHistoryPage.GetCases])%list
  /\ forall st2 o2,
       let w2 := run (PatientHistoryPage.useEffect JSON_parse o2) st2 (snd w) in
       Component.cells (fst w2) PatientHistoryPage.latestAnalysis
       = Component.cells st2 PatientHistoryPage.latestAnalysis
       /\ store (snd w2) = store (snd w).
Proof.
  intros Hl Hne Hp w.
  destruct (history_mount_result st e s v o Hl Hne Hp) as (Hw & H1 & H2).
  fold w in Hw, H1, H2.
  split; [exact H1 |]. split; [exact H2 |].
  split.
  { rewrite Hw. unfold run. rewrite history_fetchCases_run. simpl.
    destruct o as [msg | [|] [msg | d]]; reflexivity. }
  intros st2 o2.
  assert (store (snd w) !! "lastAnalysis" = None) as Hnone.
  { rewrite H2. apply lookup_delete_eq. }
  generalize dependent (snd w). intros e1 _ Hnone. cbv zeta. unfold run.
  rewrite (history_mount_plain st2 e1 o2 Hnone).
  rewrite history_fetchCases_run. simpl.
  split; [destruct o2 as [msg | [|] [msg | d]]; reflexivity | reflexivity].
Qed.

Lemma handleUpload_stores_analysis (up : UploadScansPage.State) (e : Env) (data : jsval)
    (s : string) :
  store e !! "symptoms" = Some s -> nonempty s = true -> nullish data = false ->
  store (snd (run (UploadScansPage.handleUpload ToString JSON_stringify
                     (Resp true (Json data))) up e)) !! "lastAnalysis"
  = Some (JSON_stringify data).
Proof.
  intros Hsym Hne Hd.
  unfold run, UploadScansPage.handleUpload. unfold mbind, M_bind.
  unfold bind at 1 2, page, getItem. simpl. rewrite Hsym. simpl. rewrite Hne.
  rewrite andb_false_r.
  unfold finally, try_catch, fetch, send, settle, res_json, UploadScansPage.errorStatus,
    UploadScansPage.setLoading, UploadScansPage.setStatus, modify, modify_env,
    setItem, navigate, getProp, when, mret, M_ret, ret, throw, bind.
  simpl. rewrite Hd. simpl.
  destruct (truthy (getOwn data "predictions")
            && negb (Nat.eqb (length (Object_keys (getOwn data "predictions"))) 0)),
    (truthy (getOwn data "image_url")), (truthy (getOwn data "gradcam_url")),
    (truthy (getOwn data "case_id")); simpl;
    rewrite ?lookup_insert_ne by discriminate; apply lookup_insert_eq.
Qed.

Lemma handleSkipScan_stores_analysis (up : UploadScansPage.State) (e : Env) (data : jsval)
    (s : string) :
  store e !! "symptoms" = Some s -> nonempty s = true -> nullish data = false ->
  store (snd (run (UploadScansPage.handleSkipScan ToString JSON_stringify
                     (Resp true (Json data))) up e)) !! "lastAnalysis"
  = Some (JSON_stringify data).
Proof.
  intros Hsym Hne Hd.
  unfold run, UploadScansPage.handleSkipScan.
  unfold mbind, M_bind, bind, getItem. simpl. rewrite Hsym. unfold if_item.
  rewrite Hne. simpl. unfold getProp. rewrite Hd. simpl.
  rewrite !lookup_delete_ne by discriminate. apply lookup_insert_eq.
Qed.

(** X25.  What a submission brings back is what the history page shows:
    after an accepted "Upload & Analyze" or "Skip Scan" the response is
    in local storage as text, and a history page mounted next shows that
    text read back, and clears it. *)
Theorem submitted_analysis_reaches_history
    (up : UploadScansPage.State) (e : Env) (data v : jsval) (s : string) :
  store e !! "symptoms" = Some s -> nonempty s = true -> nullish data = false ->
  nonempty (JSON_stringify data) = true ->
  JSON_parse (JSON_stringify data) = Ok v ->
  let upload := UploadScansPage.handleUpload ToString JSON_stringify (Resp true (Json data)) in
  let skip := UploadScansPage.handleSkipScan ToString JSON_stringify (Resp true (Json data)) in
  forall e1, e1 = snd (run upload up e) \/ e1 = snd (run skip up e) ->
  forall hst o,
    let w := run (PatientHistoryPage.useEffect JSON_parse o) hst e1 in
    Component.cells (fst w) PatientHistoryPage.latestAnalysis = v
    /\ store (snd w) !! "lastAnalysis" = None.
Proof.
  intros Hsym Hne Hd Hj Hp upload skip e1 He1 hst o w.
  assert (store e1 !! "lastAnalysis" = Some (JSON_stringify data)) as Hl.
  { destruct He1 as [-> | ->].
    - apply (handleUpload_stores_analysis up e data s Hsym Hne Hd).
    - apply (handleSkipScan_stores_analysis up e data s Hsym Hne Hd). }
  destruct (history_mount_result hst e1 _ v o Hl Hj Hp) as (_ & H1 & H2).
  split; [exact H1 |]. subst w. rewrite H2. apply lookup_delete_eq.
Qed.

End HistoryMount.

Lemma last_analysis_shown_once_witness :
  let w := run (PatientHistoryPage.useEffect sample_parse_ok (NetFail "offline"))
             PatientHistoryPage.initial analysis_env in
  Component.cells (fst w) PatientHistoryPage.latestAnalysis = Obj [("Pneumonia", Num 0.8)]
  /\ store (snd w) = delete "lastAnalysis" (store analysis_env).
Proof.
  pose proof (last_analysis_shown_once sample_parse_ok PatientHistoryPage.initial analysis_env
                "{}" (Obj [("Pneumonia", Num 0.8)]) (NetFail "offline")
                eq_refl eq_refl eq_refl) as H.
  split.
  - exact (proj1 H).
  - exact (proj1 (proj2 H)).
Defined.

Lemma submitted_analysis_reaches_history_witness :
  Component.cells
    (fst (run (PatientHistoryPage.useEffect sample_parse_ok (NetFail "offline"))
            PatientHistoryPage.initial
            (snd (run (UploadScansPage.handleUpload sample_ToString sample_stringify
                         (Resp true (Json sample_upload))) upload_form fresh_env))))
    PatientHistoryPage.latestAnalysis
  = Obj [("Pneumonia", Num 0.8)].
Proof.
  exact (proj1 (submitted_analysis_reaches_history sample_ToString sample_stringify
                  sample_parse_ok upload_form fresh_env sample_upload
                  (Obj [("Pneumonia", Num 0.8)]) "fever"
                  eq_refl eq_refl eq_refl eq_refl eq_refl _ (or_introl eq_refl)
                  PatientHistoryPage.initial (NetFail "offline"))).
Defined.

(** ** The patient's profile *)

Section Profile.

Variable JSON_stringify : jsval -> string.
Variable JSON_parse : string -> result jsval.

(** X26.  An edit of the profile survives a reload.  From the viewing
    mode the button opens the form and writes nothing; a change of one
    field replaces that field and no other; the button then stores the
    profile as text and closes the form; and the profile cell of a page
    loaded afterwards starts from that text read back, not from the
    built-in profile. *)
Theorem profile_edit_survives_reload
    (st : PatientProfile.State) (e : Env) (name value : string) :
  truthy (Component.cells st PatientProfile.isEditing) = false ->
  nonempty (JSON_stringify
              (spread_with (Component.cells st PatientProfile.profile) name (Str value)))
  = true ->
  let edited := spread_with (Component.cells st PatientProfile.profile) name (Str value) in
  let opened := run (PatientProfile.onEditButton JSON_stringify) st e in
  let w := run (PatientProfile.onEditButton JSON_stringify;;
                PatientProfile.handleChange name value;;
                PatientProfile.onEditButton JSON_stringify) st e in
  snd opened = e
  /\ Component.cells (fst opened) PatientProfile.isEditing = Bool true
  /\ Component.cells (fst w) PatientProfile.profile = edited
  /\ getOwn edited name = Str value
  /\ (forall k, k <> name ->
        getOwn edited k = getOwn (Component.cells st PatientProfile.profile) k)
  /\ Component.cells (fst w) PatientProfile.isEditing = Bool false
  /\ store (snd w) = <["patientProfile" := JSON_stringify edited]> (store e)
  /\ PatientProfile.loadProfile JSON_parse (store (snd w))
     = JSON_parse (JSON_stringify edited).
Proof.
  intros Hv Hne edited opened w.
  assert (PatientProfile.onEditButton JSON_stringify (st, e)
          = ((Component.upd PatientProfile.isEditing (Bool true) st, e), Ok tt)) as Ho.
  { unfold PatientProfile.onEditButton. unfold mbind, M_bind. unfold bind at 1, page. simpl.
    rewrite Hv. reflexivity. }
  assert (w = (Component.upd PatientProfile.isEditing (Bool false)
                 (Component.upd PatientProfile.profile edited
                    (Component.upd PatientProfile.isEditing (Bool true) st)),
               with_store (insert "patientProfile" (JSON_stringify edited)) e)) as Hw.
  { subst w. unfold run. unfold mbind at 1 2, M_bind. unfold bind at 1. rewrite Ho.
    unfold bind at 1, PatientProfile.handleChange, modify. simpl.
    unfold PatientProfile.onEditButton, PatientProfile.handleSave.
    unfold mbind, M_bind, bind, page, setItem, Component.setCell, modify, modify_env.
    reflexivity. }
  subst opened. unfold run at 1 2. rewrite Ho, Hw. simpl.
  split; [reflexivity |]. split; [reflexivity |]. split; [reflexivity |].
  split; [apply getOwn_spread_eq |].
  split; [intros k Hk; apply getOwn_spread_ne; exact Hk |].
  split; [reflexivity |]. split; [reflexivity |].
  unfold PatientProfile.loadProfile. rewrite lookup_insert_eq. unfold if_item.
  fold edited in Hne. rewrite Hne. reflexivity.
Qed.

End Profile.

Lemma profile_edit_survives_reload_witness :
  let w := run (PatientProfile.onEditButton sample_stringify;;
                PatientProfile.handleChange "age" "31";;
                PatientProfile.onEditButton sample_stringify) profile_page empty_env in
  PatientProfile.loadProfile sample_parse_profile (store (snd w))
  = Ok (Obj [("name", Str "John Doe"); ("age", Str "31")])
  /\ Component.cells (fst w) PatientProfile.profile
     = Obj [("name", Str "John Doe"); ("age", Str "31")].
Proof.
  pose proof (profile_edit_survives_reload sample_stringify sample_parse_profile profile_page
                empty_env "age" "31" eq_refl eq_refl) as H.
  split.
  - exact (proj2 (proj2 (proj2 (proj2 (proj2 (proj2 (proj2 H))))))).
  - exact (proj1 (proj2 (proj2 H))).
Defined.

(** ** From the symptoms page to the flow *)

Section AcrossPages.

Variable ToString : jsval -> string.
Variable JSON_stringify : jsval -> string.
Variable JSON_parse : string -> result jsval.

(** X27.  New symptoms entered while an earlier session id is still in
    local storage do not start a new diagnosis.  "Continue to Scan
    Upload" stores the inputs and leaves the session id, the upload leaves
    it as well, and the flow mounted next first asks for the status of the
    old session.  Unless that request is answered with an error status, no
    start request follows at all; if it is, the start request is built
    from the new symptoms and carries neither predictions nor imaging
    references, whatever the upload returned. *)
Theorem new_symptoms_meet_old_session
    (sp : SymptomsPage.State) (up : UploadScansPage.State) (e : Env) (o : outcome)
    (sid : string) :
  store e !! "diagnosisSessionId" = Some sid -> nonempty sid = true ->
  nonempty (trim (SymptomsPage.symptoms sp)) = true ->
  let e1 := snd (run SymptomsPage.handleSubmit sp e) in
  let e2 := snd (run (UploadScansPage.handleUpload ToString JSON_stringify o) up e1) in
  routes e1 = (routes e ++ ["/upload-scans"])%list
  /\ store e2 !! "symptoms" = Some (SymptomsPage.symptoms sp)
  /\ forall fs o1 o2, exists rest,
       sent (snd (run (useEffect ToString JSON_parse o1 o2) fs e2))
       = (sent e2 ++ GetStatus sid :: rest)%list
       /\ ((forall b, o1 <> Resp false b) -> rest = [])
       /\ (forall b, o1 = Resp false b ->
           exists body, rest = [PostStart body]
                        /\ symptoms body = extractSymptoms (SymptomsPage.symptoms sp)
                        /\ no_imaging body).
Proof.
  intros Hsid Hne Htrim e1 e2.
  assert (store e1
          = <["geneticVariants" := SymptomsPage.geneticVariants sp]>
              (<["familyHistory" := SymptomsPage.familyHistory sp]>
                 (<["symptomMonth" := numToString (SymptomsPage.month sp)]>
                    (<["patientRegion" := SymptomsPage.region sp]>
                       (<["symptoms" := SymptomsPage.symptoms sp]> (store e)))))
          /\ routes e1 = (routes e ++ ["/upload-scans"])%list) as [Hst Hr].
  { subst e1. unfold run, SymptomsPage.handleSubmit.
    unfold mbind, M_bind, bind, page. simpl. rewrite Htrim. split; reflexivity. }
  assert (store e2 !! "diagnosisSessionId" = Some sid) as H1.
  { subst e2. rewrite handleUpload_frame.
    - rewrite Hst. rewrite !lookup_insert_ne by discriminate. exact Hsid.
    - simpl. intros H. repeat (destruct H as [H | H]; [discriminate |]). exact H. }
  assert (store e2 !! "symptoms" = Some (SymptomsPage.symptoms sp)) as H2.
  { subst e2. rewrite handleUpload_frame.
    - rewrite Hst. rewrite !lookup_insert_ne by discriminate. apply lookup_insert_eq.
    - simpl. intros H. repeat (destruct H as [H | H]; [discriminate |]). exact H. }
  split; [exact Hr |]. split; [exact H2 |].
  intros fs o1 o2.
  destruct (useEffect_resumes ToString JSON_parse fs e2 sid o1 o2 H1 Hne) as [st2 Heq].
  eexists. split.
  { unfold run. rewrite Heq.
    pose proof (resumeSession_sent ToString st2 e2 sid o1 o2) as Hs. unfold run in Hs.
    rewrite Hs, H2. reflexivity. }
  unfold if_item. rewrite (nonempty_trim _ Htrim).
  split.
  - intros Hb. destruct o1 as [msg | [|] b']; try reflexivity.
    exfalso. apply (Hb b'). reflexivity.
  - intros b ->. eexists. split; [reflexivity |]. split; [reflexivity |].
    apply requestBody_no_imaging.
Qed.

End AcrossPages.

Lemma new_symptoms_meet_old_session_witness :
  store (snd (run (UploadScansPage.handleUpload sample_ToString sample_stringify
                     (Resp true (Json sample_upload))) upload_form
                (snd (run SymptomsPage.handleSubmit (form "chest pain") session_env))))
    !! "symptoms"
  = Some "chest pain".
Proof.
  exact (proj1 (proj2 (new_symptoms_meet_old_session sample_ToString sample_stringify
                         sample_parse (form "chest pain") upload_form session_env
                         (Resp true (Json sample_upload)) "s-1" eq_refl eq_refl eq_refl))).
Defined.
